(** * Beremiz [targets/toolchain_gcc.py]: a shallow embedding and its properties

    The development follows the Python module top to bottom.

    Conventions of the embedding.
    - A Python [str] is a Rocq [string] holding the UTF-8 encoding of the
      text; a [bytes] object is a [string] too.  Substring search,
      replacement, joining and suffix tests agree on the two views because
      UTF-8 is self-synchronising; the character classes that the code uses
      ([\s] of [re], the line boundaries of [str.splitlines], the blanks of
      [str.strip]) are spelled out on the encoded bytes.
    - [os.path] is [posixpath].
    - The file system is a finite map from the path string handed to the
      operating system to a node (regular file with its bytes, or directory).
    - Methods thread an explicit state; an exception is a result of its own
      and leaves the state as it was when it was raised.
    - External processes ([ProcessLogger(...).spin()], [subprocess.check_output])
      are functions supplied by the environment.
    - The file system holds no permissions: whether [os.remove] is allowed
      to take a file away is supplied by the environment too. *)

From Stdlib Require Import ZArith Ascii String List Lia Bool DecimalString.
From stdpp Require Import base option gmap strings list.

Import ListNotations.
Local Open Scope string_scope.
Local Open Scope Z_scope.

(** ** Bytes and strings *)

Module Str.

Definition code (c : ascii) : N := N_of_ascii c.

Definition ch (n : N) : ascii := ascii_of_N n.

Definition dquote : ascii := ascii_of_N 34.

Definition byte_is (n : N) (c : ascii) : bool := N.eqb (code c) n.

(** [s.startswith(p)] *)
Fixpoint startswith (p s : string) : bool :=
  match p, s with
  | EmptyString, _ => true
  | String a p', String b s' => Ascii.eqb a b && startswith p' s'
  | String _ _, EmptyString => false
  end.

(** [s[len(p):]] when [s.startswith(p)] *)
Fixpoint strip_prefix (p s : string) : option string :=
  match p, s with
  | EmptyString, _ => Some s
  | String a p', String b s' => if Ascii.eqb a b then strip_prefix p' s' else None
  | String _ _, EmptyString => None
  end.

Fixpoint rev_onto (s acc : string) : string :=
  match s with
  | EmptyString => acc
  | String c s' => rev_onto s' (String c acc)
  end.

Definition rev (s : string) : string := rev_onto s EmptyString.

(** [s.endswith(p)] *)
Definition endswith (p s : string) : bool := startswith (rev p) (rev s).

(** [sub in s] *)
Fixpoint contains (sub s : string) : bool :=
  startswith sub s ||
  match s with
  | EmptyString => false
  | String _ s' => contains sub s'
  end.

(** [c in s] for a single character *)
Fixpoint has_char (c : ascii) (s : string) : bool :=
  match s with
  | EmptyString => false
  | String a s' => Ascii.eqb a c || has_char c s'
  end.

(** [sep.join(l)] *)
Fixpoint join (sep : string) (l : list string) : string :=
  match l with
  | [] => EmptyString
  | [x] => x
  | x :: l' => x ++ sep ++ join sep l'
  end.

(** [s.replace(old, new)] for a non-empty [old]: the occurrences are taken
    from the left and do not overlap.  [skip] counts the characters of the
    occurrence being consumed. *)
Fixpoint replace_from (old new : string) (skip : nat) (s : string) : string :=
  match s with
  | EmptyString => EmptyString
  | String c s' =>
      match skip with
      | S k => replace_from old new k s'
      | O =>
          if startswith old s
          then new ++ replace_from old new (Nat.pred (String.length old)) s'
          else String c (replace_from old new O s')
      end
  end.

(** With an empty [old] Python puts [new] before every character and at
    the end. *)
Fixpoint interleave (new s : string) : string :=
  match s with
  | EmptyString => new
  | String c s' => new ++ String c (interleave new s')
  end.

Definition replace (old new s : string) : string :=
  match old with
  | EmptyString => interleave new s
  | String _ _ => replace_from old new O s
  end.

(** *** Character classes on UTF-8 text *)

(** One-byte members of [str.isspace]: U+0009..U+000D, U+001C..U+001F, U+0020. *)
Definition isspace1 (a : ascii) : bool :=
  let n := code a in
  ((9 <=? n) && (n <=? 13) || (28 <=? n) && (n <=? 32))%N.

(** U+0085 and U+00A0. *)
Definition isspace2 (a b : ascii) : bool :=
  byte_is 194 a && (byte_is 133 b || byte_is 160 b).

(** U+1680, U+2000..U+200A, U+2028, U+2029, U+202F, U+205F, U+3000. *)
Definition isspace3 (a b c : ascii) : bool :=
  let n := code c in
  byte_is 225 a && byte_is 154 b && byte_is 128 c
  || byte_is 226 a && byte_is 128 b &&
       ((128 <=? n) && (n <=? 138) || byte_is 168 c || byte_is 169 c || byte_is 175 c)%N
  || byte_is 226 a && byte_is 129 b && byte_is 159 c
  || byte_is 227 a && byte_is 128 b && byte_is 128 c.

(** The longest prefix matched by [\s*] is dropped. *)
Fixpoint skip_ws (s : string) : string :=
  match s with
  | EmptyString => s
  | String a s1 =>
      if isspace1 a then skip_ws s1 else
      match s1 with
      | EmptyString => s
      | String b s2 =>
          if isspace2 a b then skip_ws s2 else
          match s2 with
          | EmptyString => s
          | String c s3 => if isspace3 a b c then skip_ws s3 else s
          end
      end
  end.

(** The same classes read from the end of the text, on the reversed string. *)
Fixpoint skip_ws_rev (s : string) : string :=
  match s with
  | EmptyString => s
  | String a s1 =>
      if isspace1 a then skip_ws_rev s1 else
      match s1 with
      | EmptyString => s
      | String b s2 =>
          if isspace2 b a then skip_ws_rev s2 else
          match s2 with
          | EmptyString => s
          | String c s3 => if isspace3 c b a then skip_ws_rev s3 else s
          end
      end
  end.

(** [s.strip()] *)
Definition strip (s : string) : string := rev (skip_ws_rev (rev (skip_ws s))).

(** One-byte line boundaries of [str.splitlines]: LF, VT, FF, CR, FS, GS, RS. *)
Definition islinebreak1 (a : ascii) : bool :=
  let n := code a in
  ((10 <=? n) && (n <=? 13) || (28 <=? n) && (n <=? 30))%N.

(** U+0085. *)
Definition islinebreak2 (a b : ascii) : bool := byte_is 194 a && byte_is 133 b.

(** U+2028 and U+2029. *)
Definition islinebreak3 (a b c : ascii) : bool :=
  byte_is 226 a && byte_is 128 b && (byte_is 168 c || byte_is 169 c).

Definition cons_line (c : ascii) (ls : list string) : list string :=
  match ls with
  | [] => [String c EmptyString]
  | l :: ls' => String c l :: ls'
  end.

(** [s.splitlines()]: the boundaries are dropped, CR LF counts once, and a
    final boundary opens no empty last line. *)
Fixpoint splitlines (s : string) : list string :=
  match s with
  | EmptyString => []
  | String a s1 =>
      if islinebreak1 a then
        match s1 with
        | String b s2 =>
            if byte_is 13 a && byte_is 10 b then EmptyString :: splitlines s2
            else EmptyString :: splitlines s1
        | EmptyString => [EmptyString]
        end
      else
      match s1 with
      | EmptyString => [s]
      | String b s2 =>
          if islinebreak2 a b then EmptyString :: splitlines s2 else
          match s2 with
          | EmptyString => cons_line a (splitlines s1)
          | String c s3 =>
              if islinebreak3 a b c then EmptyString :: splitlines s3
              else cons_line a (splitlines s1)
          end
      end
  end.

End Str.

(** ** [os.path] ([posixpath]) *)

Module Posixpath.

Definition sep : ascii := "/"%char.

(** [os.path.join(a, b)] *)
Definition join (a b : string) : string :=
  if Str.startswith "/" b then b
  else if (String.eqb a EmptyString || Str.endswith "/" a)%bool then a ++ b
  else a ++ "/" ++ b.

(** [os.path.basename(p)]: what follows the last separator. *)
Fixpoint basename (p : string) : string :=
  match p with
  | EmptyString => EmptyString
  | String c p' =>
      if Str.has_char sep p' then basename p'
      else if Ascii.eqb c sep then p' else p
  end.

(** [p.rfind(c)], with [-1] when [c] does not occur. *)
Fixpoint rfind (c : ascii) (p : string) : Z :=
  match p with
  | EmptyString => -1
  | String a p' =>
      let r := rfind c p' in
      if 0 <=? r then r + 1 else if Ascii.eqb a c then 0 else -1
  end.

Fixpoint all_dots (s : string) : bool :=
  match s with
  | EmptyString => true
  | String a s' => Ascii.eqb a "."%char && all_dots s'
  end.

(** [os.path.splitext(p)]: the extension starts at the last dot of the last
    component, unless only dots precede it there. *)
Definition splitext (p : string) : string * string :=
  let sepIndex := rfind sep p in
  let dotIndex := rfind "."%char p in
  if (sepIndex <? dotIndex)
     && negb (all_dots (String.substring (Z.to_nat (sepIndex + 1))
                                         (Z.to_nat (dotIndex - sepIndex - 1)) p))
  then (String.substring 0 (Z.to_nat dotIndex) p,
        String.substring (Z.to_nat dotIndex)
                         (String.length p - Z.to_nat dotIndex) p)
  else (p, EmptyString).

End Posixpath.

(** ** [includes_re] *)

(** The pattern of [includes_re] reads, in order: blanks ([\s*]), the
    word [#include], blanks, one opening delimiter (a double quote or [<]),
    a group of characters that are neither a double quote nor [>], one
    closing delimiter (a double quote or [>]), and anything ([.*]).  No
    choice point of the pattern can succeed in two ways, so matching is a
    left-to-right scan. *)
Module Re.

Definition is_open (c : ascii) : bool := Ascii.eqb c Str.dquote || Ascii.eqb c "<"%char.

Definition is_close (c : ascii) : bool := Ascii.eqb c Str.dquote || Ascii.eqb c ">"%char.

(** The group and the closing delimiter: the text before the first closing
    delimiter, provided there is one. *)
Fixpoint until_close (s : string) : option string :=
  match s with
  | EmptyString => None
  | String c s' =>
      if is_close c then Some EmptyString
      else option_map (String c) (until_close s')
  end.

(** [includes_re.match(l)], returning [res.groups()[0]]. *)
Definition includes_re_match (l : string) : option string :=
  match Str.strip_prefix "#include" (Str.skip_ws l) with
  | None => None
  | Some l' =>
      match Str.skip_ws l' with
      | EmptyString => None
      | String c l'' => if is_open c then until_close l'' else None
      end
  end.

End Re.

(** ** [bytes.decode()] *)

Module Utf8.

Definition between (lo hi : N) (c : ascii) : bool :=
  let n := Str.code c in ((lo <=? n) && (n <=? hi))%N.

Definition cont (c : ascii) : bool := between 128 191 c.

(** Well-formed UTF-8 byte sequences (Unicode, table 3-7). *)
Fixpoint valid (s : string) : bool :=
  match s with
  | EmptyString => true
  | String a s1 =>
      if between 0 127 a then valid s1 else
      match s1 with
      | EmptyString => false
      | String b s2 =>
          if between 194 223 a then cont b && valid s2 else
          match s2 with
          | EmptyString => false
          | String c s3 =>
              if between 224 239 a then
                (between 224 224 a && between 160 191 b
                 || (between 225 236 a || between 238 239 a) && cont b
                 || between 237 237 a && between 128 159 b)
                && cont c && valid s3
              else
              match s3 with
              | EmptyString => false
              | String d s4 =>
                  (between 240 240 a && between 144 191 b
                   || between 241 243 a && cont b
                   || between 244 244 a && between 128 143 b)
                  && cont c && cont d && valid s4
              end
          end
      end
  end.

End Utf8.

(** ** [hashlib.md5] (RFC 1321) *)

Module MD5.

Definition K : list Z :=
  [ 0xd76aa478; 0xe8c7b756; 0x242070db; 0xc1bdceee;
    0xf57c0faf; 0x4787c62a; 0xa8304613; 0xfd469501;
    0x698098d8; 0x8b44f7af; 0xffff5bb1; 0x895cd7be;
    0x6b901122; 0xfd987193; 0xa679438e; 0x49b40821;
    0xf61e2562; 0xc040b340; 0x265e5a51; 0xe9b6c7aa;
    0xd62f105d; 0x02441453; 0xd8a1e681; 0xe7d3fbc8;
    0x21e1cde6; 0xc33707d6; 0xf4d50d87; 0x455a14ed;
    0xa9e3e905; 0xfcefa3f8; 0x676f02d9; 0x8d2a4c8a;
    0xfffa3942; 0x8771f681; 0x6d9d6122; 0xfde5380c;
    0xa4beea44; 0x4bdecfa9; 0xf6bb4b60; 0xbebfbc70;
    0x289b7ec6; 0xeaa127fa; 0xd4ef3085; 0x04881d05;
    0xd9d4d039; 0xe6db99e5; 0x1fa27cf8; 0xc4ac5665;
    0xf4292244; 0x432aff97; 0xab9423a7; 0xfc93a039;
    0x655b59c3; 0x8f0ccc92; 0xffeff47d; 0x85845dd1;
    0x6fa87e4f; 0xfe2ce6e0; 0xa3014314; 0x4e0811a1;
    0xf7537e82; 0xbd3af235; 0x2ad7d2bb; 0xeb86d391 ].

Definition shifts : list Z :=
  [ 7; 12; 17; 22; 7; 12; 17; 22; 7; 12; 17; 22; 7; 12; 17; 22;
    5; 9; 14; 20; 5; 9; 14; 20; 5; 9; 14; 20; 5; 9; 14; 20;
    4; 11; 16; 23; 4; 11; 16; 23; 4; 11; 16; 23; 4; 11; 16; 23;
    6; 10; 15; 21; 6; 10; 15; 21; 6; 10; 15; 21; 6; 10; 15; 21 ].

Definition w32 (x : Z) : Z := x mod 2 ^ 32.

Definition not32 (x : Z) : Z := Z.lxor x 0xffffffff.

Definition rotl (x c : Z) : Z :=
  w32 (Z.lor (Z.shiftl x c) (Z.shiftr x (32 - c))).

Definition state : Type := Z * Z * Z * Z.

Definition init : state := (0x67452301, 0xefcdab89, 0x98badcfe, 0x10325476).

(** One of the 64 operations on the block [M] of sixteen words. *)
Definition step (M : list Z) (st : state) (i : Z) : state :=
  let '(A, B, C, D) := st in
  let '(F, g) :=
    if i <? 16 then (Z.lor (Z.land B C) (Z.land (not32 B) D), i)
    else if i <? 32 then (Z.lor (Z.land D B) (Z.land (not32 D) C), (5 * i + 1) mod 16)
    else if i <? 48 then (Z.lxor (Z.lxor B C) D, (3 * i + 5) mod 16)
    else (Z.lxor C (Z.lor B (not32 D)), (7 * i) mod 16) in
  let F' := w32 (F + A + nth (Z.to_nat i) K 0 + nth (Z.to_nat g) M 0) in
  (D, w32 (B + rotl F' (nth (Z.to_nat i) shifts 0)), B, C).

Definition block (M : list Z) (st : state) : state :=
  let '(a0, b0, c0, d0) := st in
  let '(A, B, C, D) := fold_left (step M) (map Z.of_nat (seq 0 64)) st in
  (w32 (a0 + A), w32 (b0 + B), w32 (c0 + C), w32 (d0 + D)).

(** Little-endian words of a byte sequence whose length is a multiple of 4. *)
Fixpoint words (bs : list Z) : list Z :=
  match bs with
  | b0 :: b1 :: b2 :: b3 :: bs' =>
      (b0 + 256 * b1 + 65536 * b2 + 16777216 * b3) :: words bs'
  | _ => []
  end.

Fixpoint blocks (fuel : nat) (ws : list Z) (st : state) : state :=
  match fuel, ws with
  | S fuel', _ :: _ => blocks fuel' (skipn 16 ws) (block (firstn 16 ws) st)
  | _, _ => st
  end.

Definition le_bytes (n : nat) (x : Z) : list Z :=
  map (fun k => (x / 256 ^ Z.of_nat k) mod 256) (seq 0 n).

(** The message, the byte [0x80], zeros up to 56 modulo 64, and the bit
    length on 64 bits. *)
Definition pad (bs : list Z) : list Z :=
  let len := Z.of_nat (List.length bs) in
  bs ++ [128] ++ repeat 0 (Z.to_nat ((55 - len) mod 64)) ++ le_bytes 8 ((8 * len) mod 2 ^ 64).

Definition digest (bs : list Z) : list Z :=
  let ws := words (pad bs) in
  let '(A, B, C, D) := blocks (List.length ws) ws init in
  le_bytes 4 A ++ le_bytes 4 B ++ le_bytes 4 C ++ le_bytes 4 D.

Definition hexchar (x : Z) : ascii :=
  if x <? 10 then ascii_of_N (Z.to_N (48 + x)) else ascii_of_N (Z.to_N (87 + x)).

Fixpoint hex (bs : list Z) : string :=
  match bs with
  | [] => EmptyString
  | b :: bs' => String (hexchar (b / 16)) (String (hexchar (b mod 16)) (hex bs'))
  end.

Definition bytes_of (s : string) : list Z :=
  map (fun c => Z.of_N (N_of_ascii c)) (list_ascii_of_string s).

(** [hashlib.md5(s).hexdigest()] *)
Definition hexdigest (s : string) : string := hex (digest (bytes_of s)).

End MD5.

(** ** [shlex.split] *)

(** [shlex.split(s)]: POSIX mode, [whitespace_split] set, no comment
    characters.  [None] stands for the [ValueError] of an unclosed quotation
    or a dangling escape. *)
Module Shlex.

Inductive mode :=
| Blank                      (* state ' ' *)
| Word                       (* state 'a' *)
| Quote (q : ascii)          (* state is the opening quote *)
| Escape (in_dquote : bool). (* state is the backslash; escapedstate is the
                                double quote or 'a' *)

Definition whitespace (c : ascii) : bool :=
  Ascii.eqb c " "%char || Str.byte_is 9 c || Str.byte_is 13 c || Str.byte_is 10 c.

Definition quotes (c : ascii) : bool := Ascii.eqb c "'"%char || Ascii.eqb c Str.dquote.

Definition escape (c : ascii) : bool := Ascii.eqb c "\"%char.

Definition snoc (tok : string) (c : ascii) : string := tok ++ String c EmptyString.

Definition emit (tok : string) (rest : option (list string)) : option (list string) :=
  option_map (cons tok) rest.

Definition has_token (tok : string) (quoted : bool) : bool :=
  negb (String.eqb tok EmptyString) || quoted.

Fixpoint read (m : mode) (tok : string) (quoted : bool) (s : string)
  : option (list string) :=
  match s with
  | EmptyString =>
      match m with
      | Blank => Some []
      | Word => Some (if has_token tok quoted then [tok] else [])
      | Quote _ => None
      | Escape _ => None
      end
  | String c s' =>
      match m with
      | Blank =>
          if whitespace c then read Blank EmptyString false s'
          else if escape c then read (Escape false) EmptyString false s'
          else if quotes c then read (Quote c) EmptyString true s'
          else read Word (String c EmptyString) false s'
      | Word =>
          if whitespace c then
            if has_token tok quoted then emit tok (read Blank EmptyString false s')
            else read Blank tok quoted s'
          else if quotes c then read (Quote c) tok true s'
          else if escape c then read (Escape false) tok quoted s'
          else read Word (snoc tok c) quoted s'
      | Quote q =>
          if Ascii.eqb c q then read Word tok true s'
          else if escape c && Ascii.eqb q Str.dquote then read (Escape true) tok true s'
          else read (Quote q) (snoc tok c) true s'
      | Escape dq =>
          let back := if dq then Quote Str.dquote else Word in
          if dq && negb (escape c) && negb (Ascii.eqb c Str.dquote)
          then read back (snoc (snoc tok "\"%char) c) quoted s'
          else read back (snoc tok c) quoted s'
      end
  end.

Definition split (s : string) : option (list string) := read Blank EmptyString false s.

End Shlex.

Local Close Scope string_scope.

(** ** Results, exceptions and the state monad *)

Inductive exn :=
| KeyError
| FileNotFoundError
| IsADirectoryError
| ValueError
| UnicodeDecodeError
| RecursionError
| PermissionError.

Inductive result (A : Type) :=
| Ret (a : A)
| Raise (e : exn).

Arguments Ret {A} a.
Arguments Raise {A} e.

(** A computation on a state of type [S]: the state is returned on both
    outcomes, since Python keeps the mutations made before an exception. *)
Definition M (S A : Type) : Type := S -> result A * S.

Definition ret {S A} (a : A) : M S A := fun s => (Ret a, s).

Definition raise {S A} (e : exn) : M S A := fun s => (Raise e, s).

Definition bind {S A B} (m : M S A) (k : A -> M S B) : M S B :=
  fun s =>
    match m s with
    | (Ret a, s') => k a s'
    | (Raise e, s') => (Raise e, s')
    end.

Definition gets {S A} (f : S -> A) : M S A := fun s => (Ret (f s), s).

Definition modify {S} (f : S -> S) : M S unit := fun s => (Ret tt, f s).

Definition lift_result {S A} (r : result A) : M S A := fun s => (r, s).

Declare Scope monad_scope.
Delimit Scope monad_scope with monad.

Notation "'let*' x ':=' m 'in' k" := (bind m (fun x => k))
  (at level 10, x pattern, m at level 100, k at level 200) : monad_scope.

Notation "m ';;' k" := (bind m (fun _ => k))
  (at level 100, k at level 200, right associativity) : monad_scope.

Local Open Scope monad_scope.

(** [list(map(f, l))] for an effectful [f]: left to right, stopping at the
    first exception. *)
Fixpoint mapM {S A B} (f : A -> M S B) (l : list A) : M S (list B) :=
  match l with
  | [] => ret []
  | x :: l' =>
      let* y := f x in
      let* ys := mapM f l' in
      ret (y :: ys)
  end.

(** ** Files *)

Inductive node :=
| File (data : string)
| Dir.

(** [os.path.exists(p)] *)
Definition path_exists (fs : gmap string node) (p : string) : bool :=
  match fs !! p with
  | Some _ => true
  | None => false
  end.

(** [open(p, 'rb')] followed by reading: the bytes of a regular file. *)
Definition open_rb (fs : gmap string node) (p : string) : result string :=
  match fs !! p with
  | Some (File data) => Ret data
  | Some Dir => Raise IsADirectoryError
  | None => Raise FileNotFoundError
  end.

(** [f = open(p, "w"); f.write(s); f.close()].  Parent directories are not
    tracked: writing fails only on a directory. *)
Definition write_file (p s : string) (fs : gmap string node)
  : result unit * gmap string node :=
  match fs !! p with
  | Some Dir => (Raise IsADirectoryError, fs)
  | _ => (Ret tt, <[p := File s]> fs)
  end.

Definition nl : string := String (ascii_of_N 10) EmptyString.

(** [afile.read(n)] splits what is left of the file. *)
Fixpoint take (n : N) (s : string) : string :=
  match s with
  | EmptyString => EmptyString
  | String c s' => if (n =? 0)%N then EmptyString else String c (take (N.pred n) s')
  end.

Fixpoint drop (n : N) (s : string) : string :=
  match s with
  | EmptyString => EmptyString
  | String c s' => if (n =? 0)%N then s else drop (N.pred n) s'
  end.

(** The loop of [compute_file_md5].  The hasher is represented by the bytes
    it has been fed: [hasher.update(a); hasher.update(b)] is
    [hasher.update(a + b)].  [fuel] bounds the number of reads. *)
Fixpoint read_loop (fuel : nat) (hasher afile : string) : string :=
  match fuel with
  | O => hasher
  | S fuel' =>
      let buf := take 65536 afile in
      if (0 <? String.length buf)%nat
      then read_loop fuel' (hasher +:+ buf) (drop 65536 afile)
      else hasher
  end.

Definition compute_file_md5 (fs : gmap string node) (filetocheck : string)
  : result string :=
  match open_rb fs filetocheck with
  | Ret data =>
      Ret (MD5.hexdigest (read_loop (S (String.length data)) EmptyString data))
  | Raise e => Raise e
  end.

(** ** The collaborators of [toolchain_gcc] *)

(** What the code reads from [self.CTRInstance]. *)
Record CTR := {
  ProjectName : string;              (* GetProjectName() *)
  target_CFLAGS : string;            (* GetTarget().getcontent().getCFLAGS() *)
  target_LDFLAGS : string;           (* GetTarget().getcontent().getLDFLAGS() *)
  target_Compiler : string;          (* GetTarget().getcontent().getCompiler() *)
  target_Linker : string;            (* GetTarget().getcontent().getLinker() *)
  LDFLAGS : list string;
  LocationCFilesAndCFLAGS : list (list Z * list (string * string) * bool)
}.

(** What the logger and the process runner are asked to do, in order. *)
Inductive event :=
| Write (s : string)                 (* logger.write(s) *)
| WriteError (s : string)            (* logger.write_error(s) *)
| Spin (argv : list string)          (* ProcessLogger(logger, argv).spin() *)
| CheckOutput (argv : list string).  (* subprocess.check_output(argv) *)

(** Outcome of [subprocess.check_output]. *)
Inductive check_output_result :=
| Output (stdout : string)
| CalledProcessError
| ExecutableNotFound.

(** The toolchain object and the part of the world it acts on. *)
Record state := {
  buildpath : string;
  bin : string;
  bin_path : string;
  md5key : option string;
  srcmd5 : gmap string (string * list string);
  compiler : string;
  linker : string;
  fs : gmap string node;
  environ : gmap string string;
  trace : list event
}.

Definition set_paths (bp b p : string) (st : state) : state :=
  {| buildpath := bp; bin := b; bin_path := p; md5key := md5key st;
     srcmd5 := srcmd5 st; compiler := compiler st; linker := linker st;
     fs := fs st; environ := environ st; trace := trace st |}.

Definition set_md5key (k : option string) (st : state) : state :=
  {| buildpath := buildpath st; bin := bin st; bin_path := bin_path st; md5key := k;
     srcmd5 := srcmd5 st; compiler := compiler st; linker := linker st;
     fs := fs st; environ := environ st; trace := trace st |}.

Definition set_srcmd5 (c : gmap string (string * list string)) (st : state) : state :=
  {| buildpath := buildpath st; bin := bin st; bin_path := bin_path st;
     md5key := md5key st; srcmd5 := c; compiler := compiler st; linker := linker st;
     fs := fs st; environ := environ st; trace := trace st |}.

Definition set_tools (cc ld : string) (st : state) : state :=
  {| buildpath := buildpath st; bin := bin st; bin_path := bin_path st;
     md5key := md5key st; srcmd5 := srcmd5 st; compiler := cc; linker := ld;
     fs := fs st; environ := environ st; trace := trace st |}.

Definition set_fs (f : gmap string node) (st : state) : state :=
  {| buildpath := buildpath st; bin := bin st; bin_path := bin_path st;
     md5key := md5key st; srcmd5 := srcmd5 st; compiler := compiler st;
     linker := linker st; fs := f; environ := environ st; trace := trace st |}.

Definition log (e : event) (st : state) : state :=
  {| buildpath := buildpath st; bin := bin st; bin_path := bin_path st;
     md5key := md5key st; srcmd5 := srcmd5 st; compiler := compiler st;
     linker := linker st; fs := fs st; environ := environ st;
     trace := trace st ++ [e] |}.

(** [logger.write(s)] and [logger.write_error(s)] *)
Definition logger_write (s : string) : M state unit := modify (log (Write s)).

Definition logger_write_error (s : string) : M state unit := modify (log (WriteError s)).

(** [str(n)] for an [int] *)
Definition str_of_int (n : Z) : string :=
  DecimalString.NilZero.string_of_int (Z.to_int n).

(** ** The dependency and hash cache *)

Section Cache.

(** [self.buildpath] and the file system do not change while one source is
    examined; only [self.srcmd5] is threaded. *)
Variable buildpath_ : string.
Variable fs_ : gmap string node.

(** [append_cfile_deps(src, deps)]: [deps] as it is after the call. *)
Definition append_cfile_deps (src : string) (deps : list string) : list string :=
  fold_left
    (fun deps l =>
       match Re.includes_re_match l with
       | Some depfn =>
           if path_exists fs_ (Posixpath.join buildpath_ depfn)
           then deps ++ [depfn] else deps
       | None => deps
       end)
    (Str.splitlines src) deps.

(** [self.srcmd5.get(bn, (None, []))] *)
Definition srcmd5_get (bn : string) (c : gmap string (string * list string))
  : option string * list string :=
  match c !! bn with
  | Some (h, deps) => (Some h, deps)
  | None => (None, [])
  end.

(** [check_and_update_hash_and_deps(bn)].  [fuel] is the room left on the
    interpreter's stack: the recursion has no other bound. *)
Fixpoint check_and_update_hash_and_deps (fuel : nat) (bn : string)
  : M (gmap string (string * list string)) bool :=
  match fuel with
  | O => raise RecursionError
  | S fuel' =>
      (* Get latest computed hash and deps *)
      let* (oldhash, deps) := gets (srcmd5_get bn) in
      (* read source *)
      let src := Posixpath.join buildpath_ bn in
      if negb (path_exists fs_ src) then ret false else
      (* compute new hash *)
      let* newhash := lift_result (compute_file_md5 fs_ src) in
      (* compare *)
      let match_ := bool_decide (oldhash = Some newhash) in
      let* deps :=
        if match_ then ret deps
        else
          (* file have changed: update direct dependencies, store hash and deps *)
          let deps := append_cfile_deps src [] in
          modify (insert bn (newhash, deps));;
          ret deps in
      (* recurse through deps *)
      let* results := mapM (check_and_update_hash_and_deps fuel') deps in
      ret (fold_left andb results match_)
  end.

End Cache.

(** ** The class [toolchain_gcc] *)

Section Toolchain.

(** [self.CTRInstance] *)
Variable ctr : CTR.

(** [self.extension], a class attribute of the target-specific subclasses. *)
Variable extension : string.

(** [ProcessLogger(logger, argv).spin()]: the exit status and what the
    process did to the files. *)
Variable spin : list string -> gmap string node -> Z * gmap string node.

(** [subprocess.check_output(argv)]: a query, whose answer is a matter of
    the installed tools and which leaves the files alone. *)
Variable check_output : list string -> check_output_result.

(** Whether the operating system lets the process remove the regular file
    at a path.  Permissions are not part of the model of the files, so the
    answer comes from outside. *)
Variable removable : string -> bool.

Definition getBuilderCFLAGS (st : state) : list string :=
  let cflags := [target_CFLAGS ctr] in
  let cflags :=
    match environ st !! "CFLAGS" with
    | Some v => cflags ++ [v]
    | None => cflags
    end in
  match environ st !! "SYSROOT" with
  | Some v => cflags ++ ["--sysroot=" +:+ v]
  | None => cflags
  end.

Definition getBuilderLDFLAGS (st : state) : list string :=
  let ldflags := LDFLAGS ctr ++ [target_LDFLAGS ctr] in
  let ldflags :=
    match environ st !! "LDLAGS" with
    | Some v => ldflags ++ [v]
    | None => ldflags
    end in
  match environ st !! "SYSROOT" with
  | Some v => ldflags ++ ["--sysroot=" +:+ v]
  | None => ldflags
  end.

Definition getCompiler : string := target_Compiler ctr.

Definition getLinker : string := target_Linker ctr.

Definition GetBinaryPath (st : state) : string := bin_path st.

Definition _GetMD5FileName (st : state) : string :=
  Posixpath.join (buildpath st) "lastbuildPLC.md5".

(** [os.remove(p)]: a regular file is removed when the operating system
    allows it. *)
Definition os_remove (p : string) : M state unit :=
  fun st =>
    match fs st !! p with
    | Some (File _) =>
        if removable p then (Ret tt, set_fs (delete p (fs st)) st)
        else (Raise PermissionError, st)
    | Some Dir => (Raise IsADirectoryError, st)
    | None => (Raise FileNotFoundError, st)
    end.

(** Every failure of [os.remove] is swallowed. *)
Definition ResetBinaryMD5 (st : state) : state :=
  let st := set_md5key None st in
  match os_remove (_GetMD5FileName st) st with
  | (Ret _, st') => st'
  | (Raise _, st') => st'
  end.

(** Reading in text mode turns CR LF and CR into LF. *)
Fixpoint universal_newlines (s : string) : string :=
  match s with
  | EmptyString => EmptyString
  | String a s1 =>
      if Str.byte_is 13 a then
        match s1 with
        | String b s2 =>
            if Str.byte_is 10 b then String b (universal_newlines s2)
            else String (ascii_of_N 10) (universal_newlines s1)
        | EmptyString => nl
        end
      else String a (universal_newlines s1)
  end.

(** [open(p, "r").read()], with [None] for any exception. *)
Definition read_text (fs : gmap string node) (p : string) : option string :=
  match fs !! p with
  | Some (File data) =>
      if Utf8.valid data then Some (universal_newlines data) else None
  | _ => None
  end.

Definition GetBinaryMD5 (st : state) : option string :=
  match md5key st with
  | Some k => Some k
  | None => read_text (fs st) (_GetMD5FileName st)
  end.

Definition SetBuildPath (buildpath' : string) (st : state) : state :=
  if bool_decide (buildpath st = buildpath') then st
  else
    let b := ProjectName ctr +:+ extension in
    set_srcmd5 ∅
      (set_md5key None
         (set_paths buildpath' b (Posixpath.join buildpath' b) st)).

(** The [self.check_and_update_hash_and_deps(bn)] of a running build. *)
Definition check_unit (fuel : nat) (bn : string) : M state bool :=
  fun st =>
    let (r, c) :=
      check_and_update_hash_and_deps (buildpath st) (fs st) fuel bn (srcmd5 st) in
    (r, set_srcmd5 c st).

(** [shlex.split(s)] *)
Definition shlex_split (s : string) : M state (list string) :=
  match Shlex.split s with
  | Some l => ret l
  | None => raise ValueError
  end.

(** [ProcessLogger(self.CTRInstance.logger, argv).spin()], of which the code
    keeps the status. *)
Definition ProcessLogger_spin (argv : list string) : M state Z :=
  fun st =>
    let (status, fs') := spin argv (fs st) in
    (Ret status, set_fs fs' (log (Spin argv) st)).

(** [self.srcmd5.pop(bn)] *)
Definition srcmd5_pop (bn : string) : M state unit :=
  fun st =>
    match srcmd5 st !! bn with
    | Some _ => (Ret tt, set_srcmd5 (delete bn (srcmd5 st)) st)
    | None => (Raise KeyError, st)
    end.

Definition pattern : string := "{SYSROOT}".

(** Lines 189-204 of [build]: the flag lists after the placeholder has been
    resolved, or [None] when [build] returns [False] there. *)
Definition resolve_sysroot
    (Builder_CFLAGS_str Builder_LDFLAGS_str : string)
    (Builder_CFLAGS Builder_LDFLAGS : list string)
  : M state (option (list string * list string)) :=
  if Str.contains pattern Builder_CFLAGS_str
     || Str.contains pattern Builder_LDFLAGS_str
  then
    let argv := ["arm-unknown-linux-gnueabihf-gcc"; "-print-sysroot"] in
    modify (log (CheckOutput argv));;
    let r := check_output argv in
    match r with
    | CalledProcessError =>
        logger_write ("GCC failed with -print-sysroot" +:+ nl);;
        ret None
    | ExecutableNotFound =>
        logger_write ("GCC not found" +:+ nl);;
        ret None
    | Output sysrootb =>
        if Utf8.valid sysrootb then
          let sysroot := Str.strip sysrootb in
          let replace_sysroot := map (Str.replace pattern sysroot) in
          ret (Some (replace_sysroot Builder_CFLAGS, replace_sysroot Builder_LDFLAGS))
        else raise UnicodeDecodeError
    end
  else ret (Some (Builder_CFLAGS, Builder_LDFLAGS)).

(** The local variables [obns], [objs] and [relink] of [build]. *)
Record locals := {
  obns : list string;
  objs : list string;
  relink : bool
}.

(** One turn of the inner loop of [build], for [(CFile, CFLAGS)].  [None]
    stands for the [return False] of a failed compilation. *)
Definition build_cfile (fuel : nat) (Builder_CFLAGS : list string)
    (v : locals) (f : string * string) : M state (option locals) :=
  let (CFile, CFLAGS) := f in
  if Str.endswith ".c" CFile then
    let bn := Posixpath.basename CFile in
    let obn := fst (Posixpath.splitext bn) +:+ ".o" in
    let objectfilename := fst (Posixpath.splitext CFile) +:+ ".o" in
    let* match_ := check_unit fuel bn in
    if match_ : bool then
      logger_write ("   [pass]  " +:+ bn +:+ " -> " +:+ obn +:+ nl);;
      ret (Some {| obns := obns v ++ [obn]; objs := objs v ++ [objectfilename];
                   relink := relink v |})
    else
      logger_write ("   [CC]  " +:+ bn +:+ " -> " +:+ obn +:+ nl);;
      let* cc := gets compiler in
      let* unit_flags := shlex_split CFLAGS in
      let* status :=
        ProcessLogger_spin
          ([cc; "-c"; CFile; "-o"; objectfilename; "-O2"]
             ++ Builder_CFLAGS ++ unit_flags) in
      if negb (status =? 0)%Z then
        srcmd5_pop bn;;
        logger_write_error ("C compilation of " +:+ bn +:+ " failed." +:+ nl);;
        ret None
      else
        ret (Some {| obns := obns v ++ [obn]; objs := objs v ++ [objectfilename];
                     relink := true |})
  else if Str.endswith ".o" CFile then
    ret (Some {| obns := obns v ++ [Posixpath.basename CFile];
                 objs := objs v ++ [CFile]; relink := relink v |})
  else ret (Some v).

(** A [for] loop whose body may leave the function. *)
Fixpoint for_each {A} (body : locals -> A -> M state (option locals))
    (l : list A) (v : locals) : M state (option locals) :=
  match l with
  | [] => ret (Some v)
  | x :: l' =>
      let* r := body v x in
      match r with
      | Some v' => for_each body l' v'
      | None => ret None
      end
  end.

(** One turn of the outer loop, for [(Location, CFilesAndCFLAGS, _DoCalls)]. *)
Definition build_location (fuel : nat) (Builder_CFLAGS : list string)
    (v : locals) (loc : list Z * list (string * string) * bool)
  : M state (option locals) :=
  let '(Location, CFilesAndCFLAGS, _) := loc in
  match CFilesAndCFLAGS with
  | [] => ret tt
  | _ :: _ =>
      match Location with
      | _ :: _ => logger_write (Str.join "." (map str_of_int Location) +:+ " :" +:+ nl)
      | [] => logger_write ("PLC :" +:+ nl)
      end
  end;;
  for_each (build_cfile fuel Builder_CFLAGS) CFilesAndCFLAGS v.

(** Lines 206-250: GENERATE OBJECT FILES. *)
Definition generate_object_files (fuel : nat) (Builder_CFLAGS : list string)
  : M state (option locals) :=
  let* bp := gets bin_path in
  let* present := gets (fun st => path_exists (fs st) bp) in
  for_each (build_location fuel Builder_CFLAGS) (LocationCFilesAndCFLAGS ctr)
    {| obns := []; objs := []; relink := negb present |}.

(** Lines 252-280: GENERATE OUTPUT FILE, the fingerprint and [return True]. *)
Definition generate_output_file (Builder_LDFLAGS : list string) (v : locals)
  : M state bool :=
  logger_write ("Linking :" +:+ nl);;
  let* b := gets bin in
  let* bp := gets bin_path in
  let* linked :=
    if relink v then
      logger_write ("   [CC]  " +:+ Str.join " " (obns v) +:+ " -> " +:+ b +:+ nl);;
      let* ld := gets linker in
      let* status :=
        ProcessLogger_spin ([ld] ++ objs v ++ ["-o"; bp] ++ Builder_LDFLAGS) in
      ret (status =? 0)%Z
    else
      logger_write ("   [pass]  " +:+ Str.join " " (obns v) +:+ " -> " +:+ b +:+ nl);;
      ret true in
  if linked : bool then
    (* Calculate md5 key and get data for the new created PLC *)
    let* k := (fun st => (compute_file_md5 (fs st) bp, st)) in
    modify (set_md5key (Some k));;
    (* Store new PLC filename based on md5 key *)
    let* name := gets _GetMD5FileName in
    (fun st => let (r, fs') := write_file name k (fs st) in (r, set_fs fs' st));;
    ret true
  else ret false.

(** Lines 183-204: the flag lists, or [None] when [build] returns [False]
    while resolving the placeholder. *)
Definition assemble_flags : M state (option (list string * list string)) :=
  let* Builder_CFLAGS_str := gets (fun st => Str.join " " (getBuilderCFLAGS st)) in
  let* Builder_LDFLAGS_str := gets (fun st => Str.join " " (getBuilderLDFLAGS st)) in
  let* Builder_CFLAGS := shlex_split Builder_CFLAGS_str in
  let* Builder_LDFLAGS := shlex_split Builder_LDFLAGS_str in
  resolve_sysroot Builder_CFLAGS_str Builder_LDFLAGS_str
    Builder_CFLAGS Builder_LDFLAGS.

(** Lines 206-280: what [build] does once the flags are known. *)
Definition build_with_flags (fuel : nat) (Builder_CFLAGS Builder_LDFLAGS : list string)
  : M state bool :=
  let* v := generate_object_files fuel Builder_CFLAGS in
  match v with
  | None => ret false
  | Some v => generate_output_file Builder_LDFLAGS v
  end.

(** [build()].  Gettext's [_] is the identity. *)
Definition build (fuel : nat) : M state bool :=
  (* Retrieve compiler and linker *)
  modify (set_tools getCompiler getLinker);;
  let* flags := assemble_flags in
  match flags with
  | None => ret false
  | Some (Builder_CFLAGS, Builder_LDFLAGS) =>
      build_with_flags fuel Builder_CFLAGS Builder_LDFLAGS
  end.

End Toolchain.

(** ** Derived notions used in the statements *)

(** The basenames that [build] hands to [check_and_update_hash_and_deps]. *)
Definition unit_of (f : string * string) : list string :=
  if Str.endswith ".c" (fst f) then [Posixpath.basename (fst f)] else [].

Definition compilable_units (ctr : CTR) : list string :=
  flat_map
    (fun loc : list Z * list (string * string) * bool =>
       flat_map unit_of (snd (fst loc)))
    (LocationCFilesAndCFLAGS ctr).

(** The object file that [build] passes to the linker for one entry of the
    project, when every compilable unit is found unchanged. *)
Definition object_of (f : string * string) : list string :=
  if Str.endswith ".c" (fst f) then [fst (Posixpath.splitext (fst f)) +:+ ".o"]
  else if Str.endswith ".o" (fst f) then [fst f]
  else [].

Definition link_objects (ctr : CTR) : list string :=
  flat_map
    (fun loc : list Z * list (string * string) * bool =>
       flat_map object_of (snd (fst loc)))
    (LocationCFilesAndCFLAGS ctr).

(** Every basename the cache mentions: its keys and the dependencies it
    records. *)
Definition known_names (c : gmap string (string * list string)) : list string :=
  flat_map (fun e : string * (string * list string) => fst e :: snd (snd e))
    (map_to_list c).

Definition is_spin (e : event) : bool :=
  match e with
  | Spin _ => true
  | _ => false
  end.

Definition is_write (e : event) : bool :=
  match e with
  | Write _ => true
  | _ => false
  end.

(** The entry of [k] has been written in the branch of
    [check_and_update_hash_and_deps] taken when the digests differ. *)
Definition written_on_mismatch (bp : string) (fs : gmap string node)
    (c c' : gmap string (string * list string)) (k : string) : Prop :=
  exists data,
    fs !! Posixpath.join bp k = Some (File data)
    /\ fst <$> c !! k ≠ Some (MD5.hexdigest data)
    /\ c' !! k = Some (MD5.hexdigest data,
                       append_cfile_deps bp fs (Posixpath.join bp k) []).

(** The recursion of [check_and_update_hash_and_deps] and its result. *)
Definition check_deps (bp : string) (fs : gmap string node) (fuel : nat)
    (deps : list string) (match_ : bool) : M (gmap string (string * list string)) bool :=
  let* results := mapM (check_and_update_hash_and_deps bp fs fuel) deps in
  ret (fold_left andb results match_).

(** How one call of [check_and_update_hash_and_deps] may change the cache:
    an entry is either left alone or written on a digest mismatch. *)
Definition cache_step (bp : string) (fs : gmap string node)
    (c c' : gmap string (string * list string)) : Prop :=
  forall k, c' !! k = c !! k \/ written_on_mismatch bp fs c c' k.

(** [bn] and the dependencies recorded below it, down to depth [n], are
    either missing or regular files whose digest is the recorded one. *)
Fixpoint examined (n : nat) (bp : string) (fs : gmap string node)
    (c : gmap string (string * list string)) (bn : string) : Prop :=
  match n with
  | O => False
  | S n' =>
      fs !! Posixpath.join bp bn = None
      \/ exists data deps,
           fs !! Posixpath.join bp bn = Some (File data)
           /\ c !! bn = Some (MD5.hexdigest data, deps)
           /\ Forall (examined n' bp fs c) deps
  end.

(** The same, none of the files missing. *)
Fixpoint up_to_date (n : nat) (bp : string) (fs : gmap string node)
    (c : gmap string (string * list string)) (bn : string) : Prop :=
  match n with
  | O => False
  | S n' =>
      exists data deps,
        fs !! Posixpath.join bp bn = Some (File data)
        /\ c !! bn = Some (MD5.hexdigest data, deps)
        /\ Forall (up_to_date n' bp fs c) deps
  end.


(** Text without a closing delimiter of the include pattern. *)
Fixpoint no_closer (s : string) : bool :=
  match s with
  | EmptyString => true
  | String c s' => negb (Re.is_close c) && no_closer s'
  end.

(** The names, log lines and command line that [build] derives from one
    compilable file. *)
Definition obn_of (CFile : string) : string :=
  fst (Posixpath.splitext (Posixpath.basename CFile)) +:+ ".o".

Definition obj_of (CFile : string) : string :=
  fst (Posixpath.splitext CFile) +:+ ".o".

Definition pass_line (CFile : string) : string :=
  "   [pass]  " +:+ Posixpath.basename CFile +:+ " -> " +:+ obn_of CFile +:+ nl.

Definition cc_line (CFile : string) : string :=
  "   [CC]  " +:+ Posixpath.basename CFile +:+ " -> " +:+ obn_of CFile +:+ nl.

Definition cc_argv (cc CFile : string) (cfl uf : list string) : list string :=
  [cc; "-c"; CFile; "-o"; obj_of CFile; "-O2"] ++ cfl ++ uf.

Definition failed_line (CFile : string) : string :=
  "C compilation of " +:+ Posixpath.basename CFile +:+ " failed." +:+ nl.

(** The command line of the link step. *)
Definition link_argv (ld : string) (objs : list string) (out : string)
    (lfl : list string) : list string :=
  [ld] ++ objs ++ ["-o"; out] ++ lfl.

(** The state with further events at the end of its trace. *)
Definition add_trace (es : list event) (st : state) : state :=
  {| buildpath := buildpath st; bin := bin st; bin_path := bin_path st;
     md5key := md5key st; srcmd5 := srcmd5 st; compiler := compiler st;
     linker := linker st; fs := fs st; environ := environ st;
     trace := trace st ++ es |}.

(** What no step of [build] changes once the tools have been retrieved. *)
Definition same_config (st st' : state) : Prop :=
  buildpath st' = buildpath st /\ bin st' = bin st /\ bin_path st' = bin_path st
  /\ environ st' = environ st /\ compiler st' = compiler st
  /\ linker st' = linker st.

(** The header that a turn of the outer loop logs. *)
Definition location_header (loc : list Z * list (string * string) * bool)
  : list event :=
  match snd (fst loc) with
  | [] => []
  | _ :: _ =>
      match fst (fst loc) with
      | _ :: _ =>
          [Write (Str.join "." (map str_of_int (fst (fst loc))) +:+ " :" +:+ nl)]
      | [] => [Write ("PLC :" +:+ nl)]
      end
  end.

(** The command with which [build] asks for the sysroot. *)
Definition sysroot_query : list string :=
  ["arm-unknown-linux-gnueabihf-gcc"; "-print-sysroot"].

(** The flag strings that [build] assembles before splitting them. *)
Definition cflags_str (ctr : CTR) (st : state) : string :=
  Str.join " " (getBuilderCFLAGS ctr st).

Definition ldflags_str (ctr : CTR) (st : state) : string :=
  Str.join " " (getBuilderLDFLAGS ctr st).

Definition quiet (e : event) : Prop := is_spin e = false.

(** The events of the link step. *)
Definition link_events (st : state) (v : locals) (lfl : list string) : list event :=
  Write ("Linking :" +:+ nl)
  :: if relink v then
       [Write ("   [CC]  " +:+ Str.join " " (obns v) +:+ " -> " +:+ bin st +:+ nl);
        Spin (link_argv (linker st) (objs v) (bin_path st) lfl)]
     else
       [Write ("   [pass]  " +:+ Str.join " " (obns v) +:+ " -> " +:+ bin st +:+ nl)].

(** [bn] is found unchanged in the state [st]. *)
Definition matched (fuel : nat) (st : state) (bn : string) : Prop :=
  fst (check_and_update_hash_and_deps (buildpath st) (fs st) fuel bn (srcmd5 st))
  = Ret true.

(** The command lines handed to [subprocess.check_output]. *)
Definition queries (es : list event) : list (list string) :=
  flat_map (fun e => match e with CheckOutput argv => [argv] | _ => [] end) es.

(** A weaker form of [cache_step], which says nothing of the recorded
    dependencies. *)
Definition refreshed (bp : string) (fs : gmap string node)
    (c c' : gmap string (string * list string)) : Prop :=
  forall k,
    c' !! k = c !! k
    \/ exists data deps,
         fs !! Posixpath.join bp k = Some (File data)
         /\ fst <$> c !! k ≠ Some (MD5.hexdigest data)
         /\ c' !! k = Some (MD5.hexdigest data, deps).

(** [names] holds, with each of its names, the dependencies that the cache
    records for it. *)
Definition closed_under_deps (c : gmap string (string * list string))
    (names : list string) : Prop :=
  forall k h deps,
    k ∈ names -> c !! k = Some (h, deps) -> forall d, d ∈ deps -> d ∈ names.

(** From [c] to [c'], the entries of [names] that hold the digest of their
    file in [fs] stay as they are. *)
Definition keeps_current (bp : string) (names : list string)
    (fs : gmap string node) (c c' : gmap string (string * list string)) : Prop :=
  forall k data deps,
    k ∈ names ->
    fs !! Posixpath.join bp k = Some (File data) ->
    c !! k = Some (MD5.hexdigest data, deps) ->
    c' !! k = Some (MD5.hexdigest data, deps).

(** Two file systems hold the same thing at the place of each of [names] in
    the build directory. *)
Definition agree (bp : string) (names : list string) (f f' : gmap string node) : Prop :=
  forall k, k ∈ names -> f' !! Posixpath.join bp k = f !! Posixpath.join bp k.

(** The processes run through [ProcessLogger] leave those places alone. *)
Definition untouched_by (spin : list string -> gmap string node -> Z * gmap string node)
    (bp : string) (names : list string) : Prop :=
  forall argv f, agree bp names f (snd (spin argv f)).

(** The processes run with the command lines of [L] leave those places
    alone. *)
Definition untouched_on (L : list (list string))
    (spin : list string -> gmap string node -> Z * gmap string node)
    (bp : string) (names : list string) : Prop :=
  forall argv, argv ∈ L -> forall f, agree bp names f (snd (spin argv f)).

(** A stretch of a build, from [s] to [sa], during which [units] were
    examined: whatever the files and the cache become afterwards, as long as
    the places of [names] keep their content, the entries of [names] that
    are current stay, and [names] holds the dependencies recorded for its
    names, the units are still examined at the end, and the stretch has
    itself kept those places and those entries. *)
Definition leaves_examined (fuel : nat) (names units : list string)
    (s sa : state) : Prop :=
  buildpath sa = buildpath s
  /\ forall fsF cF,
       agree (buildpath s) names (fs sa) fsF ->
       keeps_current (buildpath s) names fsF (srcmd5 sa) cF ->
       closed_under_deps cF names ->
       agree (buildpath s) names (fs s) fsF
       /\ keeps_current (buildpath s) names fsF (srcmd5 s) cF
       /\ Forall (examined fuel (buildpath s) fsF cF) units.

(** The command lines run through [ProcessLogger]. *)
Definition spins (es : list event) : list (list string) :=
  flat_map (fun e => match e with Spin argv => [argv] | _ => [] end) es.

(** ** Further notions *)

(** Lower-case hexadecimal text, as [hexdigest()] produces. *)
Definition is_hexdigit (c : ascii) : bool :=
  let n := Str.code c in
  ((48 <=? n) && (n <=? 57) || (97 <=? n) && (n <=? 102))%N.

Fixpoint hexdigits (s : string) : bool :=
  match s with
  | EmptyString => true
  | String c s' => is_hexdigit c && hexdigits s'
  end.

(** [open(p, "r").read()]: the text of a regular file, decoded, with its
    line ends translated. *)
Definition open_r (fs : gmap string node) (p : string) : result string :=
  match fs !! p with
  | Some (File data) =>
      if Utf8.valid data then Ret (universal_newlines data)
      else Raise UnicodeDecodeError
  | Some Dir => Raise IsADirectoryError
  | None => Raise FileNotFoundError
  end.

(** [list(map(f, l))] for an [f] that may raise and has no other effect. *)
Fixpoint map_result {A B} (f : A -> result B) (l : list A) : result (list B) :=
  match l with
  | [] => Ret []
  | x :: l' =>
      match f x with
      | Raise e => Raise e
      | Ret y =>
          match map_result f l' with
          | Raise e => Raise e
          | Ret ys => Ret (y :: ys)
          end
      end
  end.

(** [concat_deps(bn)].  It reads the build path and the files and changes
    nothing; [fuel] is the room left on the stack, as for
    [check_and_update_hash_and_deps]. *)
Fixpoint concat_deps (bp : string) (fs : gmap string node) (fuel : nat)
    (bn : string) : result string :=
  match fuel with
  | O => Raise RecursionError
  | S fuel' =>
      (* read source *)
      match open_r fs (Posixpath.join bp bn) with
      | Raise e => Raise e
      | Ret src =>
          (* update direct dependencies *)
          let deps := append_cfile_deps bp fs src [] in
          (* recurse through deps *)
          match map_result (concat_deps bp fs fuel') deps with
          | Raise e => Raise e
          | Ret texts => Ret (fold_left String.append texts src)
          end
      end
  end.

(** The compiler command lines of the project in the order of its
    declaration, for the files whose own flags can be split. *)
Definition compile_command (cc : string) (cfl : list string) (f : string * string)
  : list (list string) :=
  if Str.endswith ".c" (fst f) then
    match Shlex.split (snd f) with
    | Some uf => [cc_argv cc (fst f) cfl uf]
    | None => []
    end
  else [].

Definition compile_commands (ctr : CTR) (cfl : list string) : list (list string) :=
  flat_map
    (fun loc : list Z * list (string * string) * bool =>
       flat_map (compile_command (target_Compiler ctr) cfl) (snd (fst loc)))
    (LocationCFilesAndCFLAGS ctr).

(** From [s] to [s'] the configuration and the fingerprint in memory stay,
    and the processes run through [ProcessLogger] are among [cmds], in that
    order. *)
Definition runs_only (cmds : list (list string)) (s s' : state) : Prop :=
  same_config s s'
  /\ md5key s' = md5key s
  /\ exists new, trace s' = trace s ++ new /\ sublist (spins new) cmds.

(** From [s] to [s'] what is at [p] stays. *)
Definition keeps_file (p : string) (s s' : state) : Prop :=
  fs s' !! p = fs s !! p.

(** Every command line that a build of the project can hand to
    [ProcessLogger]: the compilations in the order of the project, then the
    link of all its objects. *)
Definition project_commands (ctr : CTR) (st : state) (cfl lfl : list string)
  : list (list string) :=
  compile_commands ctr cfl
  ++ [link_argv (target_Linker ctr) (link_objects ctr) (bin_path st) lfl].

(** The processes run through [ProcessLogger] leave what is at [p] alone. *)
Definition leaves_alone (spin : list string -> gmap string node -> Z * gmap string node)
    (p : string) : Prop :=
  forall argv f, snd (spin argv f) !! p = f !! p.

(** The processes run with the command lines of [L] leave what is at [p]
    alone. *)
Definition leaves_alone_on (L : list (list string))
    (spin : list string -> gmap string node -> Z * gmap string node)
    (p : string) : Prop :=
  forall argv, argv ∈ L -> forall f, snd (spin argv f) !! p = f !! p.

(** The command lines run through [ProcessLogger] between two states of
    a run, of which the second has the longer trace. *)
Definition ran (st st' : state) : list (list string) :=
  spins (skipn (List.length (trace st)) (trace st')).

(** Two behaviours of the processes that are the same on the command lines
    of [L]. *)
Definition same_on (L : list (list string))
    (spin1 spin2 : list string -> gmap string node -> Z * gmap string node) : Prop :=
  forall argv, argv ∈ L -> forall f, spin1 argv f = spin2 argv f.

(** [spin] on the command lines of [L]; any other command exits with 0 and
    changes nothing. *)
Definition restrict (L : list (list string))
    (spin : list string -> gmap string node -> Z * gmap string node)
  : list string -> gmap string node -> Z * gmap string node :=
  fun argv f => if bool_decide (argv ∈ L) then spin argv f else (0%Z, f).

(** ** Concrete collaborators *)

Module Toy.

Fixpoint arg_after (flag : string) (argv : list string) : option string :=
  match argv with
  | a :: ((b :: _) as argv') =>
      if String.eqb a flag then Some b else arg_after flag argv'
  | _ => None
  end.

(** A stand-in for the C toolchain.  With [-c SRC -o OUT] it writes an
    object file when [SRC] is a regular file and fails otherwise; without
    [-c] it links the arguments ending in [.o] when they are all present.
    It writes nothing but object files and shared objects. *)
Definition gcc (argv : list string) (fs : gmap string node) : Z * gmap string node :=
  match arg_after "-o" argv with
  | None => (2, fs)
  | Some out =>
      if negb (Str.endswith ".o" out || Str.endswith ".so" out) then (3, fs) else
      match arg_after "-c" argv with
      | Some src =>
          match fs !! src with
          | Some (File data) => (0, <[out := File ("OBJ " +:+ data)]> fs)
          | _ => (1, fs)
          end
      | None =>
          let objs := filter (fun a => Str.endswith ".o" a = true) (tail argv) in
          if forallb (path_exists fs) objs
          then (0, <[out := File ("ELF " +:+ Str.join " " objs)]> fs)
          else (1, fs)
      end
  end.

Definition print_sysroot (argv : list string) : check_output_result :=
  Output ("/opt/sysroot" +:+ nl).

Definition no_sysroot (argv : list string) : check_output_result :=
  CalledProcessError.

(** A machine on which [gcc] is installed and no other compiler is. *)
Definition only_gcc (argv : list string) : check_output_result :=
  match argv with
  | cmd :: _ =>
      if String.eqb cmd "gcc" then Output ("/opt/sysroot" +:+ nl)
      else ExecutableNotFound
  | [] => ExecutableNotFound
  end.

Definition include_line (name : string) : string :=
  "#include " +:+ String Str.dquote (name +:+ String Str.dquote nl).

(** The project of the scenario of the specification: [main.c] includes
    [util.h]; [util.c] stands alone. *)
Definition ctr : CTR := {|
  ProjectName := "plc";
  target_CFLAGS := "-fPIC";
  target_LDFLAGS := "-shared";
  target_Compiler := "gcc";
  target_Linker := "gcc";
  LDFLAGS := ["-lm"];
  LocationCFilesAndCFLAGS :=
    [([], [("/build/main.c", "-Wall"); ("/build/util.c", "")], true)]
|}.

Definition main_c : string :=
  include_line "util.h" +:+ "int main(void) { return u; }".

Definition files : gmap string node :=
  {[ "/build" := Dir;
     "/build/main.c" := File main_c;
     "/build/util.h" := File "extern int u;";
     "/build/util.c" := File "int u = 0;" ]}.

Definition fresh_state (fs : gmap string node) (env : gmap string string) : state := {|
  buildpath := "/build"; bin := "plc.so"; bin_path := "/build/plc.so";
  md5key := None; srcmd5 := ∅; compiler := ""; linker := "";
  fs := fs; environ := env; trace := []
|}.

Definition st : state := fresh_state files ∅.

(** [st] once [main.c] has been examined. *)
Definition st_examined : state :=
  set_srcmd5 {[ "main.c" := (MD5.hexdigest main_c, []) ]} st.

(** The header is edited; [main.c] is not. *)
Definition files_edited : gmap string node :=
  <["/build/util.h" := File "extern long u;"]> files.

(** [st] after a build with the stand-in tools. *)
Definition built : state := snd (build ctr gcc print_sysroot 8 st).

(** The artifact is deleted after that build. *)
Definition unlinked : state := set_fs (delete "/build/plc.so" (fs built)) built.

(** The same project with the placeholder in the flags of the target. *)
Definition ctr_sysroot : CTR := {|
  ProjectName := "plc";
  target_CFLAGS := "-fPIC -I{SYSROOT}/usr/include";
  target_LDFLAGS := "-shared -L{SYSROOT}/usr/lib";
  target_Compiler := "gcc";
  target_Linker := "gcc";
  LDFLAGS := ["-lm"];
  LocationCFilesAndCFLAGS := LocationCFilesAndCFLAGS ctr
|}.

(** A project whose only unit is kept outside the build directory. *)
Definition ctr_outside : CTR := {|
  ProjectName := "plc";
  target_CFLAGS := "-fPIC";
  target_LDFLAGS := "-shared";
  target_Compiler := "gcc";
  target_Linker := "gcc";
  LDFLAGS := [];
  LocationCFilesAndCFLAGS := [([], [("/gen/main.c", EmptyString)], true)]
|}.

Definition st_outside : state :=
  fresh_state {[ "/build" := Dir; "/gen" := Dir;
                 "/gen/main.c" := File "int main(void) { return 0; }" ]} ∅.

(** A project that lists a unit whose file does not exist. *)
Definition ctr_gone : CTR := {|
  ProjectName := "plc";
  target_CFLAGS := "-fPIC";
  target_LDFLAGS := "-shared";
  target_Compiler := "gcc";
  target_Linker := "gcc";
  LDFLAGS := [];
  LocationCFilesAndCFLAGS :=
    [([], [("/build/gone.c", EmptyString); ("/build/util.c", EmptyString)], true)]
|}.

(** Two headers that include each other. *)
Definition files_cyclic : gmap string node :=
  {[ "/build" := Dir;
     "/build/a.h" := File (include_line "b.h" +:+ "int a;");
     "/build/b.h" := File (include_line "a.h" +:+ "int b;") ]}.

(** A unit whose file is in the build directory is listed under another
    directory, where nothing is. *)
Definition misplaced_unit : string * string := ("/other/util.c", EmptyString).

(** [util.c] is edited after that build. *)
Definition edited : state :=
  set_fs (<["/build/util.c" := File "int u = 1;"]> (fs built)) built.

(** A project that lists that unit alone. *)
Definition ctr_misplaced : CTR := {|
  ProjectName := "plc";
  target_CFLAGS := "-fPIC";
  target_LDFLAGS := "-shared";
  target_Compiler := "gcc";
  target_Linker := "gcc";
  LDFLAGS := [];
  LocationCFilesAndCFLAGS := [([], [misplaced_unit], true)]
|}.

(** A toolchain that writes wherever [-o] says, and nowhere else: an
    object file with [-c], the artifact without. *)
Definition cc (argv : list string) (fs : gmap string node) : Z * gmap string node :=
  match arg_after "-o" argv with
  | None => (2, fs)
  | Some out =>
      match arg_after "-c" argv with
      | Some src =>
          match fs !! src with
          | Some (File data) => (0, <[out := File ("OBJ " +:+ data)]> fs)
          | _ => (1, fs)
          end
      | None => (0, <[out := File "ELF"]> fs)
      end
  end.

(** A compiler that also stamps the source it compiles, and a linker that
    writes where [-o] says. *)
Definition cc_stamp (argv : list string) (fs : gmap string node)
  : Z * gmap string node :=
  match arg_after "-o" argv with
  | None => (2, fs)
  | Some out =>
      match arg_after "-c" argv with
      | Some src =>
          match fs !! src with
          | Some (File data) =>
              (0, <[src := File (data +:+ "/* built */")]>
                    (<[out := File ("OBJ " +:+ data)]> fs))
          | _ => (1, fs)
          end
      | None => (0, <[out := File "ELF"]> fs)
      end
  end.

(** The project [ctr] under a name and an extension for which the artifact
    takes the place of the fingerprint file. *)
Definition ctr_clash : CTR := {|
  ProjectName := "lastbuildPLC";
  target_CFLAGS := "-fPIC";
  target_LDFLAGS := "-shared";
  target_Compiler := "gcc";
  target_Linker := "gcc";
  LDFLAGS := ["-lm"];
  LocationCFilesAndCFLAGS := LocationCFilesAndCFLAGS ctr
|}.

Definition st_clash : state :=
  set_paths "/build" "lastbuildPLC.md5" "/build/lastbuildPLC.md5" st.

(** An environment that sets both flag variables. *)
Definition env_flags : gmap string string :=
  {[ "CFLAGS" := "-g"; "LDFLAGS" := "-lrt" ]}.

End Toy.

(** * Properties *)

(** ** Strings *)

Lemma app_cons (c : ascii) (s t : string) : String c s +:+ t = String c (s +:+ t).
Proof. reflexivity. Qed.

Lemma app_empty_l (s : string) : EmptyString +:+ s = s.
Proof. reflexivity. Qed.

Lemma app_empty_r (s : string) : s +:+ EmptyString = s.
Proof. induction s as [|c s IH]; [reflexivity|]. rewrite app_cons, IH. reflexivity. Qed.

Lemma app_assoc_str (s t u : string) : (s +:+ t) +:+ u = s +:+ (t +:+ u).
Proof. induction s as [|c s IH]; [reflexivity|]. rewrite !app_cons, IH. reflexivity. Qed.

Lemma take_drop (n : N) (s : string) : take n s +:+ drop n s = s.
Proof.
  revert n. induction s as [|c s IH]; intros n; simpl; [reflexivity|].
  destruct (n =? 0)%N; [reflexivity|]. rewrite app_cons, IH. reflexivity.
Qed.

Lemma drop_length (n : N) (s : string) : (String.length (drop n s) <= String.length s)%nat.
Proof.
  revert n. induction s as [|c s IH]; intros n; simpl; [lia|].
  destruct (n =? 0)%N; simpl; [lia|]. specialize (IH (N.pred n)). lia.
Qed.

Lemma read_loop_all (fuel : nat) (hasher afile : string) :
  (String.length afile < fuel)%nat ->
  read_loop fuel hasher afile = hasher +:+ afile.
Proof.
  revert hasher afile.
  induction fuel as [|fuel IH]; intros hasher afile Hlt; [lia|].
  destruct afile as [|c afile].
  - simpl. rewrite app_empty_r. reflexivity.
  - change (read_loop (S fuel) hasher (String c afile))
      with (read_loop fuel (hasher +:+ take 65536 (String c afile))
              (drop 65536 (String c afile))).
    rewrite IH.
    + rewrite app_assoc_str, take_drop. reflexivity.
    + pose proof (drop_length (N.pred 65536) afile) as Hd.
      simpl in Hlt. change (drop 65536 (String c afile)) with (drop (N.pred 65536) afile).
      lia.
Qed.

(** The streaming loop digests the bytes of the file. *)
Lemma compute_file_md5_file (fs : gmap string node) (p data : string) :
  fs !! p = Some (File data) ->
  compute_file_md5 fs p = Ret (MD5.hexdigest data).
Proof.
  intros Hp. unfold compute_file_md5, open_rb. rewrite Hp.
  rewrite read_loop_all by lia. rewrite app_empty_l. reflexivity.
Qed.

Lemma compute_file_md5_ret (fs : gmap string node) (p h : string) :
  compute_file_md5 fs p = Ret h ->
  exists data, fs !! p = Some (File data) /\ h = MD5.hexdigest data.
Proof.
  intros H. destruct (fs !! p) as [[data|]|] eqn:Hp.
  - rewrite (compute_file_md5_file _ _ _ Hp) in H. injection H as <-. eauto.
  - unfold compute_file_md5, open_rb in H. rewrite Hp in H. discriminate.
  - unfold compute_file_md5, open_rb in H. rewrite Hp in H. discriminate.
Qed.

(** ** The cache *)

Section CacheFacts.

Variable bp : string.
Variable fs : gmap string node.

Local Abbreviation check := (check_and_update_hash_and_deps bp fs).
Local Abbreviation scan k := (append_cfile_deps bp fs (Posixpath.join bp k) []).

Lemma check_out_of_stack bn c : check O bn c = (Raise RecursionError, c).
Proof. reflexivity. Qed.

Lemma check_missing fuel bn c :
  fs !! Posixpath.join bp bn = None ->
  check (S fuel) bn c = (Ret false, c).
Proof.
  intros H. cbn [check_and_update_hash_and_deps]. unfold bind, gets, path_exists.
  rewrite H. destruct (srcmd5_get bn c). reflexivity.
Qed.

Lemma check_directory fuel bn c :
  fs !! Posixpath.join bp bn = Some Dir ->
  check (S fuel) bn c = (Raise IsADirectoryError, c).
Proof.
  intros H. cbn [check_and_update_hash_and_deps].
  unfold bind, gets, path_exists, lift_result, compute_file_md5, open_rb.
  rewrite H. destruct (srcmd5_get bn c). reflexivity.
Qed.

(** Equal digests: the entry is left alone and its recorded dependencies
    are the ones examined. *)
Lemma check_match fuel bn c data deps :
  fs !! Posixpath.join bp bn = Some (File data) ->
  c !! bn = Some (MD5.hexdigest data, deps) ->
  check (S fuel) bn c = check_deps bp fs fuel deps true c.
Proof.
  intros Hf Hc. cbn [check_and_update_hash_and_deps].
  unfold check_deps, bind, gets, path_exists, lift_result, srcmd5_get.
  rewrite Hf, Hc, (compute_file_md5_file _ _ _ Hf). cbn [negb].
  rewrite bool_decide_eq_true_2 by reflexivity. reflexivity.
Qed.

(** Different digests, or no entry: the path is scanned and the entry
    overwritten before the recursion. *)
Lemma check_mismatch fuel bn c data :
  fs !! Posixpath.join bp bn = Some (File data) ->
  fst <$> c !! bn ≠ Some (MD5.hexdigest data) ->
  check (S fuel) bn c =
  check_deps bp fs fuel (scan bn) false (<[bn := (MD5.hexdigest data, scan bn)]> c).
Proof.
  intros Hf Hc. cbn [check_and_update_hash_and_deps].
  unfold check_deps, bind, gets, path_exists, lift_result, srcmd5_get, modify.
  rewrite Hf, (compute_file_md5_file _ _ _ Hf). cbn [negb].
  destruct (c !! bn) as [[h deps]|] eqn:Hb.
  - rewrite bool_decide_eq_false_2; [reflexivity|].
    intros [= ->]. apply Hc. reflexivity.
  - rewrite bool_decide_eq_false_2 by discriminate. reflexivity.
Qed.

(** The four cases above are all there is. *)
Lemma check_cases fuel bn c :
  (fs !! Posixpath.join bp bn = None /\ check (S fuel) bn c = (Ret false, c))
  \/ (fs !! Posixpath.join bp bn = Some Dir
      /\ check (S fuel) bn c = (Raise IsADirectoryError, c))
  \/ (exists data deps,
        fs !! Posixpath.join bp bn = Some (File data)
        /\ c !! bn = Some (MD5.hexdigest data, deps)
        /\ check (S fuel) bn c = check_deps bp fs fuel deps true c)
  \/ (exists data,
        fs !! Posixpath.join bp bn = Some (File data)
        /\ fst <$> c !! bn ≠ Some (MD5.hexdigest data)
        /\ check (S fuel) bn c =
           check_deps bp fs fuel (scan bn) false
             (<[bn := (MD5.hexdigest data, scan bn)]> c)).
Proof.
  destruct (fs !! Posixpath.join bp bn) as [[data|]|] eqn:Hf.
  - destruct (decide (fst <$> c !! bn = Some (MD5.hexdigest data))) as [He|Hne].
    + right; right; left. destruct (c !! bn) as [[h deps]|] eqn:Hc; [|discriminate].
      injection He as ->. exists data, deps.
      split; [reflexivity|]. split; [reflexivity|]. apply check_match with data; assumption.
    + right; right; right. exists data.
      split; [reflexivity|]. split; [assumption|]. apply check_mismatch; assumption.
  - right; left. split; [reflexivity|]. apply check_directory; assumption.
  - left. split; [reflexivity|]. apply check_missing; assumption.
Qed.

Lemma cache_step_refl c : cache_step bp fs c c.
Proof. intros k. left. reflexivity. Qed.

Lemma cache_step_trans c1 c2 c3 :
  cache_step bp fs c1 c2 -> cache_step bp fs c2 c3 -> cache_step bp fs c1 c3.
Proof.
  intros H12 H23 k.
  destruct (H12 k) as [E12|(d1 & Hf1 & Hn1 & Hw1)],
           (H23 k) as [E23|(d2 & Hf2 & Hn2 & Hw2)].
  - left. congruence.
  - right. exists d2. rewrite <- E12. auto.
  - right. exists d1. rewrite E23. auto.
  - exfalso. apply Hn2. rewrite Hw1. simpl. congruence.
Qed.

Lemma cache_step_insert c bn data :
  fs !! Posixpath.join bp bn = Some (File data) ->
  fst <$> c !! bn ≠ Some (MD5.hexdigest data) ->
  cache_step bp fs c (<[bn := (MD5.hexdigest data, scan bn)]> c).
Proof.
  intros Hf Hc k. destruct (decide (bn = k)) as [<-|Hne].
  - right. exists data. rewrite lookup_insert_eq. auto.
  - left. apply lookup_insert_ne. assumption.
Qed.

Lemma check_deps_inv fuel deps m c r c' :
  check_deps bp fs fuel deps m c = (r, c') ->
  exists r', mapM (check fuel) deps c = (r', c')
    /\ match r' with
       | Ret rs => r = Ret (fold_left andb rs m)
       | Raise e => r = Raise e
       end.
Proof.
  unfold check_deps, bind, ret.
  destruct (mapM (check fuel) deps c) as [[rs|e] c''] eqn:Hm;
    intros [= <- <-]; eexists; split; reflexivity.
Qed.

Lemma mapM_cons_inv {S A B} (f : A -> M S B) x l s r s' :
  mapM f (x :: l) s = (r, s') ->
  exists r1 s1, f x s = (r1, s1)
    /\ match r1 with
       | Raise e => r = Raise e /\ s' = s1
       | Ret y =>
           exists r2, mapM f l s1 = (r2, s')
             /\ match r2 with
                | Ret ys => r = Ret (y :: ys)
                | Raise e => r = Raise e
                end
       end.
Proof.
  cbn [mapM]. unfold bind, ret.
  destruct (f x s) as [[y|e] s1] eqn:Hx.
  - destruct (mapM f l s1) as [[ys|e] s2] eqn:Hl; intros [= <- <-];
      exists (Ret y), s1; (split; [reflexivity|]);
      eexists; (split; [eassumption|reflexivity]).
  - intros [= <- <-]. exists (Raise e), s1. auto.
Qed.

(** Every entry that a call changes was written on a digest mismatch. *)
Lemma check_cache_step fuel : forall bn c r c',
  check fuel bn c = (r, c') -> cache_step bp fs c c'.
Proof.
  induction fuel as [|fuel IH]; intros bn c r c' H.
  - rewrite check_out_of_stack in H. injection H as <- <-. apply cache_step_refl.
  - assert (forall deps c0 r0 c0',
              mapM (check fuel) deps c0 = (r0, c0') -> cache_step bp fs c0 c0') as Hmap.
    { induction deps as [|d deps IHd]; intros c0 r0 c0' Hm.
      - injection Hm as <- <-. apply cache_step_refl.
      - apply mapM_cons_inv in Hm as (r1 & c1 & H1 & Hrest).
        apply IH in H1. destruct r1 as [y|e].
        + destruct Hrest as (r2 & H2 & _). eauto using cache_step_trans.
        + destruct Hrest as [_ ->]. assumption. }
    destruct (check_cases fuel bn c)
      as [[_ E]|[[_ E]|[(data & deps & _ & _ & E)|(data & Hf & Hn & E)]]];
      rewrite E in H.
    + injection H as <- <-. apply cache_step_refl.
    + injection H as <- <-. apply cache_step_refl.
    + apply check_deps_inv in H as (r' & Hm & _). eauto.
    + apply check_deps_inv in H as (r' & Hm & _).
      eapply cache_step_trans; [apply cache_step_insert; eassumption|eauto].
Qed.

Lemma mapM_check_cache_step fuel deps c r c' :
  mapM (check fuel) deps c = (r, c') -> cache_step bp fs c c'.
Proof.
  revert c r c'. induction deps as [|d deps IHd]; intros c r c' Hm.
  - injection Hm as <- <-. apply cache_step_refl.
  - apply mapM_cons_inv in Hm as (r1 & c1 & H1 & Hrest).
    apply check_cache_step in H1. destruct r1 as [y|e].
    + destruct Hrest as (r2 & H2 & _). eauto using cache_step_trans.
    + destruct Hrest as [_ ->]. assumption.
Qed.

Lemma fold_left_andb_true (rs : list bool) (m : bool) :
  fold_left andb rs m = true -> m = true /\ Forall (fun b => b = true) rs.
Proof.
  revert m. induction rs as [|b rs IH]; intros m H; simpl in H.
  - auto.
  - apply IH in H as [Hm Hrs]. apply andb_true_iff in Hm as [-> ->]. auto.
Qed.

(** A call that reports a match has written nothing. *)
Lemma check_true_unchanged fuel : forall bn c c',
  check fuel bn c = (Ret true, c') -> c' = c.
Proof.
  induction fuel as [|fuel IH]; intros bn c c' H.
  - rewrite check_out_of_stack in H. discriminate.
  - assert (forall deps c0 rs c0',
              mapM (check fuel) deps c0 = (Ret rs, c0') ->
              Forall (fun b => b = true) rs -> c0' = c0) as Hmap.
    { induction deps as [|d deps IHd]; intros c0 rs c0' Hm Hall.
      - injection Hm as <- <-. reflexivity.
      - apply mapM_cons_inv in Hm as (r1 & c1 & H1 & Hrest).
        destruct r1 as [y|e]; [|destruct Hrest; discriminate].
        destruct Hrest as ([ys|e] & H2 & Hr); [|discriminate].
        injection Hr as ->. inversion Hall; subst.
        apply IH in H1 as ->. eauto. }
    destruct (check_cases fuel bn c)
      as [[_ E]|[[_ E]|[(data & deps & _ & _ & E)|(data & Hf & Hn & E)]]];
      rewrite E in H; try discriminate.
    + apply check_deps_inv in H as ([rs|e] & Hm & Hr); [|discriminate].
      injection Hr as Hr. symmetry in Hr. apply fold_left_andb_true in Hr as [_ Hall].
      eauto.
    + apply check_deps_inv in H as ([rs|e] & Hm & Hr); [|discriminate].
      injection Hr as Hr. symmetry in Hr. apply fold_left_andb_true in Hr as [Hm' _].
      discriminate.
Qed.

End CacheFacts.

(** ** The include scanner *)








(** ** One turn of the compilation loop *)

Section BuildFacts.

Variable ctr : CTR.
Variable spin : list string -> gmap string node -> Z * gmap string node.
Variable check_output : list string -> check_output_result.

(** What a turn does for a compilable file, spelled out. *)
Lemma build_cfile_c fuel cfl v CFile CFLAGS st :
  Str.endswith ".c" CFile = true ->
  build_cfile spin fuel cfl v (CFile, CFLAGS) st =
  let bn := Posixpath.basename CFile in
  let (r, c) :=
    check_and_update_hash_and_deps (buildpath st) (fs st) fuel bn (srcmd5 st) in
  let st1 := set_srcmd5 c st in
  match r with
  | Raise e => (Raise e, st1)
  | Ret true =>
      (Ret (Some {| obns := obns v ++ [obn_of CFile];
                    objs := objs v ++ [obj_of CFile]; relink := relink v |}),
       log (Write (pass_line CFile)) st1)
  | Ret false =>
      let st2 := log (Write (cc_line CFile)) st1 in
      match Shlex.split CFLAGS with
      | None => (Raise ValueError, st2)
      | Some uf =>
          let argv := cc_argv (compiler st) CFile cfl uf in
          let (status, fs') := spin argv (fs st) in
          let st3 := set_fs fs' (log (Spin argv) st2) in
          if (status =? 0)%Z
          then (Ret (Some {| obns := obns v ++ [obn_of CFile];
                             objs := objs v ++ [obj_of CFile]; relink := true |}),
                st3)
          else
            match c !! bn with
            | Some _ =>
                (Ret None,
                 log (WriteError (failed_line CFile)) (set_srcmd5 (delete bn c) st3))
            | None => (Raise KeyError, st3)
            end
      end
  end.
Proof.
  intros Hc. unfold build_cfile. rewrite Hc. unfold bind at 1. unfold check_unit.
  destruct (check_and_update_hash_and_deps (buildpath st) (fs st) fuel
              (Posixpath.basename CFile) (srcmd5 st)) as [[[|]|e] c] eqn:Hchk;
    cbv zeta; [reflexivity| |reflexivity].
  unfold bind, logger_write, logger_write_error, modify, gets, shlex_split, ret, raise.
  destruct (Shlex.split CFLAGS) as [uf|]; [|reflexivity].
  unfold ProcessLogger_spin. cbn [fs log set_srcmd5 compiler].
  destruct (spin _ (fs st)) as [status fs'].
  destruct (status =? 0)%Z; cbn [negb]; [reflexivity|].
  unfold srcmd5_pop. cbn [srcmd5 set_fs log set_srcmd5].
  destruct (c !! Posixpath.basename CFile); reflexivity.
Qed.

(** C8. When the file of [bn] does not exist in the build directory,
    [check_and_update_hash_and_deps(bn)] returns [False] without raising,
    whatever the cache holds, and leaves the cache as it is; in [build] the
    unit then goes through the compilation branch: the [CC] line is logged
    and the compiler is run on it. *)
Theorem missing_file_is_reported_changed
    (fuel : nat) (cfl : list string) (v : locals) (CFile CFLAGS : string)
    (uf : list string) (st : state) :
  fs st !! Posixpath.join (buildpath st) (Posixpath.basename CFile) = None ->
  Str.endswith ".c" CFile = true ->
  Shlex.split CFLAGS = Some uf ->
  (forall c,
     check_and_update_hash_and_deps (buildpath st) (fs st) (S fuel)
       (Posixpath.basename CFile) c = (Ret false, c))
  /\ exists r st' rest,
       build_cfile spin (S fuel) cfl v (CFile, CFLAGS) st = (r, st')
       /\ trace st' =
          trace st ++ [Write (cc_line CFile); Spin (cc_argv (compiler st) CFile cfl uf)] ++ rest.
Proof.
  intros Hmiss Hc Huf. split; [intros c; apply check_missing; assumption|].
  rewrite build_cfile_c by assumption. cbv zeta.
  rewrite check_missing by assumption. rewrite Huf.
  destruct (spin _ (fs st)) as [status fs'].
  destruct (status =? 0)%Z.
  - do 2 eexists. exists []. split; [reflexivity|]. cbn. rewrite <- app_assoc. reflexivity.
  - destruct (srcmd5 st !! Posixpath.basename CFile).
    + do 2 eexists. eexists [_]. split; [reflexivity|]. cbn.
      rewrite <- !app_assoc. reflexivity.
    + do 2 eexists. exists []. split; [reflexivity|]. cbn.
      rewrite <- app_assoc. reflexivity.
Qed.

End BuildFacts.

Lemma missing_file_is_reported_changed_witness :
  (forall c,
     check_and_update_hash_and_deps "/build" Toy.files 1 "gone.c" c = (Ret false, c))
  /\ exists r st' rest,
       build_cfile Toy.gcc 1 ["-fPIC"] {| obns := []; objs := []; relink := false |}
         ("/build/gone.c", "-Wall") Toy.st = (r, st')
       /\ trace st' =
          [] ++ [Write (cc_line "/build/gone.c");
                 Spin (cc_argv "" "/build/gone.c" ["-fPIC"] ["-Wall"])] ++ rest.
Proof.
  apply (missing_file_is_reported_changed Toy.gcc 0 ["-fPIC"]
           {| obns := []; objs := []; relink := false |}
           "/build/gone.c" "-Wall" ["-Wall"] Toy.st); vm_compute; reflexivity.
Defined.

(** ** Writes to the cache *)

(** C9. A call of [check_and_update_hash_and_deps] changes an entry of the
    cache only by writing it in the branch taken when the digest of the file
    differs from the stored one.  When the digests are equal, the entry of
    that basename is left alone and the call is the recursion over the
    dependency list recorded earlier.  In [build], the cache after a turn of
    the compilation loop is the cache left by that call, except that the
    entry of the unit is gone when its compilation failed. *)
Theorem cache_written_only_on_mismatch
    (spin : list string -> gmap string node -> Z * gmap string node)
    (fuel : nat) (st : state) (CFile : string)
    (r : result bool) (c' : gmap string (string * list string)) :
  let bp := buildpath st in
  let bn := Posixpath.basename CFile in
  check_and_update_hash_and_deps bp (fs st) fuel bn (srcmd5 st) = (r, c') ->
  (forall k, c' !! k = srcmd5 st !! k
             \/ written_on_mismatch bp (fs st) (srcmd5 st) c' k)
  /\ (forall data deps fuel',
        fuel = S fuel' ->
        fs st !! Posixpath.join bp bn = Some (File data) ->
        srcmd5 st !! bn = Some (MD5.hexdigest data, deps) ->
        c' !! bn = srcmd5 st !! bn
        /\ (r, c') = check_deps bp (fs st) fuel' deps true (srcmd5 st))
  /\ (forall cfl v CFLAGS r2 st',
        Str.endswith ".c" CFile = true ->
        build_cfile spin fuel cfl v (CFile, CFLAGS) st = (r2, st') ->
        forall k, srcmd5 st' !! k = c' !! k
                  \/ (k = bn /\ srcmd5 st' !! k = None /\ r2 = Ret None)).
Proof.
  intros bp bn Hchk. split; [|split].
  - apply (check_cache_step _ _ _ _ _ _ _ Hchk).
  - intros data deps fuel' -> Hf Hc.
    rewrite (check_match _ _ _ _ _ _ _ Hf Hc) in Hchk. split; [|congruence].
    pose proof Hchk as Hd. apply check_deps_inv in Hd as (r' & Hm & _).
    apply mapM_check_cache_step in Hm.
    destruct (Hm bn) as [E|(d & Hf' & Hn & _)]; [assumption|].
    exfalso. apply Hn. rewrite Hc. simpl. congruence.
  - intros cfl v CFLAGS r2 st' Hc Hb k.
    rewrite build_cfile_c in Hb by assumption. cbv zeta in Hb.
    fold bp bn in Hb. rewrite Hchk in Hb.
    destruct r as [[|]|e]; try (injection Hb as <- <-; left; reflexivity).
    destruct (Shlex.split CFLAGS) as [uf|];
      [|injection Hb as <- <-; left; reflexivity].
    destruct (spin _ (fs st)) as [status fs'].
    destruct (status =? 0)%Z; [injection Hb as <- <-; left; reflexivity|].
    destruct (c' !! bn) eqn:Hbn; [|injection Hb as <- <-; left; reflexivity].
    injection Hb as <- <-. cbn [srcmd5 log set_srcmd5].
    destruct (decide (bn = k)) as [<-|Hne].
    + right. rewrite lookup_delete_eq. auto.
    + left. apply lookup_delete_ne. assumption.
Qed.

Lemma cache_written_only_on_mismatch_witness :
  let c := srcmd5 Toy.st_examined in
  let turn :=
    build_cfile Toy.gcc 8 ["-fPIC"] {| obns := []; objs := []; relink := false |}
      ("/build/main.c", "-Wall") Toy.st_examined in
  (forall k, c !! k = c !! k \/ written_on_mismatch "/build" Toy.files c c k)
  /\ (c !! "main.c" = c !! "main.c"
      /\ (Ret true, c) = check_deps "/build" Toy.files 7 [] true c)
  /\ (forall k, srcmd5 (snd turn) !! k = c !! k
                \/ (k = "main.c" /\ srcmd5 (snd turn) !! k = None
                    /\ fst turn = Ret None)).
Proof.
  intros c turn.
  destruct (cache_written_only_on_mismatch Toy.gcc 8 Toy.st_examined "/build/main.c"
              (Ret true) c) as (H1 & H2 & H3); [vm_compute; reflexivity|].
  split; [exact H1|]. split.
  - apply (H2 Toy.main_c [] 7%nat); [reflexivity|vm_compute; reflexivity..].
  - apply (H3 ["-fPIC"] {| obns := []; objs := []; relink := false |} "-Wall"
             (fst turn) (snd turn)); [vm_compute; reflexivity|].
    apply surjective_pairing.
Defined.

(** ** Change propagation *)

(** C1 (the code departs from the claim).  [main.c] includes [util.h], and
    scanning the text of [main.c] finds it; yet what the first call records
    for [main.c] is the scan of its path, which names nothing.  After
    [util.h] is edited the next call therefore reports [main.c] as
    matched. *)
Theorem header_change_is_not_propagated :
  let recorded := {[ "main.c" := (MD5.hexdigest Toy.main_c, []) ]} in
  Toy.files !! "/build/main.c" = Some (File Toy.main_c)
  /\ append_cfile_deps "/build" Toy.files Toy.main_c [] = ["util.h"]
  /\ check_and_update_hash_and_deps "/build" Toy.files 8 "main.c" ∅
     = (Ret false, recorded)
  /\ Toy.files_edited !! "/build/main.c" = Toy.files !! "/build/main.c"
  /\ Toy.files_edited !! "/build/util.h" ≠ Toy.files !! "/build/util.h"
  /\ check_and_update_hash_and_deps "/build" Toy.files_edited 8 "main.c" recorded
     = (Ret true, recorded).
Proof.
  cbv zeta. repeat split; try (vm_compute; reflexivity).
  intros H. vm_compute in H. discriminate.
Qed.

(** What is recorded is the scan of the path handed to [append_cfile_deps],
    for every file found changed. *)
Lemma recorded_deps_scan_the_path (bp : string) (fs : gmap string node)
    (fuel : nat) (bn data : string) (c : gmap string (string * list string)) :
  fs !! Posixpath.join bp bn = Some (File data) ->
  fst <$> c !! bn ≠ Some (MD5.hexdigest data) ->
  exists r c',
    check_and_update_hash_and_deps bp fs (S fuel) bn c = (r, c')
    /\ c' !! bn = Some (MD5.hexdigest data,
                        append_cfile_deps bp fs (Posixpath.join bp bn) []).
Proof.
  intros Hf Hn.
  destruct (check_and_update_hash_and_deps bp fs (S fuel) bn c) as [r c'] eqn:Hchk.
  exists r, c'. split; [reflexivity|].
  pose proof (check_cache_step _ _ _ _ _ _ _ Hchk) as Hstep.
  rewrite (check_mismatch _ _ _ _ _ _ Hf Hn) in Hchk.
  apply check_deps_inv in Hchk as (r' & Hm & _).
  apply mapM_check_cache_step in Hm.
  destruct (Hm bn) as [E|(d & Hf' & Hn' & _)].
  - rewrite E. apply lookup_insert_eq.
  - exfalso. apply Hn'. rewrite lookup_insert_eq. simpl. congruence.
Qed.

(** Whenever the path of a file does not itself read as an include line,
    the file is recorded without dependencies, and it is reported matched
    for as long as its own bytes stay the same, whatever happens to the
    files it includes. *)
Lemma unchanged_file_matches_whatever_it_includes
    (bp : string) (fs fs' : gmap string node) (fuel fuel' : nat) (bn data : string)
    (c c1 : gmap string (string * list string)) (r : result bool) :
  fs !! Posixpath.join bp bn = Some (File data) ->
  append_cfile_deps bp fs (Posixpath.join bp bn) [] = [] ->
  fst <$> c !! bn ≠ Some (MD5.hexdigest data) ->
  check_and_update_hash_and_deps bp fs (S fuel) bn c = (r, c1) ->
  fs' !! Posixpath.join bp bn = Some (File data) ->
  r = Ret false
  /\ check_and_update_hash_and_deps bp fs' (S fuel') bn c1 = (Ret true, c1).
Proof.
  intros Hf Hscan Hn Hchk Hf'.
  rewrite (check_mismatch _ _ _ _ _ _ Hf Hn), Hscan in Hchk.
  injection Hchk as <- <-. split; [reflexivity|].
  rewrite (check_match bp fs' fuel' bn _ data []); [reflexivity|assumption|].
  apply lookup_insert_eq.
Qed.

(** ** Flags from the environment *)

(** C3 (the code departs from the claim).  With [CFLAGS] and [LDFLAGS]
    both set, the value of [CFLAGS] is appended to the compiler flags, and
    the value of [LDFLAGS] is absent from the linker flags: the variable
    that [getBuilderLDFLAGS] looks up is spelled [LDLAGS]. *)
Theorem LDFLAGS_variable_is_not_read :
  let st := Toy.fresh_state Toy.files Toy.env_flags in
  environ st !! "CFLAGS" = Some "-g"
  /\ environ st !! "LDFLAGS" = Some "-lrt"
  /\ getBuilderCFLAGS Toy.ctr st = ["-fPIC"; "-g"]
  /\ getBuilderLDFLAGS Toy.ctr st = ["-lm"; "-shared"].
Proof. vm_compute. repeat split; reflexivity. Qed.

(** The linker flags are a function of [LDLAGS] and [SYSROOT] alone. *)
Lemma getBuilderLDFLAGS_reads (ctr : CTR) (st : state) :
  environ st !! "LDLAGS" = None ->
  environ st !! "SYSROOT" = None ->
  getBuilderLDFLAGS ctr st = LDFLAGS ctr ++ [target_LDFLAGS ctr].
Proof. intros H1 H2. unfold getBuilderLDFLAGS. rewrite H1, H2. reflexivity. Qed.

(** ** Runs of the loops *)

Lemma add_trace_nil (st : state) : add_trace [] st = st.
Proof. destruct st. unfold add_trace. cbn. rewrite app_nil_r. reflexivity. Qed.

Lemma add_trace_app (es1 es2 : list event) (st : state) :
  add_trace es2 (add_trace es1 st) = add_trace (es1 ++ es2) st.
Proof. unfold add_trace. cbn. rewrite app_assoc. reflexivity. Qed.

Lemma set_srcmd5_same (st : state) : set_srcmd5 (srcmd5 st) st = st.
Proof. destruct st. reflexivity. Qed.

Lemma same_config_refl (st : state) : same_config st st.
Proof. unfold same_config. repeat split; reflexivity. Qed.

Lemma same_config_trans (s1 s2 s3 : state) :
  same_config s1 s2 -> same_config s2 s3 -> same_config s1 s3.
Proof.
  unfold same_config. intros (?&?&?&?&?&?) (?&?&?&?&?&?).
  repeat split; congruence.
Qed.

(** Projections of a state given by its fields. *)
Ltac fields :=
  cbv beta iota
    delta [buildpath bin bin_path md5key srcmd5 compiler linker fs environ trace
           fst snd].

Ltac same_config_now := unfold same_config; repeat split; reflexivity.

(** A property of the state that every turn keeps is kept by the loop. *)
Lemma for_each_preserves {A} (P : state -> state -> Prop)
    (body : locals -> A -> M state (option locals)) :
  (forall s, P s s) ->
  (forall s1 s2 s3, P s1 s2 -> P s2 s3 -> P s1 s3) ->
  (forall v x s r s', body v x s = (r, s') -> P s s') ->
  forall l v s r s', for_each body l v s = (r, s') -> P s s'.
Proof.
  intros Hrefl Htrans Hbody. induction l as [|x l IH]; intros v s r s' H.
  - injection H as <- <-. apply Hrefl.
  - cbn [for_each] in H. unfold bind in H.
    destruct (body v x s) as [[[v'|]|e] s1] eqn:Hx.
    + eapply Htrans; [eapply Hbody; eassumption|eapply IH; eassumption].
    + injection H as <- <-. eapply Hbody; eassumption.
    + injection H as <- <-. eapply Hbody; eassumption.
Qed.

Section Runs.

Variable ctr : CTR.
Variable spin : list string -> gmap string node -> Z * gmap string node.
Variable check_output : list string -> check_output_result.

(** What a turn does for a file that is not compilable. *)
Lemma build_cfile_other fuel cfl v CFile CFLAGS st :
  Str.endswith ".c" CFile = false ->
  build_cfile spin fuel cfl v (CFile, CFLAGS) st =
  (Ret (Some (if Str.endswith ".o" CFile
              then {| obns := obns v ++ [Posixpath.basename CFile];
                      objs := objs v ++ [CFile]; relink := relink v |}
              else v)), st).
Proof.
  intros Hc. unfold build_cfile. rewrite Hc.
  destruct (Str.endswith ".o" CFile); reflexivity.
Qed.

Lemma build_cfile_same_config fuel cfl v f st r st' :
  build_cfile spin fuel cfl v f st = (r, st') -> same_config st st'.
Proof.
  destruct f as [CFile CFLAGS]. intros H.
  destruct (Str.endswith ".c" CFile) eqn:Hc.
  - rewrite build_cfile_c in H by assumption. cbv zeta in H.
    destruct (check_and_update_hash_and_deps _ _ _ _ _) as [[[|]|e] c];
      try (injection H as <- <-; same_config_now).
    destruct (Shlex.split CFLAGS) as [uf|];
      [|injection H as <- <-; same_config_now].
    destruct (spin _ (fs st)) as [status fs'].
    destruct (status =? 0)%Z; [injection H as <- <-; same_config_now|].
    destruct (c !! _); injection H as <- <-; same_config_now.
  - rewrite build_cfile_other in H by assumption.
    injection H as <- <-. same_config_now.
Qed.

Lemma build_location_eq fuel cfl v loc st :
  build_location spin fuel cfl v loc st =
  for_each (build_cfile spin fuel cfl) (snd (fst loc)) v
    (add_trace (location_header loc) st).
Proof.
  destruct loc as [[Location files] DoCalls]. unfold build_location, location_header.
  cbn [fst snd]. unfold bind.
  destruct files as [|f files].
  - unfold ret. rewrite add_trace_nil. reflexivity.
  - destruct Location; reflexivity.
Qed.

Lemma build_location_same_config fuel cfl v loc st r st' :
  build_location spin fuel cfl v loc st = (r, st') -> same_config st st'.
Proof.
  rewrite build_location_eq. intros H.
  apply (for_each_preserves same_config) in H;
    eauto using same_config_refl, same_config_trans, build_cfile_same_config.
Qed.

Lemma generate_object_files_eq fuel cfl st :
  generate_object_files ctr spin fuel cfl st =
  for_each (build_location spin fuel cfl) (LocationCFilesAndCFLAGS ctr)
    {| obns := []; objs := []; relink := negb (path_exists (fs st) (bin_path st)) |}
    st.
Proof. reflexivity. Qed.

Lemma generate_object_files_same_config fuel cfl st r st' :
  generate_object_files ctr spin fuel cfl st = (r, st') -> same_config st st'.
Proof.
  rewrite generate_object_files_eq. intros H.
  apply (for_each_preserves same_config) in H;
    eauto using same_config_refl, same_config_trans, build_location_same_config.
Qed.

End Runs.

(** ** The flags and the link step *)

Section Phases.

Variable ctr : CTR.
Variable spin : list string -> gmap string node -> Z * gmap string node.
Variable check_output : list string -> check_output_result.

Lemma resolve_sysroot_eq cs ls cfl lfl st :
  resolve_sysroot check_output cs ls cfl lfl st =
  if Str.contains pattern cs || Str.contains pattern ls then
    match check_output sysroot_query with
    | CalledProcessError =>
        (Ret None,
         add_trace [CheckOutput sysroot_query;
                    Write ("GCC failed with -print-sysroot" +:+ nl)] st)
    | ExecutableNotFound =>
        (Ret None,
         add_trace [CheckOutput sysroot_query; Write ("GCC not found" +:+ nl)] st)
    | Output sysrootb =>
        if Utf8.valid sysrootb
        then (Ret (Some (map (Str.replace pattern (Str.strip sysrootb)) cfl,
                         map (Str.replace pattern (Str.strip sysrootb)) lfl)),
              add_trace [CheckOutput sysroot_query] st)
        else (Raise UnicodeDecodeError, add_trace [CheckOutput sysroot_query] st)
    end
  else (Ret (Some (cfl, lfl)), st).
Proof.
  unfold resolve_sysroot.
  destruct (Str.contains pattern cs || Str.contains pattern ls); [|reflexivity].
  unfold bind, modify, logger_write, ret, raise. fold sysroot_query.
  destruct (check_output sysroot_query) as [b| |].
  - destruct (Utf8.valid b); reflexivity.
  - unfold add_trace, log. cbn. rewrite <- app_assoc. reflexivity.
  - unfold add_trace, log. cbn. rewrite <- app_assoc. reflexivity.
Qed.

Lemma assemble_flags_eq st :
  assemble_flags ctr check_output st =
  match Shlex.split (cflags_str ctr st) with
  | None => (Raise ValueError, st)
  | Some cfl =>
      match Shlex.split (ldflags_str ctr st) with
      | None => (Raise ValueError, st)
      | Some lfl =>
          resolve_sysroot check_output (cflags_str ctr st) (ldflags_str ctr st)
            cfl lfl st
      end
  end.
Proof.
  unfold assemble_flags, bind, gets, shlex_split, cflags_str, ldflags_str.
  destruct (Shlex.split (Str.join " " (getBuilderCFLAGS ctr st))); [|reflexivity].
  destruct (Shlex.split (Str.join " " (getBuilderLDFLAGS ctr st))); reflexivity.
Qed.

(** Assembling the flags only adds to the trace, and runs no
    [ProcessLogger]. *)
Lemma assemble_flags_run st :
  exists es, snd (assemble_flags ctr check_output st) = add_trace es st
             /\ Forall quiet es.
Proof.
  rewrite assemble_flags_eq.
  assert (exists es, st = add_trace es st /\ Forall quiet es) as Hnil
    by (exists []; rewrite add_trace_nil; auto).
  destruct (Shlex.split (cflags_str ctr st)); [|exact Hnil].
  destruct (Shlex.split (ldflags_str ctr st)); [|exact Hnil].
  rewrite resolve_sysroot_eq.
  destruct (_ || _); [|exact Hnil].
  destruct (check_output sysroot_query) as [b| |]; [destruct (Utf8.valid b)| |];
    eexists; (split; [reflexivity|]); repeat constructor.
Qed.

(** The flags depend on the environment variables only. *)
Lemma assemble_flags_value st st2 :
  environ st2 = environ st ->
  fst (assemble_flags ctr check_output st2) = fst (assemble_flags ctr check_output st).
Proof.
  intros He. rewrite !assemble_flags_eq.
  assert (cflags_str ctr st2 = cflags_str ctr st) as ->
    by (unfold cflags_str, getBuilderCFLAGS; rewrite He; reflexivity).
  assert (ldflags_str ctr st2 = ldflags_str ctr st) as ->
    by (unfold ldflags_str, getBuilderLDFLAGS; rewrite He; reflexivity).
  destruct (Shlex.split (cflags_str ctr st)); [|reflexivity].
  destruct (Shlex.split (ldflags_str ctr st)); [|reflexivity].
  rewrite !resolve_sysroot_eq.
  destruct (_ || _); [|reflexivity].
  destruct (check_output sysroot_query) as [b| |]; [destruct (Utf8.valid b)| |];
    reflexivity.
Qed.

(** The link step and the fingerprint, spelled out. *)
Lemma generate_output_file_eq lfl v st :
  generate_output_file spin lfl v st =
  let st1 := add_trace [Write ("Linking :" +:+ nl)] st in
  let argv := link_argv (linker st) (objs v) (bin_path st) lfl in
  let '(status, st2) :=
    if relink v then
      (fst (spin argv (fs st)),
       set_fs (snd (spin argv (fs st)))
         (add_trace
            [Write ("   [CC]  " +:+ Str.join " " (obns v) +:+ " -> "
                      +:+ bin st +:+ nl);
             Spin argv] st1))
    else
      (0%Z,
       add_trace
         [Write ("   [pass]  " +:+ Str.join " " (obns v) +:+ " -> "
                   +:+ bin st +:+ nl)] st1) in
  if (status =? 0)%Z then
    match compute_file_md5 (fs st2) (bin_path st) with
    | Raise e => (Raise e, st2)
    | Ret k =>
        match fs st2 !! _GetMD5FileName st with
        | Some Dir => (Raise IsADirectoryError, set_md5key (Some k) st2)
        | _ =>
            (Ret true,
             set_fs (<[_GetMD5FileName st := File k]> (fs st2))
               (set_md5key (Some k) st2))
        end
    end
  else (Ret false, st2).
Proof.
  destruct st as [bp b bpath k0 c cc ld files env tr].
  unfold generate_output_file, bind, logger_write, modify, gets, ret,
    ProcessLogger_spin, link_argv, write_file, _GetMD5FileName,
    add_trace, log, set_fs, set_md5key.
  fields.
  destruct (relink v).
  - destruct (spin _ files) as [status fs']. fields.
    destruct (status =? 0)%Z; [|rewrite <- !app_assoc; reflexivity].
    destruct (compute_file_md5 fs' bpath) as [k|e];
      [|rewrite <- !app_assoc; reflexivity].
    fields.
    destruct (fs' !! _) as [[|]|]; rewrite <- !app_assoc; reflexivity.
  - change (0 =? 0)%Z with true. fields.
    destruct (compute_file_md5 files bpath) as [k|e];
      [|rewrite <- !app_assoc; reflexivity].
    fields.
    destruct (files !! _) as [[|]|]; rewrite <- !app_assoc; reflexivity.
Qed.

End Phases.

(** ** The link step of a build that succeeds *)

Section Fingerprint.

Variable ctr : CTR.
Variable spin : list string -> gmap string node -> Z * gmap string node.
Variable check_output : list string -> check_output_result.

Lemma generate_output_file_true lfl v s s' :
  generate_output_file spin lfl v s = (Ret true, s') ->
  _GetMD5FileName s ≠ bin_path s ->
  exists data,
    fs s' !! bin_path s = Some (File data)
    /\ md5key s' = Some (MD5.hexdigest data)
    /\ fs s' !! _GetMD5FileName s = Some (File (MD5.hexdigest data))
    /\ same_config s s'.
Proof.
  rewrite generate_output_file_eq. cbv zeta. intros H Hne.
  destruct (if relink v then _ else _) as [status s2] eqn:Hlink.
  assert (same_config s s2) as Hcfg.
  { destruct (relink v); injection Hlink as <- <-; same_config_now. }
  destruct (status =? 0)%Z; [|discriminate].
  destruct (compute_file_md5 (fs s2) (bin_path s)) as [k|e] eqn:Hk; [|discriminate].
  apply compute_file_md5_ret in Hk as (data & Hdata & ->).
  exists data.
  assert (s' = set_fs (<[_GetMD5FileName s := File (MD5.hexdigest data)]> (fs s2))
                 (set_md5key (Some (MD5.hexdigest data)) s2)) as ->.
  { destruct (fs s2 !! _GetMD5FileName s) as [[|]|]; congruence. }
  cbn [fs md5key set_fs set_md5key].
  split; [rewrite lookup_insert_ne by assumption; assumption|].
  split; [reflexivity|].
  split; [apply lookup_insert_eq|].
  eapply same_config_trans; [eassumption|same_config_now].
Qed.

Lemma build_true_inv fuel st st' :
  build ctr spin check_output fuel st = (Ret true, st') ->
  exists cfl lfl es v s2,
    assemble_flags ctr check_output (set_tools (getCompiler ctr) (getLinker ctr) st)
    = (Ret (Some (cfl, lfl)),
       add_trace es (set_tools (getCompiler ctr) (getLinker ctr) st))
    /\ Forall quiet es
    /\ generate_object_files ctr spin fuel cfl
         (add_trace es (set_tools (getCompiler ctr) (getLinker ctr) st))
       = (Ret (Some v), s2)
    /\ generate_output_file spin lfl v s2 = (Ret true, st').
Proof.
  unfold build, bind, modify. intros H.
  set (s0 := set_tools (getCompiler ctr) (getLinker ctr) st) in *.
  destruct (assemble_flags_run ctr check_output s0) as (es & Hes & Hq).
  destruct (assemble_flags ctr check_output s0) as [rf s1] eqn:Hf.
  cbn [snd] in Hes. subst s1.
  destruct rf as [[[cfl lfl]|]|e]; try discriminate.
  unfold build_with_flags, bind in H.
  destruct (generate_object_files ctr spin fuel cfl (add_trace es s0))
    as [[[v|]|e] s2] eqn:Hg; try discriminate.
  exists cfl, lfl, es, v, s2. auto.
Qed.

End Fingerprint.

(** ** Builds in which every unit is found unchanged *)

Section Unchanged.

Variable ctr : CTR.
Variable spin : list string -> gmap string node -> Z * gmap string node.
Variable check_output : list string -> check_output_result.

Lemma build_cfile_match fuel cfl v CFile CFLAGS st :
  Str.endswith ".c" CFile = true ->
  matched fuel st (Posixpath.basename CFile) ->
  build_cfile spin fuel cfl v (CFile, CFLAGS) st =
  (Ret (Some {| obns := obns v ++ [obn_of CFile];
                objs := objs v ++ [obj_of CFile]; relink := relink v |}),
   add_trace [Write (pass_line CFile)] st).
Proof.
  intros Hc Hm. rewrite build_cfile_c by assumption. cbv zeta.
  unfold matched in Hm.
  destruct (check_and_update_hash_and_deps _ _ _ _ _) as [r c] eqn:Hchk.
  cbn [fst] in Hm. subst r. apply check_true_unchanged in Hchk as ->.
  rewrite set_srcmd5_same. reflexivity.
Qed.

Lemma for_each_cfile_match fuel cfl : forall files v st,
  Forall (matched fuel st) (flat_map unit_of files) ->
  exists es v',
    for_each (build_cfile spin fuel cfl) files v st = (Ret (Some v'), add_trace es st)
    /\ Forall quiet es
    /\ objs v' = objs v ++ flat_map object_of files
    /\ relink v' = relink v.
Proof.
  induction files as [|[CFile CFLAGS] files IH]; intros v st H.
  - exists [], v. cbn. rewrite add_trace_nil, app_nil_r. auto.
  - cbn [flat_map] in H. apply Forall_app in H as [H1 H2].
    unfold unit_of in H1. cbn [fst] in H1.
    cbn [for_each flat_map]. unfold bind, object_of. cbn [fst].
    destruct (Str.endswith ".c" CFile) eqn:Hc.
    + inversion H1 as [|? ? Hm _]; subst.
      rewrite build_cfile_match by assumption.
      destruct (IH {| obns := obns v ++ [obn_of CFile];
                      objs := objs v ++ [obj_of CFile]; relink := relink v |}
                  (add_trace [Write (pass_line CFile)] st) H2)
        as (es & v' & E & Hq & Ho & Hr).
      rewrite E, add_trace_app. do 2 eexists. split; [reflexivity|].
      split; [constructor; [reflexivity|assumption]|].
      rewrite Ho, Hr. cbn [objs relink]. rewrite <- app_assoc. auto.
    + rewrite build_cfile_other by assumption.
      destruct (Str.endswith ".o" CFile).
      * destruct (IH {| obns := obns v ++ [Posixpath.basename CFile];
                        objs := objs v ++ [CFile]; relink := relink v |} st H2)
          as (es & v' & E & Hq & Ho & Hr).
        rewrite E. do 2 eexists. split; [reflexivity|]. split; [assumption|].
        rewrite Ho, Hr. cbn [objs relink]. rewrite <- app_assoc. auto.
      * destruct (IH v st H2) as (es & v' & E & Hq & Ho & Hr).
        rewrite E. do 2 eexists. split; [reflexivity|]. split; [assumption|].
        rewrite Ho, Hr. auto.
Qed.

Lemma quiet_header loc : Forall quiet (location_header loc).
Proof.
  unfold location_header. destruct (snd (fst loc)); [constructor|].
  destruct (fst (fst loc)); repeat constructor.
Qed.

Lemma for_each_location_match fuel cfl : forall locs v st,
  Forall (matched fuel st)
    (flat_map (fun loc : list Z * list (string * string) * bool =>
                 flat_map unit_of (snd (fst loc))) locs) ->
  exists es v',
    for_each (build_location spin fuel cfl) locs v st = (Ret (Some v'), add_trace es st)
    /\ Forall quiet es
    /\ objs v' =
       objs v ++ flat_map (fun loc : list Z * list (string * string) * bool =>
                             flat_map object_of (snd (fst loc))) locs
    /\ relink v' = relink v.
Proof.
  induction locs as [|loc locs IH]; intros v st H.
  - exists [], v. cbn. rewrite add_trace_nil, app_nil_r. auto.
  - cbn [flat_map] in H. apply Forall_app in H as [H1 H2].
    cbn [for_each flat_map]. unfold bind. rewrite build_location_eq.
    edestruct (for_each_cfile_match fuel cfl (snd (fst loc)) v
                 (add_trace (location_header loc) st) H1)
      as (es1 & v1 & E1 & Hq1 & Ho1 & Hr1).
    rewrite E1, add_trace_app.
    edestruct (IH v1 (add_trace (location_header loc ++ es1) st) H2)
      as (es2 & v2 & E2 & Hq2 & Ho2 & Hr2).
    rewrite E2, add_trace_app. do 2 eexists. split; [reflexivity|].
    split.
    + repeat (apply Forall_app; split); auto using quiet_header.
    + rewrite Ho2, Hr2, Ho1, Hr1, <- app_assoc. auto.
Qed.

Lemma generate_object_files_match fuel cfl st :
  Forall (matched fuel st) (compilable_units ctr) ->
  exists es v',
    generate_object_files ctr spin fuel cfl st = (Ret (Some v'), add_trace es st)
    /\ Forall quiet es
    /\ objs v' = link_objects ctr
    /\ relink v' = negb (path_exists (fs st) (bin_path st)).
Proof.
  intros H. rewrite generate_object_files_eq.
  edestruct (for_each_location_match fuel cfl (LocationCFilesAndCFLAGS ctr)) 
    as (es & v' & E & Hq & Ho & Hr); [exact H|].
  rewrite E. exists es, v'. split; [reflexivity|]. split; [assumption|].
  split; assumption.
Qed.

Lemma generate_output_file_trace lfl v st r st' :
  generate_output_file spin lfl v st = (r, st') ->
  trace st' = trace st ++ link_events st v lfl.
Proof.
  rewrite generate_output_file_eq. cbv zeta. unfold link_events.
  destruct (relink v).
  - destruct (fst (spin _ (fs st)) =? 0)%Z;
      [|intros [= <- <-]; cbn; rewrite <- app_assoc; reflexivity].
    destruct (compute_file_md5 _ _) as [k|e];
      [|intros [= <- <-]; cbn; rewrite <- app_assoc; reflexivity].
    destruct (_ !! _) as [[|]|]; intros [= <- <-]; cbn;
      rewrite <- app_assoc; reflexivity.
  - change (0 =? 0)%Z with true. cbv iota.
    destruct (compute_file_md5 _ _) as [k|e];
      [|intros [= <- <-]; cbn; rewrite <- app_assoc; reflexivity].
    destruct (_ !! _) as [[|]|]; intros [= <- <-]; cbn;
      rewrite <- app_assoc; reflexivity.
Qed.

(** C7. The link step follows the presence of the artifact at the start of
    [build] when no unit has changed: once the flags are assembled and every
    compilable unit is found unchanged, the linker is run on the objects of
    the project if nothing exists at the path of the artifact, and no
    process is run through [ProcessLogger] at all if something does. *)
Theorem relink_follows_artifact_presence
    (fuel : nat) (st st' : state) (cfl lfl : list string) (r : result bool) :
  fst (assemble_flags ctr check_output
         (set_tools (getCompiler ctr) (getLinker ctr) st))
  = Ret (Some (cfl, lfl)) ->
  Forall (matched fuel st) (compilable_units ctr) ->
  build ctr spin check_output fuel st = (r, st') ->
  exists es,
    trace st' = trace st ++ es
    /\ if path_exists (fs st) (bin_path st)
       then Forall quiet es
       else In (Spin (link_argv (getLinker ctr) (link_objects ctr) (bin_path st) lfl)) es.
Proof.
  intros Hflags Hm H. unfold build, bind, modify in H.
  set (s0 := set_tools (getCompiler ctr) (getLinker ctr) st) in *.
  destruct (assemble_flags_run ctr check_output s0) as (es0 & Hes & Hq0).
  destruct (assemble_flags ctr check_output s0) as [rf s1] eqn:Hf.
  cbn [fst snd] in Hflags, Hes. subst rf s1.
  unfold build_with_flags, bind in H.
  destruct (generate_object_files_match fuel cfl (add_trace es0 s0) Hm)
    as (es1 & v & Hg & Hq1 & Ho & Hr).
  rewrite Hg, add_trace_app in H.
  apply generate_output_file_trace in H.
  exists ((es0 ++ es1) ++ link_events (add_trace (es0 ++ es1) s0) v lfl).
  split; [rewrite H; cbn; rewrite <- !app_assoc; reflexivity|].
  unfold link_events. rewrite Hr. cbn [fs bin_path add_trace set_tools s0 linker bin].
  destruct (path_exists (fs st) (bin_path st)); cbn [negb].
  - apply Forall_app. split; [apply Forall_app; auto|repeat constructor].
  - rewrite Ho. apply in_or_app. right. cbn. auto.
Qed.

End Unchanged.

Lemma relink_follows_artifact_presence_witness :
  exists es,
    trace (snd (build Toy.ctr Toy.gcc Toy.print_sysroot 8 Toy.unlinked))
    = trace Toy.unlinked ++ es
    /\ if path_exists (fs Toy.unlinked) (bin_path Toy.unlinked)
       then Forall quiet es
       else In (Spin (link_argv (getLinker Toy.ctr) (link_objects Toy.ctr)
                        (bin_path Toy.unlinked) ["-lm"; "-shared"])) es.
Proof.
  apply (relink_follows_artifact_presence Toy.ctr Toy.gcc Toy.print_sysroot 8
           Toy.unlinked _ ["-fPIC"] ["-lm"; "-shared"]
           (fst (build Toy.ctr Toy.gcc Toy.print_sysroot 8 Toy.unlinked))).
  - vm_compute. reflexivity.
  - change (compilable_units Toy.ctr) with ["main.c"; "util.c"].
    repeat constructor; vm_compute; reflexivity.
  - apply surjective_pairing.
Defined.

(** ** The processes that a build runs *)

Lemma spins_app (es1 es2 : list event) : spins (es1 ++ es2) = spins es1 ++ spins es2.
Proof. unfold spins. apply flat_map_app. Qed.

Lemma spins_quiet (es : list event) : Forall quiet es -> spins es = [].
Proof.
  induction 1 as [|e es He _ IH]; [reflexivity|].
  unfold spins in *. cbn [flat_map]. rewrite IH.
  destruct e; try reflexivity. discriminate.
Qed.

Lemma runs_only_refl (s : state) : runs_only [] s s.
Proof.
  split; [apply same_config_refl|]. split; [reflexivity|].
  exists []. rewrite app_nil_r. split; [reflexivity|constructor].
Qed.

Lemma runs_only_trans (c1 c2 : list (list string)) (s1 s2 s3 : state) :
  runs_only c1 s1 s2 -> runs_only c2 s2 s3 -> runs_only (c1 ++ c2) s1 s3.
Proof.
  intros (Hc1 & Hk1 & n1 & Ht1 & Hs1) (Hc2 & Hk2 & n2 & Ht2 & Hs2).
  split; [eapply same_config_trans; eassumption|]. split; [congruence|].
  exists (n1 ++ n2). split; [rewrite Ht2, Ht1, app_assoc; reflexivity|].
  rewrite spins_app. apply sublist_app; assumption.
Qed.

Lemma runs_only_more (c1 c2 : list (list string)) (s s' : state) :
  runs_only c1 s s' -> runs_only (c1 ++ c2) s s'.
Proof.
  intros (Hc & Hk & n & Ht & Hs). split; [assumption|]. split; [assumption|].
  exists n. split; [assumption|]. apply sublist_inserts_r. assumption.
Qed.

Lemma runs_only_trace (es : list event) (s : state) :
  Forall quiet es -> runs_only [] s (add_trace es s).
Proof.
  intros Hq. split; [same_config_now|]. split; [reflexivity|].
  exists es. split; [reflexivity|]. rewrite spins_quiet by assumption. constructor.
Qed.

Section Commands.

Variable ctr : CTR.
Variable spin : list string -> gmap string node -> Z * gmap string node.
Variable check_output : list string -> check_output_result.

Lemma build_cfile_runs_only fuel cfl v f s r s' :
  build_cfile spin fuel cfl v f s = (r, s') ->
  runs_only (compile_command (compiler s) cfl f) s s'
  /\ forall v', r = Ret (Some v') -> objs v' = objs v ++ object_of f.
Proof.
  destruct f as [CFile CFLAGS]. unfold compile_command, object_of. cbn [fst snd].
  intros H. destruct (Str.endswith ".c" CFile) eqn:Hc.
  - rewrite build_cfile_c in H by assumption. cbv zeta in H.
    assert (forall es s0, Forall quiet es ->
              runs_only (match Shlex.split CFLAGS with
                         | Some uf => [cc_argv (compiler s) CFile cfl uf]
                         | None => []
                         end) s (add_trace es (set_srcmd5 s0 s))) as Hquiet.
    { intros es s0 Hq. split; [same_config_now|]. split; [reflexivity|].
      exists es. split; [reflexivity|]. rewrite spins_quiet by assumption.
      apply sublist_nil_l. }
    destruct (check_and_update_hash_and_deps _ _ _ _ _) as [[[|]|e] c].
    + injection H as <- <-. split; [apply (Hquiet [_]); repeat constructor|].
      intros v' [= <-]. reflexivity.
    + destruct (Shlex.split CFLAGS) as [uf|].
      * destruct (spin _ (fs s)) as [status fs'].
        assert (forall es s0 k, Forall quiet es ->
                  runs_only [cc_argv (compiler s) CFile cfl uf] s
                    (add_trace es
                       (set_srcmd5 k
                          (set_fs s0
                             (log (Spin (cc_argv (compiler s) CFile cfl uf))
                                (log (Write (cc_line CFile)) (set_srcmd5 c s)))))))
          as Hrun.
        { intros es s0 k Hq. split; [same_config_now|]. split; [reflexivity|].
          exists ([Write (cc_line CFile); Spin (cc_argv (compiler s) CFile cfl uf)] ++ es).
          split; [cbn; rewrite <- !app_assoc; reflexivity|].
          rewrite spins_app, (spins_quiet es) by assumption. reflexivity. }
        destruct (status =? 0)%Z.
        -- injection H as <- <-. split.
           ++ pose proof (Hrun [] fs' c ltac:(constructor)) as Hr.
              rewrite add_trace_nil in Hr. exact Hr.
           ++ intros v' [= <-]. reflexivity.
        -- destruct (c !! _); injection H as <- <-.
           ++ split; [|discriminate].
              exact (Hrun [WriteError (failed_line CFile)] fs' _
                       ltac:(repeat constructor)).
           ++ split; [|discriminate].
              pose proof (Hrun [] fs' c ltac:(constructor)) as Hr.
              rewrite add_trace_nil in Hr. exact Hr.
      * injection H as <- <-. split; [apply (Hquiet [_]); repeat constructor|].
        discriminate.
    + injection H as <- <-. split; [|discriminate].
      pose proof (Hquiet [] c ltac:(constructor)) as Hr.
      rewrite add_trace_nil in Hr. exact Hr.
  - rewrite build_cfile_other in H by assumption. injection H as <- <-.
    split; [apply runs_only_refl|].
    intros v' [= <-]. destruct (Str.endswith ".o" CFile); [reflexivity|].
    rewrite app_nil_r. reflexivity.
Qed.

(** The loop runs the commands of its turns, and collects their objects. *)
Lemma for_each_runs_only {A} (body : locals -> A -> M state (option locals))
    (cc : string) (cmds : A -> list (list string)) (objs_of : A -> list string) :
  (forall v x s r s',
     compiler s = cc -> body v x s = (r, s') ->
     runs_only (cmds x) s s'
     /\ forall v', r = Ret (Some v') -> objs v' = objs v ++ objs_of x) ->
  forall l v s r s',
    compiler s = cc -> for_each body l v s = (r, s') ->
    runs_only (flat_map cmds l) s s'
    /\ forall v', r = Ret (Some v') -> objs v' = objs v ++ flat_map objs_of l.
Proof.
  intros Hbody. induction l as [|x l IH]; intros v s r s' Hcc H.
  - injection H as <- <-. split; [apply runs_only_refl|].
    intros v' [= <-]. rewrite app_nil_r. reflexivity.
  - cbn [for_each] in H. unfold bind in H. cbn [flat_map].
    destruct (body v x s) as [r1 s1] eqn:Hx.
    destruct (Hbody _ _ _ _ _ Hcc Hx) as [Hrun Hobjs].
    destruct r1 as [[v1|]|e].
    + assert (compiler s1 = cc) as Hcc1.
      { destruct Hrun as ((_ & _ & _ & _ & Hc & _) & _). congruence. }
      destruct (IH _ _ _ _ Hcc1 H) as [Hrun' Hobjs'].
      split; [eapply runs_only_trans; eassumption|].
      intros v' Hv'. rewrite (Hobjs' v' Hv'), (Hobjs v1 eq_refl), app_assoc.
      reflexivity.
    + injection H as <- <-. split; [apply runs_only_more; assumption|discriminate].
    + injection H as <- <-. split; [apply runs_only_more; assumption|discriminate].
Qed.

Lemma build_location_runs_only fuel cfl v loc s r s' :
  build_location spin fuel cfl v loc s = (r, s') ->
  runs_only (flat_map (compile_command (compiler s) cfl) (snd (fst loc))) s s'
  /\ forall v', r = Ret (Some v') ->
                objs v' = objs v ++ flat_map object_of (snd (fst loc)).
Proof.
  rewrite build_location_eq. intros H.
  apply (for_each_runs_only _ (compiler s) (compile_command (compiler s) cfl) object_of)
    in H; [| |reflexivity].
  - destruct H as [Hrun Hobjs]. split; [|assumption].
    change (flat_map (compile_command (compiler s) cfl) (snd (fst loc)))
      with ([] ++ flat_map (compile_command (compiler s) cfl) (snd (fst loc))).
    eapply runs_only_trans; [apply runs_only_trace, quiet_header|eassumption].
  - intros v0 x s0 r0 s0' Hcc Hx. rewrite <- Hcc.
    eapply build_cfile_runs_only. eassumption.
Qed.

Lemma generate_object_files_runs_only fuel cfl s r s' :
  compiler s = target_Compiler ctr ->
  generate_object_files ctr spin fuel cfl s = (r, s') ->
  runs_only (compile_commands ctr cfl) s s'
  /\ forall v', r = Ret (Some v') -> objs v' = link_objects ctr.
Proof.
  rewrite generate_object_files_eq. intros Hcc H.
  apply (for_each_runs_only _ (target_Compiler ctr)
           (fun loc : list Z * list (string * string) * bool =>
              flat_map (compile_command (target_Compiler ctr) cfl) (snd (fst loc)))
           (fun loc : list Z * list (string * string) * bool =>
              flat_map object_of (snd (fst loc)))) in H; [exact H| |assumption].
  intros v0 loc s0 r0 s0' Hcc0 Hx. rewrite <- Hcc0.
  eapply build_location_runs_only. eassumption.
Qed.

End Commands.

(** ** The fingerprint of the artifact *)

Section Artifact.

Variable ctr : CTR.
Variable spin : list string -> gmap string node -> Z * gmap string node.
Variable check_output : list string -> check_output_result.

Lemma ran_app (st st' : state) (es : list event) :
  trace st' = trace st ++ es -> ran st st' = spins es.
Proof.
  intros H. unfold ran. rewrite H. f_equal. clear H.
  induction (trace st) as [|e t IH]; [reflexivity|exact IH].
Qed.

(** A build whose units are all found unchanged and whose artifact is in
    place links nothing, and returns [True] with the fingerprint of the
    artifact as it is. *)
Lemma build_skips_link fuel st cfl lfl data :
  fst (assemble_flags ctr check_output
         (set_tools (getCompiler ctr) (getLinker ctr) st))
  = Ret (Some (cfl, lfl)) ->
  Forall (matched fuel st) (compilable_units ctr) ->
  fs st !! bin_path st = Some (File data) ->
  fs st !! _GetMD5FileName st ≠ Some Dir ->
  exists es st',
    build ctr spin check_output fuel st = (Ret true, st')
    /\ trace st' = trace st ++ es
    /\ Forall quiet es
    /\ fs st' = <[_GetMD5FileName st := File (MD5.hexdigest data)]> (fs st)
    /\ md5key st' = Some (MD5.hexdigest data)
    /\ buildpath st' = buildpath st
    /\ bin_path st' = bin_path st.
Proof.
  intros Hflags Hm Hart Hnd. unfold build, bind, modify.
  set (s0 := set_tools (getCompiler ctr) (getLinker ctr) st) in *.
  destruct (assemble_flags_run ctr check_output s0) as (es0 & Hes & Hq0).
  destruct (assemble_flags ctr check_output s0) as [rf s1] eqn:Hf.
  cbn [fst snd] in Hflags, Hes. subst rf s1.
  unfold build_with_flags, bind.
  destruct (generate_object_files_match ctr spin fuel cfl (add_trace es0 s0) Hm)
    as (es1 & v & Hg & Hq1 & _ & Hr).
  rewrite Hg, add_trace_app.
  cbn [fs bin_path add_trace set_tools s0] in Hr. unfold path_exists in Hr.
  rewrite Hart in Hr. cbn [negb] in Hr.
  rewrite generate_output_file_eq. cbv zeta. rewrite Hr.
  change (0 =? 0)%Z with true. cbv iota.
  cbn [fs bin_path add_trace set_tools s0].
  rewrite (compute_file_md5_file _ _ _ Hart).
  exists ((es0 ++ es1)
          ++ [Write ("Linking :" +:+ nl);
              Write ("   [pass]  " +:+ Str.join " " (obns v) +:+ " -> "
                       +:+ bin st +:+ nl)]).
  assert (Forall quiet
            ((es0 ++ es1)
             ++ [Write ("Linking :" +:+ nl);
                 Write ("   [pass]  " +:+ Str.join " " (obns v) +:+ " -> "
                          +:+ bin st +:+ nl)])) as Hq
    by (apply Forall_app; split; [apply Forall_app; auto|repeat constructor]).
  unfold _GetMD5FileName in *. cbn [buildpath add_trace set_tools s0].
  destruct (fs st !! Posixpath.join (buildpath st) "lastbuildPLC.md5")
    as [[k|]|] eqn:Hfile; [|congruence|];
    (eexists; split; [reflexivity|]; cbn;
     split; [rewrite <- !app_assoc; reflexivity|]; auto 10).
Qed.

(** C6, as the code has it.  Take the artifact and the fingerprint file to
    be at two paths.  After a build that returned [True], whether it linked
    or not, the artifact is a regular file and the digest of its bytes is
    the fingerprint held in memory and the content of [lastbuildPLC.md5]; it
    is what [GetBinaryMD5] returns.  And a build that has nothing to link
    does return [True] with that fingerprint: when the flags are assembled,
    every unit is found unchanged, the artifact is a regular file and no
    directory is in the place of the fingerprint file, the build runs no
    process, returns [True] and records the digest of the artifact as it
    stands. *)
Theorem fingerprint_matches_artifact (fuel : nat) (st : state) :
  _GetMD5FileName st ≠ bin_path st ->
  (forall st',
     build ctr spin check_output fuel st = (Ret true, st') ->
     exists data,
       fs st' !! bin_path st' = Some (File data)
       /\ md5key st' = Some (MD5.hexdigest data)
       /\ fs st' !! _GetMD5FileName st' = Some (File (MD5.hexdigest data))
       /\ GetBinaryMD5 st' = Some (MD5.hexdigest data))
  /\ (forall cfl lfl data,
        fst (assemble_flags ctr check_output
               (set_tools (getCompiler ctr) (getLinker ctr) st))
        = Ret (Some (cfl, lfl)) ->
        Forall (matched fuel st) (compilable_units ctr) ->
        fs st !! bin_path st = Some (File data) ->
        fs st !! _GetMD5FileName st ≠ Some Dir ->
        exists st',
          build ctr spin check_output fuel st = (Ret true, st')
          /\ ran st st' = []
          /\ fs st' !! bin_path st' = Some (File data)
          /\ md5key st' = Some (MD5.hexdigest data)
          /\ fs st' !! _GetMD5FileName st' = Some (File (MD5.hexdigest data))
          /\ GetBinaryMD5 st' = Some (MD5.hexdigest data)).
Proof.
  intros Hne. split.
  - intros st' H.
    apply build_true_inv in H as (cfl & lfl & es & v & s2 & _ & _ & Hg & Hout).
    apply generate_object_files_same_config in Hg as Hc2.
    destruct Hc2 as (Hbp & _ & Hbin & _).
    cbn [buildpath bin_path add_trace set_tools] in Hbp, Hbin.
    apply generate_output_file_true in Hout as (data & Hart & Hkey & Hfile & Hc3).
    + destruct Hc3 as (Hbp3 & _ & Hbin3 & _).
      exists data. unfold GetBinaryMD5, _GetMD5FileName in *.
      rewrite Hbin3, Hbp3, Hkey. auto.
    + unfold _GetMD5FileName in *. rewrite Hbp, Hbin. assumption.
  - intros cfl lfl data Hflags Hm Hart Hnd.
    destruct (build_skips_link fuel st cfl lfl data Hflags Hm Hart Hnd)
      as (es & st' & Hrun & Htr & Hq & Hfs & Hkey & Hbp & Hbin).
    exists st'. split; [assumption|].
    split; [rewrite (ran_app _ _ _ Htr); apply spins_quiet; assumption|].
    unfold GetBinaryMD5, _GetMD5FileName in *. rewrite Hbin, Hbp, Hkey, Hfs.
    split; [rewrite lookup_insert_ne by assumption; assumption|].
    split; [reflexivity|]. split; [apply lookup_insert_eq|reflexivity].
Qed.

End Artifact.

Lemma fingerprint_matches_artifact_witness :
  (exists data,
     fs Toy.built !! bin_path Toy.built = Some (File data)
     /\ md5key Toy.built = Some (MD5.hexdigest data)
     /\ fs Toy.built !! _GetMD5FileName Toy.built = Some (File (MD5.hexdigest data))
     /\ GetBinaryMD5 Toy.built = Some (MD5.hexdigest data))
  /\ (exists st',
        build Toy.ctr Toy.gcc Toy.print_sysroot 8 Toy.built = (Ret true, st')
        /\ ran Toy.built st' = []
        /\ fs st' !! bin_path st' = Some (File "ELF /build/main.o /build/util.o")
        /\ md5key st' = Some (MD5.hexdigest "ELF /build/main.o /build/util.o")
        /\ fs st' !! _GetMD5FileName st'
           = Some (File (MD5.hexdigest "ELF /build/main.o /build/util.o"))
        /\ GetBinaryMD5 st' = Some (MD5.hexdigest "ELF /build/main.o /build/util.o")).
Proof.
  split.
  - apply (proj1 (fingerprint_matches_artifact Toy.ctr Toy.gcc Toy.print_sysroot 8
                    Toy.st ltac:(vm_compute; discriminate))).
    vm_compute. reflexivity.
  - apply (proj2 (fingerprint_matches_artifact Toy.ctr Toy.gcc Toy.print_sysroot 8
                    Toy.built ltac:(vm_compute; discriminate))
             ["-fPIC"] ["-lm"; "-shared"]).
    + vm_compute. reflexivity.
    + change (compilable_units Toy.ctr) with ["main.c"; "util.c"].
      repeat constructor; vm_compute; reflexivity.
    + vm_compute. reflexivity.
    + vm_compute. discriminate.
Defined.

(** C6, as the claim has it, fails when the artifact is at the path of the
    fingerprint file, as for a project named [lastbuildPLC] built by a
    target whose extension is [.md5]: the build links, returns [True], and
    overwrites the artifact with its own fingerprint, so that the
    fingerprint, in memory and as [GetBinaryMD5] returns it, is not the
    digest of the bytes now at the path of the artifact. *)
Lemma fingerprint_written_over_artifact :
  let run := build Toy.ctr_clash Toy.cc Toy.print_sysroot 8 Toy.st_clash in
  fst run = Ret true
  /\ exists data,
       fs (snd run) !! bin_path (snd run) = Some (File data)
       /\ md5key (snd run) <> Some (MD5.hexdigest data)
       /\ GetBinaryMD5 (snd run) <> Some (MD5.hexdigest data).
Proof.
  cbv zeta. split; [vm_compute; reflexivity|].
  exists (MD5.hexdigest "ELF").
  split; [vm_compute; reflexivity|].
  split; vm_compute; discriminate.
Qed.

(** ** A build depends on the processes it runs, and on no other *)

Lemma same_on_restrict (L : list (list string))
    (spin : list string -> gmap string node -> Z * gmap string node) :
  same_on L spin (restrict L spin).
Proof.
  intros argv Hin f. unfold restrict. rewrite bool_decide_eq_true_2 by assumption.
  reflexivity.
Qed.

Lemma same_on_app_l (L1 L2 : list (list string)) spin1 spin2 :
  same_on (L1 ++ L2) spin1 spin2 -> same_on L1 spin1 spin2.
Proof. intros H argv Hin. apply H, elem_of_app. auto. Qed.

Lemma same_on_app_r (L1 L2 : list (list string)) spin1 spin2 :
  same_on (L1 ++ L2) spin1 spin2 -> same_on L2 spin1 spin2.
Proof. intros H argv Hin. apply H, elem_of_app. auto. Qed.

(** A loop whose turns only add to the trace only adds to the trace. *)
Lemma for_each_grows {A} (body : locals -> A -> M state (option locals)) :
  (forall v x s r s', body v x s = (r, s') -> exists new, trace s' = trace s ++ new) ->
  forall l v s r s',
    for_each body l v s = (r, s') -> exists new, trace s' = trace s ++ new.
Proof.
  intros Hbody l v s r s' H.
  apply (for_each_preserves (fun s s' => exists new, trace s' = trace s ++ new))
    in H; [assumption| | |assumption].
  - intros s0. exists []. rewrite app_nil_r. reflexivity.
  - intros s1 s2 s3 [n1 H1] [n2 H2]. exists (n1 ++ n2).
    rewrite H2, H1, app_assoc. reflexivity.
Qed.

Section Simulation.

Variable ctr : CTR.
Variable check_output : list string -> check_output_result.
Variables spin1 spin2 : list string -> gmap string node -> Z * gmap string node.

Lemma build_cfile_sim fuel cfl v f s r s' new :
  build_cfile spin1 fuel cfl v f s = (r, s') ->
  trace s' = trace s ++ new ->
  same_on (spins new) spin1 spin2 ->
  build_cfile spin2 fuel cfl v f s = (r, s').
Proof.
  destruct f as [CFile CFLAGS]. intros H Htr Hsame.
  destruct (Str.endswith ".c" CFile) eqn:Hc.
  - rewrite build_cfile_c in H |- * by assumption. cbv zeta in H |- *.
    destruct (check_and_update_hash_and_deps _ _ _ _ _) as [[[|]|e] c];
      [exact H| |exact H].
    destruct (Shlex.split CFLAGS) as [uf|]; [|exact H].
    assert (exists rest,
              trace s' = trace s ++ Write (cc_line CFile)
                           :: Spin (cc_argv (compiler s) CFile cfl uf) :: rest)
      as [rest Hrest].
    { destruct (spin1 _ (fs s)) as [status fs'].
      destruct (status =? 0)%Z; [|destruct (c !! _)]; injection H as _ <-;
        eexists; cbn; rewrite <- ?app_assoc; reflexivity. }
    rewrite Hrest in Htr. apply app_inv_head in Htr. subst new.
    rewrite <- (Hsame (cc_argv (compiler s) CFile cfl uf)); [exact H|].
    cbn. constructor.
  - rewrite build_cfile_other in H |- * by assumption. exact H.
Qed.

Lemma for_each_sim {A} (body1 body2 : locals -> A -> M state (option locals)) :
  (forall v x s r s', body1 v x s = (r, s') -> exists new, trace s' = trace s ++ new) ->
  (forall v x s r s' new,
     body1 v x s = (r, s') -> trace s' = trace s ++ new ->
     same_on (spins new) spin1 spin2 -> body2 v x s = (r, s')) ->
  forall l v s r s' new,
    for_each body1 l v s = (r, s') -> trace s' = trace s ++ new ->
    same_on (spins new) spin1 spin2 -> for_each body2 l v s = (r, s').
Proof.
  intros Hgrow Hbody. induction l as [|x l IH]; intros v s r s' new H Htr Hsame.
  - exact H.
  - cbn [for_each] in H |- *. unfold bind in H |- *.
    destruct (body1 v x s) as [r1 s1] eqn:Hx.
    destruct (Hgrow _ _ _ _ _ Hx) as [n1 H1].
    destruct r1 as [[v1|]|e].
    + destruct (for_each_grows body1 Hgrow _ _ _ _ _ H) as [n2 H2].
      assert (new = n1 ++ n2) as ->.
      { rewrite H2, H1, <- app_assoc in Htr. apply app_inv_head in Htr.
        symmetry. assumption. }
      rewrite spins_app in Hsame.
      rewrite (Hbody _ _ _ _ _ n1 Hx H1 (same_on_app_l _ _ _ _ Hsame)).
      apply (IH _ _ _ _ n2 H H2 (same_on_app_r _ _ _ _ Hsame)).
    + injection H as <- <-.
      rewrite (Hbody _ _ _ _ _ new Hx Htr Hsame). reflexivity.
    + injection H as <- <-.
      rewrite (Hbody _ _ _ _ _ new Hx Htr Hsame). reflexivity.
Qed.

Lemma build_cfile_grows fuel cfl v f s r s' :
  build_cfile spin1 fuel cfl v f s = (r, s') -> exists new, trace s' = trace s ++ new.
Proof.
  intros H. apply build_cfile_runs_only in H as [(_ & _ & new & Hnew & _) _]. eauto.
Qed.

Lemma build_location_grows fuel cfl v loc s r s' :
  build_location spin1 fuel cfl v loc s = (r, s') ->
  exists new, trace s' = trace s ++ new.
Proof.
  intros H. apply build_location_runs_only in H as [(_ & _ & new & Hnew & _) _]. eauto.
Qed.

Lemma build_location_sim fuel cfl v loc s r s' new :
  build_location spin1 fuel cfl v loc s = (r, s') ->
  trace s' = trace s ++ new ->
  same_on (spins new) spin1 spin2 ->
  build_location spin2 fuel cfl v loc s = (r, s').
Proof.
  rewrite !build_location_eq. intros H Htr Hsame.
  destruct (for_each_grows _ (build_cfile_grows fuel cfl) _ _ _ _ _ H) as [n2 H2].
  cbn [trace add_trace] in H2.
  assert (new = location_header loc ++ n2) as ->.
  { rewrite H2, <- app_assoc in Htr. apply app_inv_head in Htr. symmetry. assumption. }
  rewrite spins_app in Hsame.
  apply (for_each_sim (build_cfile spin1 fuel cfl) (build_cfile spin2 fuel cfl)
           (build_cfile_grows fuel cfl) (build_cfile_sim fuel cfl)
           _ _ _ _ _ n2 H).
  - exact H2.
  - eapply same_on_app_r. eassumption.
Qed.

Lemma generate_object_files_sim fuel cfl s r s' new :
  generate_object_files ctr spin1 fuel cfl s = (r, s') ->
  trace s' = trace s ++ new ->
  same_on (spins new) spin1 spin2 ->
  generate_object_files ctr spin2 fuel cfl s = (r, s').
Proof.
  rewrite !generate_object_files_eq.
  apply (for_each_sim (build_location spin1 fuel cfl) (build_location spin2 fuel cfl)
           (build_location_grows fuel cfl) (build_location_sim fuel cfl)).
Qed.

Lemma generate_output_file_sim lfl v s r s' new :
  generate_output_file spin1 lfl v s = (r, s') ->
  trace s' = trace s ++ new ->
  same_on (spins new) spin1 spin2 ->
  generate_output_file spin2 lfl v s = (r, s').
Proof.
  intros H Htr Hsame.
  pose proof (generate_output_file_trace spin1 lfl v s r s' H) as Hev.
  rewrite Hev in Htr. apply app_inv_head in Htr. subst new.
  rewrite generate_output_file_eq in H |- *. cbv zeta in H |- *.
  unfold link_events in Hsame.
  destruct (relink v); [|exact H].
  rewrite <- (Hsame (link_argv (linker s) (objs v) (bin_path s) lfl)); [exact H|].
  cbn. constructor.
Qed.

(** A build is the same build under any behaviour of the processes that
    agrees with the actual one on the command lines it ran. *)
Lemma build_sim fuel st r st' :
  build ctr spin1 check_output fuel st = (r, st') ->
  same_on (ran st st') spin1 spin2 ->
  build ctr spin2 check_output fuel st = (r, st').
Proof.
  unfold build, bind, modify. intros H Hsame.
  set (s0 := set_tools (getCompiler ctr) (getLinker ctr) st) in *.
  destruct (assemble_flags_run ctr check_output s0) as (es & Hes & Hq).
  destruct (assemble_flags ctr check_output s0) as [rf s1] eqn:Hf.
  cbn [snd] in Hes. subst s1.
  destruct rf as [[[cfl lfl]|]|e]; [|exact H|exact H].
  unfold build_with_flags, bind in H |- *.
  destruct (generate_object_files ctr spin1 fuel cfl (add_trace es s0))
    as [rv s2] eqn:Hg.
  destruct (for_each_grows _ (build_location_grows fuel cfl) _ _ _ _ _ Hg) as [n1 H1].
  cbn [trace add_trace set_tools s0] in H1.
  destruct rv as [[v|]|e].
  - pose proof (generate_output_file_trace spin1 lfl v s2 r st' H) as H2.
    rewrite (ran_app st st' ((es ++ n1) ++ link_events s2 v lfl)) in Hsame
      by (rewrite H2, H1, <- !app_assoc; reflexivity).
    rewrite !spins_app in Hsame.
    rewrite (generate_object_files_sim fuel cfl _ _ _ n1 Hg).
    + apply (generate_output_file_sim lfl v s2 r st' _ H H2).
      eapply same_on_app_r. eassumption.
    + exact H1.
    + eapply same_on_app_r, same_on_app_l. eassumption.
  - injection H as <- <-.
    rewrite (ran_app st s2 (es ++ n1)) in Hsame
      by (rewrite H1, <- !app_assoc; reflexivity).
    rewrite spins_app in Hsame.
    rewrite (generate_object_files_sim fuel cfl _ _ _ n1 Hg); [reflexivity| |].
    + exact H1.
    + eapply same_on_app_r. eassumption.
  - injection H as <- <-.
    rewrite (ran_app st s2 (es ++ n1)) in Hsame
      by (rewrite H1, <- !app_assoc; reflexivity).
    rewrite spins_app in Hsame.
    rewrite (generate_object_files_sim fuel cfl _ _ _ n1 Hg); [reflexivity| |].
    + exact H1.
    + eapply same_on_app_r. eassumption.
Qed.

End Simulation.

(** ** The sysroot placeholder *)

Lemma startswith_app (p t : string) : Str.startswith p (p +:+ t) = true.
Proof.
  induction p as [|c p IH]; [reflexivity|].
  rewrite app_cons. cbn [Str.startswith]. rewrite Ascii.eqb_refl. exact IH.
Qed.

Lemma replace_from_skip (old new u t : string) :
  Str.replace_from old new (String.length u) (u +:+ t) = Str.replace_from old new O t.
Proof.
  induction u as [|c u IH]; [reflexivity|].
  rewrite app_cons. cbn [String.length Str.replace_from]. exact IH.
Qed.

Lemma replace_from_pass (c0 : ascii) (old' new p t : string) :
  Str.has_char c0 p = false ->
  Str.replace_from (String c0 old') new O (p +:+ t)
  = p +:+ Str.replace_from (String c0 old') new O t.
Proof.
  induction p as [|c p IH]; intros H; [reflexivity|].
  cbn [Str.has_char] in H. apply orb_false_iff in H as [Hc Hp].
  rewrite !app_cons. cbn [Str.replace_from Str.startswith].
  rewrite Ascii.eqb_sym, Hc. cbn [andb]. rewrite (IH Hp). reflexivity.
Qed.

Lemma replace_from_hit (c0 : ascii) (old' new t : string) :
  Str.replace_from (String c0 old') new O (String c0 old' +:+ t)
  = new +:+ Str.replace_from (String c0 old') new O t.
Proof.
  rewrite app_cons. cbn [Str.replace_from].
  change (String c0 (old' +:+ t)) with (String c0 old' +:+ t).
  rewrite startswith_app. cbn [String.length Nat.pred].
  rewrite replace_from_skip. reflexivity.
Qed.

(** [replace] turns every occurrence of [old] into [new]: in a text made of
    pieces separated by [old], where no piece holds the first character of
    [old] (so that the separators are all the occurrences), the separators
    become [new]. *)
Lemma replace_join (c0 : ascii) (old' new : string) (pieces : list string) :
  Forall (fun p => Str.has_char c0 p = false) pieces ->
  Str.replace (String c0 old') new (Str.join (String c0 old') pieces)
  = Str.join new pieces.
Proof.
  unfold Str.replace. induction pieces as [|p pieces IH]; intros H; [reflexivity|].
  inversion H as [|? ? Hp Hrest]; subst. destruct pieces as [|q pieces].
  - cbn [Str.join]. rewrite <- (app_empty_r p) at 1.
    rewrite replace_from_pass by assumption. cbn [Str.replace_from].
    apply app_empty_r.
  - change (Str.join (String c0 old') (p :: q :: pieces))
      with (p +:+ String c0 old' +:+ Str.join (String c0 old') (q :: pieces)).
    change (Str.join new (p :: q :: pieces))
      with (p +:+ new +:+ Str.join new (q :: pieces)).
    rewrite replace_from_pass by assumption.
    rewrite replace_from_hit, (IH Hrest). reflexivity.
Qed.

Section Sysroot.

Variable ctr : CTR.
Variable spin : list string -> gmap string node -> Z * gmap string node.
Variable check_output : list string -> check_output_result.

(** What [build] does with the placeholder.  When it occurs in the assembled
    compiler flags or linker flags, [build] runs the fixed command
    [arm-unknown-linux-gnueabihf-gcc -print-sysroot], whatever the configured
    compiler is.  If that fails, by a non-zero exit or for want of the
    executable, [build] logs the failure and returns [False] having run no
    other process and left files and cache alone.  Otherwise the build goes
    on with the two flag lists in which [replace] has put the decoded and
    stripped output for the placeholder, in each flag of each list; and
    [replace] changes every occurrence. *)
Lemma sysroot_placeholder_resolution
    (fuel : nat) (st : state) (cfl lfl : list string) :
  let st0 := set_tools (getCompiler ctr) (getLinker ctr) st in
  Shlex.split (cflags_str ctr st) = Some cfl ->
  Shlex.split (ldflags_str ctr st) = Some lfl ->
  Str.contains pattern (cflags_str ctr st)
  || Str.contains pattern (ldflags_str ctr st) = true ->
  match check_output sysroot_query with
  | Output sysrootb =>
      Utf8.valid sysrootb = true ->
      build ctr spin check_output fuel st =
      build_with_flags ctr spin fuel
        (map (Str.replace pattern (Str.strip sysrootb)) cfl)
        (map (Str.replace pattern (Str.strip sysrootb)) lfl)
        (add_trace [CheckOutput sysroot_query] st0)
  | CalledProcessError =>
      build ctr spin check_output fuel st =
      (Ret false,
       add_trace [CheckOutput sysroot_query;
                  Write ("GCC failed with -print-sysroot" +:+ nl)] st0)
  | ExecutableNotFound =>
      build ctr spin check_output fuel st =
      (Ret false,
       add_trace [CheckOutput sysroot_query; Write ("GCC not found" +:+ nl)] st0)
  end
  /\ forall new pieces,
       Forall (fun p => Str.has_char "{" p = false) pieces ->
       Str.replace pattern new (Str.join pattern pieces) = Str.join new pieces.
Proof.
  intros st0 Hc Hl Hpat. split; [|intros new pieces; apply replace_join].
  assert (assemble_flags ctr check_output st0
          = resolve_sysroot check_output (cflags_str ctr st) (ldflags_str ctr st)
              cfl lfl st0) as Hflags.
  { rewrite assemble_flags_eq.
    change (cflags_str ctr st0) with (cflags_str ctr st).
    change (ldflags_str ctr st0) with (ldflags_str ctr st).
    rewrite Hc, Hl. reflexivity. }
  rewrite resolve_sysroot_eq, Hpat in Hflags.
  unfold build, bind, modify. fold st0.
  destruct (check_output sysroot_query) as [b| |].
  - intros Hv. rewrite Hv in Hflags. rewrite Hflags. reflexivity.
  - rewrite Hflags. reflexivity.
  - rewrite Hflags. reflexivity.
Qed.

End Sysroot.

Lemma sysroot_placeholder_resolution_witness :
  build Toy.ctr_sysroot Toy.gcc Toy.print_sysroot 8 Toy.st =
  build_with_flags Toy.ctr_sysroot Toy.gcc 8
    ["-fPIC"; "-I/opt/sysroot/usr/include"] ["-lm"; "-shared"; "-L/opt/sysroot/usr/lib"]
    (add_trace [CheckOutput sysroot_query]
       (set_tools (getCompiler Toy.ctr_sysroot) (getLinker Toy.ctr_sysroot) Toy.st)).
Proof.
  apply (proj1 (sysroot_placeholder_resolution Toy.ctr_sysroot Toy.gcc
                  Toy.print_sysroot 8 Toy.st
                  ["-fPIC"; "-I{SYSROOT}/usr/include"]
                  ["-lm"; "-shared"; "-L{SYSROOT}/usr/lib"]
                  ltac:(vm_compute; reflexivity) ltac:(vm_compute; reflexivity)
                  ltac:(vm_compute; reflexivity))).
  vm_compute. reflexivity.
Defined.

(** C2 (the code departs from the claim).  The configured compiler is
    [gcc]; it compiles and links the project, and it is installed.  The
    flags of the target hold the placeholder.  The one query of the build is
    addressed to [arm-unknown-linux-gnueabihf-gcc], which is not installed:
    the build logs that GCC was not found and returns [False], having
    compiled nothing.  Had the query gone to the configured compiler, it
    would have been answered. *)
Theorem sysroot_query_ignores_configured_compiler :
  let run := build Toy.ctr_sysroot Toy.gcc Toy.only_gcc 8 Toy.st in
  Str.contains pattern (cflags_str Toy.ctr_sysroot Toy.st) = true
  /\ getCompiler Toy.ctr_sysroot = "gcc"
  /\ Toy.only_gcc [getCompiler Toy.ctr_sysroot; "-print-sysroot"]
     = Output ("/opt/sysroot" +:+ nl)
  /\ queries (trace (snd run)) = [["arm-unknown-linux-gnueabihf-gcc"; "-print-sysroot"]]
  /\ fst run = Ret false
  /\ trace (snd run)
     = [CheckOutput ["arm-unknown-linux-gnueabihf-gcc"; "-print-sysroot"];
        Write ("GCC not found" +:+ nl)]
  /\ queries (trace (snd (build Toy.ctr_sysroot Toy.gcc Toy.print_sysroot 8 Toy.st)))
     = [["arm-unknown-linux-gnueabihf-gcc"; "-print-sysroot"]].
Proof. cbv zeta. repeat split; vm_compute; reflexivity. Qed.

(** ** What a successful build leaves behind *)

Lemma elem_of_known_names (c : gmap string (string * list string)) (k : string) :
  k ∈ known_names c <->
  exists k' h deps, c !! k' = Some (h, deps) /\ (k = k' \/ k ∈ deps).
Proof.
  unfold known_names. rewrite list_elem_of_In, in_flat_map. split.
  - intros ([k' [h deps]] & Hin & Hk). apply list_elem_of_In in Hin.
    apply elem_of_map_to_list in Hin. cbn [fst snd] in Hk.
    exists k', h, deps. split; [assumption|].
    destruct Hk as [<-|Hk]; [left; reflexivity|right; apply list_elem_of_In; assumption].
  - intros (k' & h & deps & Hc & Hk). exists (k', (h, deps)). split.
    + apply list_elem_of_In. apply elem_of_map_to_list. assumption.
    + cbn [fst snd]. destruct Hk as [->|Hk]; [left; reflexivity|].
      right. apply list_elem_of_In. assumption.
Qed.

Section Examined.

Variable bp : string.

Lemma cache_step_refreshed fs c c' : cache_step bp fs c c' -> refreshed bp fs c c'.
Proof.
  intros H k. destruct (H k) as [E|(data & Hf & Hn & Hw)]; [left; assumption|].
  right. eauto.
Qed.

(** An entry that holds the digest of its file is not written again. *)
Lemma refreshed_current fs c c' k data deps :
  refreshed bp fs c c' ->
  fs !! Posixpath.join bp k = Some (File data) ->
  c !! k = Some (MD5.hexdigest data, deps) ->
  c' !! k = Some (MD5.hexdigest data, deps).
Proof.
  intros H Hf Hc. destruct (H k) as [E|(d & e & Hf' & Hn & _)]; [congruence|].
  exfalso. apply Hn. rewrite Hc. simpl. congruence.
Qed.

(** [examined] survives later calls on the same files. *)
Lemma examined_refreshed fs c c' n : forall bn,
  refreshed bp fs c c' -> examined n bp fs c bn -> examined n bp fs c' bn.
Proof.
  induction n as [|n IH]; intros bn Hr H; [contradiction|].
  cbn [examined] in *. destruct H as [Hmiss|(data & deps & Hf & Hc & Hdeps)].
  - left. assumption.
  - right. exists data, deps. split; [assumption|].
    split; [eapply refreshed_current; eassumption|].
    eapply Forall_impl; [eassumption|]. intros d Hd. apply IH; assumption.
Qed.

(** After a call that returned, what it went through has been examined. *)
Lemma check_examined fs fuel : forall bn c b c',
  check_and_update_hash_and_deps bp fs fuel bn c = (Ret b, c') ->
  examined fuel bp fs c' bn.
Proof.
  induction fuel as [|fuel IH]; intros bn c b c' H.
  - rewrite check_out_of_stack in H. discriminate.
  - assert (forall deps c0 rs c0',
              mapM (check_and_update_hash_and_deps bp fs fuel) deps c0 = (Ret rs, c0') ->
              Forall (examined fuel bp fs c0') deps) as Hmap.
    { induction deps as [|d deps IHd]; intros c0 rs c0' Hm; [constructor|].
      apply mapM_cons_inv in Hm as (r1 & c1 & H1 & Hrest).
      destruct r1 as [y|e]; [|destruct Hrest; discriminate].
      destruct Hrest as ([ys|e] & H2 & Hr); [|discriminate].
      constructor; [|eauto].
      eapply examined_refreshed; [|eapply IH; eassumption].
      apply cache_step_refreshed. eapply mapM_check_cache_step. eassumption. }
    cbn [examined].
    destruct (check_cases bp fs fuel bn c)
      as [[Hf E]|[[_ E]|[(data & deps & Hf & Hc & E)|(data & Hf & Hn & E)]]];
      rewrite E in H.
    + left. assumption.
    + discriminate.
    + apply check_deps_inv in H as ([rs|e] & Hm & Hr); [|discriminate].
      right. exists data, deps. split; [assumption|]. split; [|eauto].
      eapply refreshed_current; [|eassumption..].
      apply cache_step_refreshed. eapply mapM_check_cache_step. eassumption.
    + apply check_deps_inv in H as ([rs|e] & Hm & Hr); [|discriminate].
      right. exists data, (append_cfile_deps bp fs (Posixpath.join bp bn) []).
      split; [assumption|]. split; [|eauto].
      eapply refreshed_current; [|eassumption|apply lookup_insert_eq].
      apply cache_step_refreshed. eapply mapM_check_cache_step. eassumption.
Qed.

(** What is up to date is found unchanged, and the cache stays as it is. *)
Lemma up_to_date_check fs c n : forall bn,
  up_to_date n bp fs c bn ->
  check_and_update_hash_and_deps bp fs n bn c = (Ret true, c).
Proof.
  induction n as [|n IH]; intros bn H; [contradiction|].
  cbn [up_to_date] in H. destruct H as (data & deps & Hf & Hc & Hdeps).
  rewrite (check_match _ _ _ _ _ _ _ Hf Hc). unfold check_deps, bind, ret.
  assert (mapM (check_and_update_hash_and_deps bp fs n) deps c
          = (Ret (map (fun _ => true) deps), c)) as ->.
  { clear Hc. induction Hdeps as [|d deps Hd _ IHd]; [reflexivity|].
    cbn [mapM map]. unfold bind, ret. rewrite (IH d Hd), IHd. reflexivity. }
  f_equal. f_equal. clear. induction deps as [|d deps IHd]; [reflexivity|exact IHd].
Qed.

End Examined.

Section FirstRun.

Variable spin : list string -> gmap string node -> Z * gmap string node.
Variable fuel : nat.
Variable names : list string.

Lemma agree_refl bp f : agree bp names f f.
Proof. intros k _. reflexivity. Qed.

Lemma agree_trans bp f1 f2 f3 :
  agree bp names f1 f2 -> agree bp names f2 f3 -> agree bp names f1 f3.
Proof. intros H12 H23 k Hk. rewrite (H23 k Hk). apply H12. assumption. Qed.

Lemma keeps_current_refl bp f c : keeps_current bp names f c c.
Proof. intros k data deps _ _ Hc. assumption. Qed.

Lemma keeps_current_trans bp f c1 c2 c3 :
  keeps_current bp names f c1 c2 -> keeps_current bp names f c2 c3 ->
  keeps_current bp names f c1 c3.
Proof. intros H12 H23 k data deps Hk Hf Hc. eauto. Qed.

(** A call on files that agree with [fsF] at the places of [names] keeps
    the entries that are current there. *)
Lemma refreshed_keeps_current bp f fsF c c1 :
  refreshed bp f c c1 ->
  agree bp names f fsF ->
  keeps_current bp names fsF c c1.
Proof.
  intros Hr Hag k data deps Hk Hf Hc.
  destruct (Hr k) as [E|(data' & deps' & Hf' & Hn & _)]; [congruence|].
  exfalso. apply Hn. rewrite (Hag k Hk) in Hf. rewrite Hc. simpl. congruence.
Qed.

Lemma examined_transport bp f fsF c cF n : forall x,
  examined n bp f c x ->
  x ∈ names ->
  agree bp names f fsF ->
  keeps_current bp names fsF c cF ->
  closed_under_deps cF names ->
  examined n bp fsF cF x.
Proof.
  induction n as [|n IH]; intros x H Hx Hag Hr Hcl; [contradiction|].
  cbn [examined] in *. rewrite (Hag x Hx).
  destruct H as [Hmiss|(data & deps & Hf & Hc & Hdeps)]; [left; assumption|].
  right. exists data, deps. split; [assumption|].
  assert (cF !! x = Some (MD5.hexdigest data, deps)) as HcF.
  { apply (Hr x data deps Hx); [|assumption]. rewrite (Hag x Hx). assumption. }
  split; [assumption|].
  apply Forall_forall. intros d Hd. apply IH; try assumption.
  - eapply Forall_forall in Hdeps; eassumption.
  - eapply Hcl; eassumption.
Qed.

Lemma leaves_examined_refl s : leaves_examined fuel names [] s s.
Proof. split; [reflexivity|]. intros fsF cF Hag Hr _. auto. Qed.

Lemma leaves_examined_trace es s : leaves_examined fuel names [] s (add_trace es s).
Proof. split; [reflexivity|]. intros fsF cF Hag Hr _. auto. Qed.

Lemma leaves_examined_trans u1 u2 s sa sb :
  leaves_examined fuel names u1 s sa ->
  leaves_examined fuel names u2 sa sb ->
  leaves_examined fuel names (u1 ++ u2) s sb.
Proof.
  intros [Hbp1 H1] [Hbp2 H2]. split; [congruence|].
  intros fsF cF Hag Hr Hkn. rewrite Hbp1 in H2.
  destruct (H2 fsF cF Hag Hr Hkn) as (Hag2 & Hr2 & Hu2).
  destruct (H1 fsF cF Hag2 Hr2 Hkn) as (Hag1 & Hr1 & Hu1).
  split; [assumption|]. split; [assumption|]. apply Forall_app. auto.
Qed.

(** A call that returned, followed by steps that keep the places of
    [names]. *)
Lemma leaves_examined_check s sa bn b c :
  check_and_update_hash_and_deps (buildpath s) (fs s) fuel bn (srcmd5 s) = (Ret b, c) ->
  bn ∈ names ->
  buildpath sa = buildpath s ->
  srcmd5 sa = c ->
  agree (buildpath s) names (fs s) (fs sa) ->
  leaves_examined fuel names [bn] s sa.
Proof.
  intros Hchk Hbn Hbp Hsrc Hfs. split; [assumption|].
  intros fsF cF Hag Hr Hcl. rewrite Hsrc in Hr.
  assert (agree (buildpath s) names (fs s) fsF) as Hag'
    by (eapply agree_trans; eassumption).
  assert (keeps_current (buildpath s) names fsF (srcmd5 s) c) as Hr'.
  { eapply refreshed_keeps_current; [|eassumption].
    apply cache_step_refreshed. eapply check_cache_step. eassumption. }
  split; [assumption|]. split; [eapply keeps_current_trans; eassumption|].
  constructor; [|constructor].
  eapply examined_transport; try eassumption.
  eapply check_examined. eassumption.
Qed.

Variable bp0 : string.
Hypothesis spin_keeps : untouched_by spin bp0 names.

Lemma leaves_examined_cfile cfl v f s v' sa :
  buildpath s = bp0 ->
  build_cfile spin fuel cfl v f s = (Ret (Some v'), sa) ->
  (forall u, u ∈ unit_of f -> u ∈ names) ->
  leaves_examined fuel names (unit_of f) s sa.
Proof.
  destruct f as [CFile CFLAGS]. unfold unit_of. cbn [fst]. intros Hbp H Hin.
  destruct (Str.endswith ".c" CFile) eqn:Hc.
  - rewrite build_cfile_c in H by assumption. cbv zeta in H.
    assert (Posixpath.basename CFile ∈ names) as Hbn
      by (apply Hin; constructor).
    destruct (check_and_update_hash_and_deps _ _ _ _ _) as [[[|]|e] c] eqn:Hchk;
      [| |discriminate].
    + injection H as _ <-.
      eapply leaves_examined_check; try eassumption; try reflexivity.
      apply agree_refl.
    + destruct (Shlex.split CFLAGS) as [uf|]; [|discriminate].
      destruct (spin _ (fs s)) as [status fs'] eqn:Hs.
      destruct (status =? 0)%Z; [|destruct (c !! _); discriminate].
      injection H as _ <-.
      eapply leaves_examined_check; try eassumption; try reflexivity.
      cbn [fs set_fs].
      pose proof (spin_keeps (cc_argv (compiler s) CFile cfl uf) (fs s)) as Hk.
      rewrite Hs, <- Hbp in Hk. exact Hk.
  - rewrite build_cfile_other in H by assumption. injection H as _ <-.
    apply leaves_examined_refl.
Qed.

Lemma leaves_examined_for_each {A} (body : locals -> A -> M state (option locals))
    (units_of : A -> list string) :
  (forall v x s v' sa,
     buildpath s = bp0 ->
     body v x s = (Ret (Some v'), sa) ->
     (forall u, u ∈ units_of x -> u ∈ names) ->
     leaves_examined fuel names (units_of x) s sa) ->
  forall l v s v' sa,
    buildpath s = bp0 ->
    for_each body l v s = (Ret (Some v'), sa) ->
    (forall u, u ∈ flat_map units_of l -> u ∈ names) ->
    leaves_examined fuel names (flat_map units_of l) s sa.
Proof.
  intros Hbody. induction l as [|x l IH]; intros v s v' sa Hbp H Hin.
  - injection H as _ <-. apply leaves_examined_refl.
  - cbn [for_each] in H. unfold bind in H.
    destruct (body v x s) as [[[v1|]|e] s1] eqn:Hx; try discriminate.
    assert (leaves_examined fuel names (units_of x) s s1) as H1.
    { eapply Hbody; [eassumption..|]. intros u Hu. apply Hin.
      cbn [flat_map]. apply elem_of_app. auto. }
    cbn [flat_map]. eapply leaves_examined_trans; [exact H1|].
    eapply IH; [|eassumption|].
    + destruct H1 as [-> _]. assumption.
    + intros u Hu. apply Hin. cbn [flat_map]. apply elem_of_app. auto.
Qed.

Lemma leaves_examined_location cfl v loc s v' sa :
  buildpath s = bp0 ->
  build_location spin fuel cfl v loc s = (Ret (Some v'), sa) ->
  (forall u, u ∈ flat_map unit_of (snd (fst loc)) -> u ∈ names) ->
  leaves_examined fuel names (flat_map unit_of (snd (fst loc))) s sa.
Proof.
  rewrite build_location_eq. intros Hbp H Hin.
  change (flat_map unit_of (snd (fst loc)))
    with ([] ++ flat_map unit_of (snd (fst loc))).
  eapply leaves_examined_trans; [apply leaves_examined_trace|].
  eapply leaves_examined_for_each; [|exact Hbp|eassumption|assumption].
  intros. eapply leaves_examined_cfile; eassumption.
Qed.

Lemma leaves_examined_objects ctr cfl s v' sa :
  buildpath s = bp0 ->
  generate_object_files ctr spin fuel cfl s = (Ret (Some v'), sa) ->
  (forall u, u ∈ compilable_units ctr -> u ∈ names) ->
  leaves_examined fuel names (compilable_units ctr) s sa.
Proof.
  rewrite generate_object_files_eq. intros Hbp H Hin.
  eapply (leaves_examined_for_each _
            (fun loc : list Z * list (string * string) * bool =>
               flat_map unit_of (snd (fst loc)))); [|exact Hbp|eassumption|assumption].
  intros. eapply leaves_examined_location; eassumption.
Qed.

End FirstRun.

Lemma examined_up_to_date bp fsF cF (names : list string) n : forall x,
  examined n bp fsF cF x ->
  x ∈ names ->
  (forall k, k ∈ names -> path_exists fsF (Posixpath.join bp k) = true) ->
  closed_under_deps cF names ->
  up_to_date n bp fsF cF x.
Proof.
  induction n as [|n IH]; intros x H Hx Hpres Hkn; [contradiction|].
  cbn [examined up_to_date] in *.
  destruct H as [Hmiss|(data & deps & Hf & Hc & Hdeps)].
  - specialize (Hpres x Hx). unfold path_exists in Hpres. rewrite Hmiss in Hpres.
    discriminate.
  - exists data, deps. split; [assumption|]. split; [assumption|].
    apply Forall_forall. intros d Hd. apply IH; try assumption.
    + eapply Forall_forall in Hdeps; eassumption.
    + eapply Hkn; eassumption.
Qed.

Lemma state_ext (s s' : state) :
  buildpath s = buildpath s' -> bin s = bin s' -> bin_path s = bin_path s' ->
  md5key s = md5key s' -> srcmd5 s = srcmd5 s' -> compiler s = compiler s' ->
  linker s = linker s' -> fs s = fs s' -> environ s = environ s' ->
  trace s = trace s' -> s = s'.
Proof. destruct s, s'. cbn. intros. subst. reflexivity. Qed.

Section SecondRun.

Variable ctr : CTR.
Variable spin : list string -> gmap string node -> Z * gmap string node.
Variable check_output : list string -> check_output_result.

(** The link step of a build that succeeded keeps the cache, and keeps the
    places of [names] when the linker does and the fingerprint file is none
    of them. *)
Lemma generate_output_file_keeps (names : list string) lfl v s s' :
  generate_output_file spin lfl v s = (Ret true, s') ->
  untouched_by spin (buildpath s) names ->
  (forall k, k ∈ names -> Posixpath.join (buildpath s) k ≠ _GetMD5FileName s) ->
  srcmd5 s' = srcmd5 s /\ agree (buildpath s) names (fs s) (fs s').
Proof.
  rewrite generate_output_file_eq. cbv zeta. intros H Hframe Hmd5.
  destruct (if relink v then _ else _) as [status s2] eqn:Hlink.
  assert (srcmd5 s2 = srcmd5 s /\ agree (buildpath s) names (fs s) (fs s2))
    as [Hsrc Hag].
  { destruct (relink v); injection Hlink as <- <-.
    - split; [reflexivity|]. cbn [fs set_fs]. apply Hframe.
    - split; [reflexivity|]. apply agree_refl. }
  destruct (status =? 0)%Z; [|discriminate].
  destruct (compute_file_md5 (fs s2) (bin_path s)) as [k|e]; [|discriminate].
  assert (s' = set_fs (<[_GetMD5FileName s := File k]> (fs s2))
                 (set_md5key (Some k) s2)) as ->
    by (destruct (fs s2 !! _GetMD5FileName s) as [[|]|]; congruence).
  split; [assumption|]. cbn [fs set_fs].
  intros x Hx. rewrite lookup_insert_ne by (apply not_eq_sym, Hmd5, Hx).
  apply Hag. assumption.
Qed.

Lemma set_tools_same (s : state) : set_tools (compiler s) (linker s) s = s.
Proof. destruct s. reflexivity. Qed.

(** The second of two builds, when its units are up to date and the
    artifact and its fingerprint are in place. *)
Lemma build_idle fuel s cfl lfl data :
  compiler s = getCompiler ctr ->
  linker s = getLinker ctr ->
  fst (assemble_flags ctr check_output s) = Ret (Some (cfl, lfl)) ->
  Forall (matched fuel s) (compilable_units ctr) ->
  fs s !! bin_path s = Some (File data) ->
  md5key s = Some (MD5.hexdigest data) ->
  fs s !! _GetMD5FileName s = Some (File (MD5.hexdigest data)) ->
  exists es,
    build ctr spin check_output fuel s = (Ret true, add_trace es s)
    /\ Forall quiet es.
Proof.
  intros Hcc Hld Hflags Hm Hart Hkey Hfile.
  unfold build, bind, modify. rewrite <- Hcc, <- Hld, set_tools_same.
  destruct (assemble_flags_run ctr check_output s) as (es0 & Hes & Hq0).
  destruct (assemble_flags ctr check_output s) as [rf s1].
  cbn [fst snd] in Hflags, Hes. subst rf s1.
  unfold build_with_flags, bind.
  destruct (generate_object_files_match ctr spin fuel cfl (add_trace es0 s) Hm)
    as (es1 & v & Hg & Hq1 & _ & Hr).
  rewrite Hg, add_trace_app.
  cbn [fs bin_path add_trace] in Hr. unfold path_exists in Hr. rewrite Hart in Hr.
  cbn [negb] in Hr.
  rewrite generate_output_file_eq. cbv zeta. rewrite Hr.
  change (0 =? 0)%Z with true. cbv iota.
  cbn [fs bin_path add_trace]. rewrite (compute_file_md5_file _ _ _ Hart).
  unfold _GetMD5FileName in *. cbn [buildpath add_trace]. rewrite Hfile.
  exists ((es0 ++ es1)
          ++ [Write ("Linking :" +:+ nl);
              Write ("   [pass]  " +:+ Str.join " " (obns v) +:+ " -> "
                       +:+ bin s +:+ nl)]).
  split.
  - f_equal. apply state_ext; cbn; try reflexivity.
    + symmetry. assumption.
    + apply insert_id. assumption.
    + rewrite <- !app_assoc. reflexivity.
  - apply Forall_app. split; [apply Forall_app; auto|repeat constructor].
Qed.

End SecondRun.

(** ** Two builds in a row *)

Section Idempotence.

Variable ctr : CTR.
Variable spin : list string -> gmap string node -> Z * gmap string node.
Variable check_output : list string -> check_output_result.

(** Two builds in a row, when no process at all touches the places of
    [names]. *)
Lemma second_build_idle (fuel : nat) (st st1 : state) (names : list string) :
  let bp := buildpath st in
  build ctr spin check_output fuel st = (Ret true, st1) ->
  (forall u, u ∈ compilable_units ctr -> u ∈ names) ->
  closed_under_deps (srcmd5 st1) names ->
  Forall (fun k => path_exists (fs st1) (Posixpath.join bp k) = true) names ->
  untouched_by spin bp names ->
  Forall (fun k => Posixpath.join bp k ≠ _GetMD5FileName st) names ->
  _GetMD5FileName st ≠ bin_path st ->
  exists es,
    build ctr spin check_output fuel st1 = (Ret true, add_trace es st1)
    /\ Forall quiet es.
Proof.
  intros bp H Hun Hcl Hpres Hframe Hmd5 Hne.
  apply build_true_inv in H as (cfl & lfl & es0 & v & s2 & Hflags & _ & Hg & Hout).
  set (s1 := add_trace es0 (set_tools (getCompiler ctr) (getLinker ctr) st)) in *.
  rewrite Forall_forall in Hmd5, Hpres.
  (* the first build *)
  pose proof (generate_object_files_same_config _ _ _ _ _ _ _ Hg) as Hc2.
  destruct Hc2 as (Hbp2 & Hbin2 & Hbpath2 & Henv2 & Hcc2 & Hld2).
  cbn [buildpath bin bin_path environ compiler linker add_trace set_tools s1]
    in Hbp2, Hbin2, Hbpath2, Henv2, Hcc2, Hld2.
  pose proof (leaves_examined_objects spin fuel names bp Hframe ctr cfl s1 v s2
                eq_refl Hg Hun) as [_ Hrun].
  destruct (generate_output_file_keeps spin names lfl v s2 st1 Hout) as [Hsrc Hag].
  { rewrite Hbp2. exact Hframe. }
  { intros k Hk. unfold _GetMD5FileName. rewrite Hbp2. apply Hmd5. assumption. }
  rewrite Hbp2 in Hag.
  apply generate_output_file_true in Hout as (data & Hart & Hkey & Hfile & Hc3);
    [|unfold _GetMD5FileName; rewrite Hbp2, Hbpath2; exact Hne].
  destruct Hc3 as (Hbp3 & Hbin3 & Hbpath3 & Henv3 & Hcc3 & Hld3).
  destruct (Hrun (fs st1) (srcmd5 st1)) as (_ & _ & Hex).
  { exact Hag. }
  { rewrite Hsrc. apply keeps_current_refl. }
  { exact Hcl. }
  (* the second build *)
  apply (build_idle ctr spin check_output fuel st1 cfl lfl data).
  - congruence.
  - congruence.
  - rewrite (assemble_flags_value ctr check_output
               (set_tools (getCompiler ctr) (getLinker ctr) st) st1)
      by (cbn [environ set_tools]; congruence).
    rewrite Hflags. reflexivity.
  - apply Forall_forall. intros u Hu. unfold matched.
    rewrite (up_to_date_check (buildpath st1) (fs st1) (srcmd5 st1) fuel u);
      [reflexivity|].
    rewrite Hbp3, Hbp2.
    apply (examined_up_to_date bp (fs st1) (srcmd5 st1) names); auto.
    eapply Forall_forall in Hex; eassumption.
  - rewrite Hbpath3. assumption.
  - assumption.
  - unfold _GetMD5FileName in *. rewrite Hbp3. assumption.
Qed.

End Idempotence.

Section IdempotenceOnRun.

Variable ctr : CTR.
Variable spin : list string -> gmap string node -> Z * gmap string node.
Variable check_output : list string -> check_output_result.

Lemma untouched_by_restrict (L : list (list string)) (bp : string)
    (names : list string) :
  untouched_on L spin bp names -> untouched_by (restrict L spin) bp names.
Proof.
  intros H argv f. unfold restrict. destruct (bool_decide (argv ∈ L)) eqn:Hd.
  - apply H. apply bool_decide_eq_true_1 in Hd. assumption.
  - intros k _. reflexivity.
Qed.

(** C5, as the code has it.  Let a first build return [True], and let
    [names] hold the basenames of the compilable units and, with each of
    its names, the dependencies that the cache left by that build records
    for it.  If each of these names exists in the build directory, the
    processes that the first build ran leave those places alone, and the
    fingerprint file is neither one of them nor the artifact, then a second
    build returns [True] and changes nothing but the trace, to which it adds
    no [ProcessLogger] run: no compilation, no link, the same fingerprint,
    the same files and the same cache. *)
Theorem second_build_runs_nothing
    (fuel : nat) (st st1 : state) (names : list string) :
  let bp := buildpath st in
  build ctr spin check_output fuel st = (Ret true, st1) ->
  (forall u, u ∈ compilable_units ctr -> u ∈ names) ->
  closed_under_deps (srcmd5 st1) names ->
  Forall (fun k => path_exists (fs st1) (Posixpath.join bp k) = true) names ->
  untouched_on (ran st st1) spin bp names ->
  Forall (fun k => Posixpath.join bp k ≠ _GetMD5FileName st) names ->
  _GetMD5FileName st ≠ bin_path st ->
  exists es,
    build ctr spin check_output fuel st1 = (Ret true, add_trace es st1)
    /\ Forall quiet es.
Proof.
  intros bp H Hun Hcl Hpres Hframe Hmd5 Hne.
  apply (build_sim ctr check_output spin (restrict (ran st st1) spin)) in H;
    [|apply same_on_restrict].
  destruct (second_build_idle ctr (restrict (ran st st1) spin) check_output
              fuel st st1 names H Hun Hcl Hpres
              (untouched_by_restrict _ _ _ Hframe) Hmd5 Hne) as (es & H2 & Hq).
  exists es. split; [|assumption].
  apply (build_sim ctr check_output (restrict (ran st st1) spin) spin) in H2;
    [assumption|].
  rewrite (ran_app st1 (add_trace es st1) es) by reflexivity.
  rewrite (spins_quiet es Hq). intros argv Hin. apply elem_of_nil in Hin.
  contradiction.
Qed.

End IdempotenceOnRun.

(** The stand-in toolchain writes object files and shared objects only. *)
Lemma toy_gcc_keeps (argv : list string) (f : gmap string node) (p : string) :
  Str.endswith ".o" p = false -> Str.endswith ".so" p = false ->
  snd (Toy.gcc argv f) !! p = f !! p.
Proof.
  intros Ho Hso. unfold Toy.gcc.
  destruct (Toy.arg_after "-o" argv) as [out|]; [|reflexivity].
  destruct (negb (Str.endswith ".o" out || Str.endswith ".so" out)) eqn:Hout;
    [reflexivity|].
  assert (out ≠ p) as Hne.
  { intros ->. rewrite Ho, Hso in Hout. discriminate. }
  destruct (Toy.arg_after "-c" argv) as [src|].
  - destruct (f !! src) as [[data|]|]; cbn [snd]; try reflexivity.
    apply lookup_insert_ne. assumption.
  - destruct (forallb _ _); cbn [snd]; [|reflexivity].
    apply lookup_insert_ne. assumption.
Qed.

(** The toolchain that writes wherever [-o] says changes nothing else. *)
Lemma toy_cc_keeps (argv : list string) (f : gmap string node) (p : string) :
  Toy.arg_after "-o" argv <> Some p -> snd (Toy.cc argv f) !! p = f !! p.
Proof.
  intros Hne. unfold Toy.cc.
  destruct (Toy.arg_after "-o" argv) as [out|]; [|reflexivity].
  assert (out <> p) as Hp by congruence.
  destruct (Toy.arg_after "-c" argv) as [src|].
  - destruct (f !! src) as [[data|]|]; cbn [snd]; try reflexivity.
    apply lookup_insert_ne. assumption.
  - cbn [snd]. apply lookup_insert_ne. assumption.
Qed.

(** Two builds in a row of the project of the scenario, with the stand-in
    for the C toolchain and with the toolchain that writes wherever [-o]
    says. *)
Lemma second_build_runs_nothing_witness :
  (exists es,
     build Toy.ctr Toy.gcc Toy.print_sysroot 8 Toy.built
     = (Ret true, add_trace es Toy.built)
     /\ Forall quiet es)
  /\ (let st1 := snd (build Toy.ctr Toy.cc Toy.print_sysroot 8 Toy.st) in
      exists es,
        build Toy.ctr Toy.cc Toy.print_sysroot 8 st1 = (Ret true, add_trace es st1)
        /\ Forall quiet es).
Proof.
  assert (closed_under_deps (srcmd5 Toy.built) ["main.c"; "util.c"]) as Hcl.
  { intros k h deps Hk Hc d Hd.
    repeat (apply elem_of_cons in Hk as [->|Hk]);
      [vm_compute in Hc; injection Hc as _ <-; apply elem_of_nil in Hd;
       contradiction..|].
    apply elem_of_nil in Hk. contradiction. }
  split.
  - apply (second_build_runs_nothing Toy.ctr Toy.gcc Toy.print_sysroot 8 Toy.st
             Toy.built ["main.c"; "util.c"]).
    + vm_compute. reflexivity.
    + intros u Hu. exact Hu.
    + exact Hcl.
    + repeat constructor; vm_compute; reflexivity.
    + intros argv _ f k Hk.
      repeat (apply elem_of_cons in Hk as [->|Hk]);
        try (apply toy_gcc_keeps; vm_compute; reflexivity).
      apply elem_of_nil in Hk. contradiction.
    + repeat constructor; vm_compute; discriminate.
    + vm_compute. discriminate.
  - cbv zeta.
    apply (second_build_runs_nothing Toy.ctr Toy.cc Toy.print_sysroot 8 Toy.st
             (snd (build Toy.ctr Toy.cc Toy.print_sysroot 8 Toy.st))
             ["main.c"; "util.c"]).
    + vm_compute. reflexivity.
    + intros u Hu. exact Hu.
    + intros k h deps Hk Hc d Hd.
      repeat (apply elem_of_cons in Hk as [->|Hk]);
        [vm_compute in Hc; injection Hc as _ <-; apply elem_of_nil in Hd;
         contradiction..|].
      apply elem_of_nil in Hk. contradiction.
    + repeat constructor; vm_compute; reflexivity.
    + assert (ran Toy.st (snd (build Toy.ctr Toy.cc Toy.print_sysroot 8 Toy.st))
              = [cc_argv "gcc" "/build/main.c" ["-fPIC"] ["-Wall"];
                 cc_argv "gcc" "/build/util.c" ["-fPIC"] [];
                 link_argv "gcc" ["/build/main.o"; "/build/util.o"] "/build/plc.so"
                   ["-lm"; "-shared"]]) as -> by (vm_compute; reflexivity).
      intros argv Hin f k Hk.
      repeat (apply elem_of_cons in Hin as [->|Hin]);
        [| | |apply elem_of_nil in Hin; contradiction];
        repeat (apply elem_of_cons in Hk as [->|Hk]);
        try (apply elem_of_nil in Hk; contradiction);
        apply toy_cc_keeps; vm_compute; discriminate.
    + repeat constructor; vm_compute; discriminate.
    + vm_compute. discriminate.
Defined.

(** C5, as the claim has it, fails for a unit kept outside the build
    directory: its basename names nothing there, so it is found changed at
    every build.  Both builds return [True], nothing changes in between, and
    the second one compiles and links again. *)
Lemma second_build_recompiles_outside_unit :
  let run1 := build Toy.ctr_outside Toy.gcc Toy.print_sysroot 8 Toy.st_outside in
  let run2 := build Toy.ctr_outside Toy.gcc Toy.print_sysroot 8 (snd run1) in
  fst run1 = Ret true
  /\ fst run2 = Ret true
  /\ spins (skipn (List.length (trace (snd run1))) (trace (snd run2)))
     = [cc_argv "gcc" "/gen/main.c" ["-fPIC"] [];
        link_argv "gcc" ["/gen/main.o"] "/build/plc.so" ["-shared"]].
Proof. cbv zeta. repeat split; vm_compute; reflexivity. Qed.

(** The other conditions of that theorem are needed as well.  A
    tool that changes a source while the first build runs leaves a cache
    that the second build finds out of date; and when the artifact is at
    the path of the fingerprint file, the second build records another
    digest than the first. *)
Lemma second_build_needs_its_conditions :
  (let run1 := build Toy.ctr Toy.cc_stamp Toy.print_sysroot 8 Toy.st in
   let run2 := build Toy.ctr Toy.cc_stamp Toy.print_sysroot 8 (snd run1) in
   fst run1 = Ret true
   /\ fst run2 = Ret true
   /\ List.length (ran (snd run1) (snd run2)) = 3%nat)
  /\ (let run1 := build Toy.ctr_clash Toy.cc Toy.print_sysroot 8 Toy.st_clash in
      let run2 := build Toy.ctr_clash Toy.cc Toy.print_sysroot 8 (snd run1) in
      fst run1 = Ret true
      /\ fst run2 = Ret true
      /\ ran (snd run1) (snd run2) = []
      /\ md5key (snd run2) <> md5key (snd run1)).
Proof.
  cbv zeta. repeat split; try (vm_compute; reflexivity). vm_compute. discriminate.
Qed.

(** ** A compilation that fails *)

(** The entry of a unit whose file exists is in the cache once the unit has
    been examined: the eviction of line 243 then finds it. *)
Lemma check_leaves_entry bp fs fuel bn c b c' :
  check_and_update_hash_and_deps bp fs fuel bn c = (Ret b, c') ->
  fs !! Posixpath.join bp bn ≠ None ->
  is_Some (c' !! bn).
Proof.
  intros H Hf. apply check_examined in H.
  destruct fuel; [contradiction|]. cbn [examined] in H.
  destruct H as [Hmiss|(data & deps & _ & Hc & _)]; [contradiction|].
  rewrite Hc. eauto.
Qed.

(** C4 (the code departs from the claim).  The project lists [gone.c],
    whose file does not exist; its compilation exits with a non-zero status.
    [check_and_update_hash_and_deps] has written no entry for it, so
    [self.srcmd5.pop(bn)] raises [KeyError]: [build] does not return
    [False], and the failure is not reported on the error channel. *)
Theorem failed_compilation_of_missing_unit_raises :
  let run := build Toy.ctr_gone Toy.gcc Toy.print_sysroot 8 Toy.st in
  fs Toy.st !! "/build/gone.c" = None
  /\ fst (Toy.gcc (cc_argv "gcc" "/build/gone.c" ["-fPIC"] []) (fs Toy.st)) = 1
  /\ fst run = Raise KeyError
  /\ trace (snd run)
     = [Write ("PLC :" +:+ nl); Write (cc_line "/build/gone.c");
        Spin (cc_argv "gcc" "/build/gone.c" ["-fPIC"] [])]
  /\ srcmd5 (snd run) = srcmd5 Toy.st.
Proof. cbv zeta. repeat split; vm_compute; reflexivity. Qed.

(** When the file of the unit exists, the failure is handled as intended:
    the entry of the unit is evicted, the failure is reported, and the turn
    makes [build] return [False]. *)
Lemma failed_compilation_evicts_entry
    (spin : list string -> gmap string node -> Z * gmap string node)
    (fuel : nat) (cfl uf : list string) (v : locals) (CFile CFLAGS : string)
    (st : state) (c : gmap string (string * list string)) :
  let bn := Posixpath.basename CFile in
  let argv := cc_argv (compiler st) CFile cfl uf in
  Str.endswith ".c" CFile = true ->
  fs st !! Posixpath.join (buildpath st) bn ≠ None ->
  check_and_update_hash_and_deps (buildpath st) (fs st) fuel bn (srcmd5 st)
  = (Ret false, c) ->
  Shlex.split CFLAGS = Some uf ->
  fst (spin argv (fs st)) ≠ 0 ->
  exists st',
    build_cfile spin fuel cfl v (CFile, CFLAGS) st = (Ret None, st')
    /\ srcmd5 st' = delete bn c
    /\ trace st' =
       trace st ++ [Write (cc_line CFile); Spin argv; WriteError (failed_line CFile)].
Proof.
  intros bn argv Hc Hf Hchk Huf Hstatus.
  rewrite build_cfile_c by assumption. cbv zeta. fold bn. rewrite Hchk, Huf.
  fold argv. destruct (spin argv (fs st)) as [status fs'] eqn:Hs.
  cbn [fst] in Hstatus. apply Z.eqb_neq in Hstatus. rewrite Hstatus.
  destruct (check_leaves_entry _ _ _ _ _ _ _ Hchk Hf) as [e He]. rewrite He.
  eexists. split; [reflexivity|]. split; [reflexivity|].
  cbn. rewrite <- !app_assoc. reflexivity.
Qed.

(** * Further properties *)

(** ** The content hasher *)

Lemma length_hex (bs : list Z) : String.length (MD5.hex bs) = (2 * List.length bs)%nat.
Proof. induction bs as [|b bs IH]; [reflexivity|]. cbn [MD5.hex String.length List.length]. lia. Qed.

Lemma length_le_bytes (n : nat) (x : Z) : List.length (MD5.le_bytes n x) = n.
Proof. unfold MD5.le_bytes. rewrite length_map, length_seq. reflexivity. Qed.

Lemma le_bytes_range (n : nat) (x : Z) :
  Forall (fun b => 0 <= b < 256) (MD5.le_bytes n x).
Proof.
  unfold MD5.le_bytes. apply Forall_forall. intros b Hb.
  apply list_elem_of_In, in_map_iff in Hb as (k & <- & _).
  apply Z.mod_pos_bound. lia.
Qed.

Lemma digest_shape (bs : list Z) :
  List.length (MD5.digest bs) = 16%nat
  /\ Forall (fun b => 0 <= b < 256) (MD5.digest bs).
Proof.
  unfold MD5.digest.
  destruct (MD5.blocks _ _ MD5.init) as [[[A B] C] D]. split.
  - rewrite !length_app, !length_le_bytes. reflexivity.
  - repeat (apply Forall_app; split); apply le_bytes_range.
Qed.

Lemma hexchar_hexdigit (x : Z) : 0 <= x < 16 -> is_hexdigit (MD5.hexchar x) = true.
Proof.
  intros Hx. unfold is_hexdigit, MD5.hexchar, Str.code.
  destruct (x <? 10) eqn:Hlt.
  - apply Z.ltb_lt in Hlt. rewrite N_ascii_embedding by lia.
    apply orb_true_iff. left. apply andb_true_iff. split; apply N.leb_le; lia.
  - apply Z.ltb_ge in Hlt. rewrite N_ascii_embedding by lia.
    apply orb_true_iff. right. apply andb_true_iff. split; apply N.leb_le; lia.
Qed.

Lemma hex_hexdigits (bs : list Z) :
  Forall (fun b => 0 <= b < 256) bs -> hexdigits (MD5.hex bs) = true.
Proof.
  induction 1 as [|b bs Hb _ IH]; [reflexivity|].
  cbn [MD5.hex hexdigits]. rewrite IH, !hexchar_hexdigit; [reflexivity| |].
  - apply Z.mod_pos_bound. lia.
  - split; [apply Z.div_pos; lia|apply Z.div_lt_upper_bound; lia].
Qed.

(** X1. Whatever the length of a regular file, reading it by blocks of
    65536 bytes digests all of its bytes, and what [compute_file_md5]
    returns is a text of 32 lower-case hexadecimal digits. *)
Theorem compute_file_md5_digests_whole_file
    (fs : gmap string node) (p data : string) :
  fs !! p = Some (File data) ->
  compute_file_md5 fs p = Ret (MD5.hexdigest data)
  /\ String.length (MD5.hexdigest data) = 32%nat
  /\ hexdigits (MD5.hexdigest data) = true.
Proof.
  intros Hp. split; [apply compute_file_md5_file; assumption|].
  unfold MD5.hexdigest.
  destruct (digest_shape (MD5.bytes_of data)) as [Hlen Hrange].
  split; [rewrite length_hex, Hlen; reflexivity|apply hex_hexdigits; assumption].
Qed.

Lemma compute_file_md5_digests_whole_file_witness :
  compute_file_md5 Toy.files "/build/util.c" = Ret (MD5.hexdigest "int u = 0;")
  /\ String.length (MD5.hexdigest "int u = 0;") = 32%nat
  /\ hexdigits (MD5.hexdigest "int u = 0;") = true.
Proof.
  apply (compute_file_md5_digests_whole_file Toy.files "/build/util.c" "int u = 0;").
  vm_compute. reflexivity.
Defined.

(** ** The fingerprint store *)

Lemma hexdigits_valid (s : string) : hexdigits s = true -> Utf8.valid s = true.
Proof.
  induction s as [|c s IH]; [reflexivity|]. cbn [hexdigits]. intros H.
  apply andb_true_iff in H as [Hc Hs]. cbn [Utf8.valid].
  assert (Utf8.between 0 127 c = true) as ->; [|auto].
  unfold is_hexdigit in Hc. unfold Utf8.between.
  apply orb_true_iff in Hc as [Hc|Hc]; apply andb_true_iff in Hc as [H1 H2];
    apply N.leb_le in H1, H2; apply andb_true_iff; split; apply N.leb_le; lia.
Qed.

Lemma hexdigits_newlines (s : string) :
  hexdigits s = true -> universal_newlines s = s.
Proof.
  induction s as [|c s IH]; [reflexivity|]. cbn [hexdigits]. intros H.
  apply andb_true_iff in H as [Hc Hs]. cbn [universal_newlines].
  assert (Str.byte_is 13 c = false) as ->; [|rewrite (IH Hs); reflexivity].
  unfold is_hexdigit in Hc. unfold Str.byte_is. apply N.eqb_neq.
  apply orb_true_iff in Hc as [Hc|Hc]; apply andb_true_iff in Hc as [H1 H2];
    apply N.leb_le in H1, H2; lia.
Qed.

Section Reset.

Variable removable : string -> bool.

(** X2. [ResetBinaryMD5] always forgets the fingerprint held in memory.
    What [GetBinaryMD5] returns next is [None] when the operating system
    allowed the removal of the fingerprint file, also when nothing or a
    directory was in its place; when the removal is refused, the failure is
    swallowed, the file stays, and [GetBinaryMD5] returns what it holds.
    Resetting twice is resetting once, and the reset touches neither the
    cache nor any other file. *)
Theorem reset_clears_fingerprint (st : state) :
  md5key (ResetBinaryMD5 removable st) = None
  /\ GetBinaryMD5 (ResetBinaryMD5 removable st)
     = (if removable (_GetMD5FileName st) then None
        else read_text (fs st) (_GetMD5FileName st))
  /\ ResetBinaryMD5 removable (ResetBinaryMD5 removable st)
     = ResetBinaryMD5 removable st
  /\ srcmd5 (ResetBinaryMD5 removable st) = srcmd5 st
  /\ forall p, p ≠ _GetMD5FileName st ->
               fs (ResetBinaryMD5 removable st) !! p = fs st !! p.
Proof.
  unfold ResetBinaryMD5, os_remove, GetBinaryMD5, read_text, _GetMD5FileName.
  cbn [fs buildpath set_md5key].
  destruct (fs st !! Posixpath.join (buildpath st) "lastbuildPLC.md5")
    as [[data|]|] eqn:Hf.
  - destruct (removable _) eqn:Hrm.
    + cbn [md5key set_fs set_md5key fs buildpath]. rewrite lookup_delete_eq.
      repeat split; try reflexivity.
      intros p Hp. apply lookup_delete_ne. congruence.
    + cbn [md5key set_md5key fs buildpath]. rewrite Hf, Hrm.
      repeat split; reflexivity.
  - cbn [md5key set_md5key fs buildpath]. rewrite Hf.
    destruct (removable _); repeat split; reflexivity.
  - cbn [md5key set_md5key fs buildpath]. rewrite Hf.
    destruct (removable _); repeat split; reflexivity.
Qed.

End Reset.

Section Persisted.

Variable ctr : CTR.
Variable spin : list string -> gmap string node -> Z * gmap string node.
Variable check_output : list string -> check_output_result.

(** X3. The fingerprint written by a build that returned [True] is read
    back from [lastbuildPLC.md5]: when the key held in memory is gone, as
    for a toolchain object made anew on the same build directory,
    [GetBinaryMD5] still returns the digest that the build computed. *)
Theorem persisted_fingerprint_is_read_back (fuel : nat) (st st' : state) :
  _GetMD5FileName st ≠ bin_path st ->
  build ctr spin check_output fuel st = (Ret true, st') ->
  is_Some (md5key st')
  /\ GetBinaryMD5 (set_md5key None st') = md5key st'.
Proof.
  intros Hne H.
  apply build_true_inv in H as (cfl & lfl & es & v & s2 & _ & _ & Hg & Hout).
  apply generate_object_files_same_config in Hg as (Hbp & _ & Hbin & _).
  cbn [buildpath bin_path add_trace set_tools] in Hbp, Hbin.
  apply generate_output_file_true in Hout as (data & _ & Hkey & Hfile & Hc3);
    [|unfold _GetMD5FileName in *; rewrite Hbp, Hbin; assumption].
  destruct Hc3 as (Hbp3 & _).
  rewrite Hkey. split; [eauto|].
  unfold GetBinaryMD5, read_text, _GetMD5FileName in *.
  cbn [md5key fs buildpath set_md5key]. rewrite Hbp3, Hfile.
  destruct (digest_shape (MD5.bytes_of data)) as [_ Hrange].
  pose proof (hex_hexdigits _ Hrange) as Hhex. fold (MD5.hexdigest data) in Hhex.
  rewrite (hexdigits_valid _ Hhex), (hexdigits_newlines _ Hhex). reflexivity.
Qed.

End Persisted.

Lemma persisted_fingerprint_is_read_back_witness :
  is_Some (md5key Toy.built)
  /\ GetBinaryMD5 (set_md5key None Toy.built) = md5key Toy.built.
Proof.
  apply (persisted_fingerprint_is_read_back Toy.ctr Toy.gcc Toy.print_sysroot 8 Toy.st).
  - vm_compute. discriminate.
  - vm_compute. reflexivity.
Defined.

(** ** The include scanner, further *)

Lemma until_close_no_closer (s d : string) :
  Re.until_close s = Some d -> no_closer d = true.
Proof.
  revert d. induction s as [|c s IH]; intros d H; [discriminate|].
  cbn [Re.until_close] in H. destruct (Re.is_close c) eqn:Hc.
  - injection H as <-. reflexivity.
  - destruct (Re.until_close s) as [d'|]; [|discriminate].
    injection H as <-. cbn [no_closer]. rewrite Hc, (IH d' eq_refl). reflexivity.
Qed.

Lemma includes_re_match_no_closer (l d : string) :
  Re.includes_re_match l = Some d -> no_closer d = true.
Proof.
  unfold Re.includes_re_match.
  destruct (Str.strip_prefix "#include" (Str.skip_ws l)) as [l'|]; [|discriminate].
  destruct (Str.skip_ws l') as [|c l'']; [discriminate|].
  destruct (Re.is_open c); [|discriminate]. apply until_close_no_closer.
Qed.

(** X4. [append_cfile_deps] only appends: the names given stay in front, in
    their order, and what is added does not depend on them.  Every name
    added exists in the build directory at the time of the scan and holds
    neither a double quote nor [>]. *)
Theorem append_cfile_deps_appends_existing_names
    (bp : string) (fs : gmap string node) (src : string) (deps : list string) :
  append_cfile_deps bp fs src deps = deps ++ append_cfile_deps bp fs src []
  /\ Forall (fun d => path_exists fs (Posixpath.join bp d) = true
                      /\ no_closer d = true)
       (append_cfile_deps bp fs src []).
Proof.
  unfold append_cfile_deps. generalize (Str.splitlines src) as lines.
  intros lines. revert deps.
  induction lines as [|l lines IH]; intros deps.
  - cbn [fold_left]. rewrite app_nil_r. auto.
  - cbn [fold_left].
    destruct (Re.includes_re_match l) as [d|] eqn:Hm; [|apply IH].
    destruct (path_exists fs (Posixpath.join bp d)) eqn:Hd; [|apply IH].
    destruct (IH (deps ++ [d])) as [E1 _]. destruct (IH ([] ++ [d])) as [E2 HF].
    rewrite E1, E2. cbn [app]. rewrite <- app_assoc. split; [reflexivity|].
    constructor; [|assumption].
    split; [assumption|eapply includes_re_match_no_closer; eassumption].
Qed.

(** Induction on a text that may step over one, two or three bytes. *)
Lemma string_ind3 (P : string -> Prop) :
  P EmptyString ->
  (forall a, P (String a EmptyString)) ->
  (forall a b, P (String b EmptyString) -> P (String a (String b EmptyString))) ->
  (forall a b c s,
     P (String b (String c s)) -> P (String c s) -> P s ->
     P (String a (String b (String c s)))) ->
  forall s, P s.
Proof.
  intros H0 H1 H2 H3.
  assert (forall n s, (String.length s <= n)%nat -> P s) as Hn.
  { induction n as [|n IH]; intros s Hs.
    - destruct s; [assumption|cbn in Hs; lia].
    - destruct s as [|a [|b [|c s]]]; auto.
      cbn [String.length] in Hs.
      apply H3; apply IH; cbn [String.length]; lia. }
  intros s. apply (Hn (String.length s)). lia.
Qed.

Lemma skip_ws_eq (a : ascii) (s1 : string) :
  Str.skip_ws (String a s1) =
  if Str.isspace1 a then Str.skip_ws s1 else
  match s1 with
  | EmptyString => String a s1
  | String b s2 =>
      if Str.isspace2 a b then Str.skip_ws s2 else
      match s2 with
      | EmptyString => String a s1
      | String c s3 => if Str.isspace3 a b c then Str.skip_ws s3 else String a s1
      end
  end.
Proof. destruct s1 as [|b [|c s3]]; reflexivity. Qed.

(** Goals and hypotheses that are disjunctions of character tests. *)
Ltac orbs :=
  cbn [Str.has_char] in *;
  repeat match goal with
         | |- context [Ascii.eqb ?x ?y] => destruct (Ascii.eqb x y)
         end;
  cbn [orb] in *; try reflexivity; try assumption; try discriminate.

Lemma skip_ws_has_char (c : ascii) (s : string) :
  Str.has_char c (Str.skip_ws s) = true -> Str.has_char c s = true.
Proof.
  induction s as [|a|a b IHb|a b d s IH1 IH2 IH3] using string_ind3;
    intros H; [assumption|..]; rewrite skip_ws_eq in H.
  - destruct (Str.isspace1 a); [discriminate|assumption].
  - destruct (Str.isspace1 a); [apply IHb in H; orbs|].
    destruct (Str.isspace2 a b); [discriminate|assumption].
  - destruct (Str.isspace1 a); [apply IH1 in H; orbs|].
    destruct (Str.isspace2 a b); [apply IH2 in H; orbs|].
    destruct (Str.isspace3 a b d); [apply IH3 in H; orbs|assumption].
Qed.

Lemma splitlines_eq (a : ascii) (s1 : string) :
  Str.splitlines (String a s1) =
  if Str.islinebreak1 a then
    match s1 with
    | String b s2 =>
        if Str.byte_is 13 a && Str.byte_is 10 b then EmptyString :: Str.splitlines s2
        else EmptyString :: Str.splitlines s1
    | EmptyString => [EmptyString]
    end
  else
    match s1 with
    | EmptyString => [String a s1]
    | String b s2 =>
        if Str.islinebreak2 a b then EmptyString :: Str.splitlines s2 else
        match s2 with
        | EmptyString => Str.cons_line a (Str.splitlines s1)
        | String c s3 =>
            if Str.islinebreak3 a b c then EmptyString :: Str.splitlines s3
            else Str.cons_line a (Str.splitlines s1)
        end
    end.
Proof. destruct s1 as [|b [|c s3]]; reflexivity. Qed.

Lemma cons_line_has_char (c a : ascii) (l : string) (ls : list string) :
  l ∈ Str.cons_line a ls -> Str.has_char c l = true ->
  Ascii.eqb a c = true \/ exists l0, l0 ∈ ls /\ Str.has_char c l0 = true.
Proof.
  unfold Str.cons_line. intros Hl Hc. destruct ls as [|l0 ls].
  - apply list_elem_of_singleton in Hl as ->. cbn [Str.has_char] in Hc.
    rewrite orb_false_r in Hc. auto.
  - apply elem_of_cons in Hl as [->|Hl].
    + cbn [Str.has_char] in Hc. apply orb_true_iff in Hc as [Hc|Hc]; [auto|].
      right. exists l0. split; [constructor|assumption].
    + right. exists l. split; [constructor; assumption|assumption].
Qed.

(** A character of a line is a character of the text. *)
Lemma splitlines_has_char (c : ascii) (s : string) : forall l,
  l ∈ Str.splitlines s -> Str.has_char c l = true -> Str.has_char c s = true.
Proof.
  assert (forall l ls, l ∈ EmptyString :: ls -> Str.has_char c l = true -> l ∈ ls)
    as Hskip.
  { intros l ls Hl Hc. apply elem_of_cons in Hl as [->|Hl]; [discriminate|assumption]. }
  induction s as [|a|a b IHb|a b d s IH1 IH2 IH3] using string_ind3; intros l Hl Hc.
  - apply elem_of_nil in Hl. contradiction.
  - rewrite splitlines_eq in Hl. destruct (Str.islinebreak1 a).
    + apply Hskip in Hl; [|assumption]. apply elem_of_nil in Hl. contradiction.
    + apply list_elem_of_singleton in Hl as ->. assumption.
  - rewrite splitlines_eq in Hl. destruct (Str.islinebreak1 a).
    + destruct (Str.byte_is 13 a && Str.byte_is 10 b);
        (apply Hskip in Hl; [|assumption]).
      * apply elem_of_nil in Hl. contradiction.
      * pose proof (IHb l Hl Hc). orbs.
    + destruct (Str.islinebreak2 a b).
      * apply Hskip in Hl; [|assumption]. apply elem_of_nil in Hl. contradiction.
      * destruct (cons_line_has_char c a l _ Hl Hc) as [Ha|(l0 & Hl0 & Hc0)].
        -- cbn [Str.has_char]. rewrite Ha. reflexivity.
        -- pose proof (IHb l0 Hl0 Hc0). orbs.
  - rewrite splitlines_eq in Hl. destruct (Str.islinebreak1 a).
    + destruct (Str.byte_is 13 a && Str.byte_is 10 b);
        (apply Hskip in Hl; [|assumption]).
      * pose proof (IH2 l Hl Hc). orbs.
      * pose proof (IH1 l Hl Hc). orbs.
    + destruct (Str.islinebreak2 a b).
      * apply Hskip in Hl; [|assumption]. pose proof (IH2 l Hl Hc). orbs.
      * destruct (Str.islinebreak3 a b d).
        -- apply Hskip in Hl; [|assumption]. pose proof (IH3 l Hl Hc). orbs.
        -- destruct (cons_line_has_char c a l _ Hl Hc) as [Ha|(l0 & Hl0 & Hc0)].
           ++ cbn [Str.has_char]. rewrite Ha. reflexivity.
           ++ pose proof (IH1 l0 Hl0 Hc0). orbs.
Qed.

Lemma includes_re_match_has_hash (l d : string) :
  Re.includes_re_match l = Some d -> Str.has_char "#" l = true.
Proof.
  unfold Re.includes_re_match. intros H. apply skip_ws_has_char.
  destruct (Str.skip_ws l) as [|x t]; [discriminate|].
  cbn [Str.strip_prefix] in H. cbn [Str.has_char].
  destruct (Ascii.eqb "#" x) eqn:Hx; [|discriminate].
  rewrite Ascii.eqb_sym, Hx. reflexivity.
Qed.

Lemma lines_without_hash_match_nothing (src : string) :
  Str.has_char "#" src = false ->
  Forall (fun l => Re.includes_re_match l = None) (Str.splitlines src).
Proof.
  intros Hsrc. apply Forall_forall. intros l Hl.
  destruct (Re.includes_re_match l) as [d|] eqn:Hm; [|reflexivity].
  apply includes_re_match_has_hash in Hm.
  rewrite (splitlines_has_char _ _ _ Hl Hm) in Hsrc. discriminate.
Qed.

Lemma append_cfile_deps_no_match
    (bp : string) (fs : gmap string node) (src : string) (deps : list string) :
  Forall (fun l => Re.includes_re_match l = None) (Str.splitlines src) ->
  append_cfile_deps bp fs src deps = deps.
Proof.
  unfold append_cfile_deps. intros Hl.
  revert deps. induction Hl as [|l ls Hm _ IH]; intros deps; [reflexivity|].
  cbn [fold_left]. rewrite Hm. apply IH.
Qed.

(** X5. A text in which the character [#] does not occur adds no
    dependency, whatever files exist. *)
Theorem text_without_hash_adds_no_dependency
    (bp : string) (fs : gmap string node) (src : string) (deps : list string) :
  Str.has_char "#" src = false ->
  append_cfile_deps bp fs src deps = deps.
Proof.
  intros Hsrc. apply append_cfile_deps_no_match, lines_without_hash_match_nothing.
  assumption.
Qed.

Lemma text_without_hash_adds_no_dependency_witness :
  append_cfile_deps "/build" Toy.files "/build/main.c" ["util.h"] = ["util.h"].
Proof.
  apply (text_without_hash_adds_no_dependency "/build" Toy.files "/build/main.c").
  vm_compute. reflexivity.
Defined.

Lemma has_char_app (c : ascii) (s t : string) :
  Str.has_char c (s +:+ t) = Str.has_char c s || Str.has_char c t.
Proof.
  induction s as [|a s IH]; [reflexivity|].
  rewrite app_cons. cbn [Str.has_char]. rewrite IH, orb_assoc. reflexivity.
Qed.

Lemma join_without_hash (bp bn : string) :
  Str.has_char "#" bp = false -> Str.has_char "#" bn = false ->
  Str.has_char "#" (Posixpath.join bp bn) = false.
Proof.
  intros Hbp Hbn. unfold Posixpath.join.
  destruct (Str.startswith "/" bn); [assumption|].
  destruct (_ || _)%bool; rewrite !has_char_app, Hbp, Hbn; reflexivity.
Qed.

(** X6. When [#] occurs neither in the build path nor in the basename, the
    entry that [check_and_update_hash_and_deps] writes for a file it finds
    changed records no dependency: the call returns [False] after one
    reading of the file, and from then on the file is reported unchanged
    for as long as its own bytes are what they were, whatever the other
    files become. *)
Theorem plain_path_records_no_dependency
    (bp : string) (fs fs' : gmap string node) (fuel fuel' : nat) (bn data : string)
    (c : gmap string (string * list string)) :
  Str.has_char "#" bp = false ->
  Str.has_char "#" bn = false ->
  fs !! Posixpath.join bp bn = Some (File data) ->
  fst <$> c !! bn ≠ Some (MD5.hexdigest data) ->
  fs' !! Posixpath.join bp bn = Some (File data) ->
  let c1 := <[bn := (MD5.hexdigest data, [])]> c in
  check_and_update_hash_and_deps bp fs (S fuel) bn c = (Ret false, c1)
  /\ check_and_update_hash_and_deps bp fs' (S fuel') bn c1 = (Ret true, c1).
Proof.
  intros Hbp Hbn Hf Hn Hf' c1.
  assert (append_cfile_deps bp fs (Posixpath.join bp bn) [] = []) as Hscan
    by (apply append_cfile_deps_no_match, lines_without_hash_match_nothing,
          join_without_hash; assumption).
  split.
  - rewrite (check_mismatch _ _ _ _ _ _ Hf Hn), Hscan. reflexivity.
  - rewrite (check_match bp fs' fuel' bn c1 data []); [reflexivity|assumption|].
    apply lookup_insert_eq.
Qed.

Lemma plain_path_records_no_dependency_witness :
  let c1 := <["main.c" := (MD5.hexdigest Toy.main_c, [])]> ∅ in
  check_and_update_hash_and_deps "/build" Toy.files 1 "main.c" ∅ = (Ret false, c1)
  /\ check_and_update_hash_and_deps "/build" Toy.files_edited 1 "main.c" c1
     = (Ret true, c1).
Proof.
  apply (plain_path_records_no_dependency "/build" Toy.files Toy.files_edited
           0 0 "main.c" Toy.main_c ∅); try (vm_compute; reflexivity).
  vm_compute. discriminate.
Defined.

(** ** [concat_deps] *)

Lemma map_result_raises {A B} (f : A -> result B) (l : list A) (y : A) :
  y ∈ l -> (exists e, f y = Raise e) -> exists e, map_result f l = Raise e.
Proof.
  intros Hy [e He]. induction l as [|x l IH]; [apply elem_of_nil in Hy; contradiction|].
  cbn [map_result]. destruct (f x) as [t|e'] eqn:Hx; [|eauto].
  apply elem_of_cons in Hy as [->|Hy]; [congruence|].
  destruct (IH Hy) as [e' ->]. eauto.
Qed.

(** X7. [concat_deps] has no guard against circular includes.  Take any set
    of names such that the text of each, when it can be read, includes a
    member of the set that exists in the build directory: a file that
    includes itself, two headers that include each other, a longer ring.
    On a member of the set [concat_deps] returns no text, however deep the
    stack: it ends in an exception. *)
Theorem concat_deps_never_returns_on_a_cycle
    (bp : string) (fs : gmap string node) (ring : string -> Prop) :
  (forall x text,
     ring x -> open_r fs (Posixpath.join bp x) = Ret text ->
     exists y, ring y /\ y ∈ append_cfile_deps bp fs text []) ->
  forall fuel x, ring x -> exists e, concat_deps bp fs fuel x = Raise e.
Proof.
  intros Hring. induction fuel as [|fuel IH]; intros x Hx; [cbn; eauto|].
  cbn [concat_deps].
  destruct (open_r fs (Posixpath.join bp x)) as [text|e] eqn:Hr; [|eauto].
  destruct (Hring x text Hx Hr) as (y & Hy & Hin).
  destruct (map_result_raises (concat_deps bp fs fuel) _ y Hin (IH y Hy)) as [e ->].
  eauto.
Qed.

Lemma concat_deps_never_returns_on_a_cycle_witness :
  exists e, concat_deps "/build" Toy.files_cyclic 1000 "a.h" = Raise e.
Proof.
  apply (concat_deps_never_returns_on_a_cycle "/build" Toy.files_cyclic
           (fun x => x = "a.h" \/ x = "b.h")); [|left; reflexivity].
  intros x text [->| ->] Hr; vm_compute in Hr; injection Hr as <-.
  - exists "b.h". split; [right; reflexivity|].
    apply list_elem_of_In. vm_compute. left. reflexivity.
  - exists "a.h". split; [left; reflexivity|].
    apply list_elem_of_In. vm_compute. left. reflexivity.
Defined.

(** ** The cache, further *)

(** X8. A call of [check_and_update_hash_and_deps] that returned leaves the
    cache such that the same call, on the same files, reports the file as
    unchanged and writes nothing, provided none of the names that the cache
    then mentions is missing from the build directory: a change is reported
    once. *)
Theorem second_check_reports_unchanged
    (bp : string) (fs : gmap string node) (fuel : nat) (bn : string)
    (c c' : gmap string (string * list string)) (b : bool) :
  check_and_update_hash_and_deps bp fs fuel bn c = (Ret b, c') ->
  Forall (fun k => path_exists fs (Posixpath.join bp k) = true)
    (bn :: known_names c') ->
  check_and_update_hash_and_deps bp fs fuel bn c' = (Ret true, c').
Proof.
  intros H Hpres. apply up_to_date_check.
  apply (examined_up_to_date bp fs c' (bn :: known_names c')).
  - eapply check_examined. eassumption.
  - constructor.
  - intros k Hk. eapply Forall_forall in Hpres; eassumption.
  - intros k h deps _ Hc d Hd. apply elem_of_cons. right.
    apply elem_of_known_names. exists k, h, deps. auto.
Qed.

Lemma second_check_reports_unchanged_witness :
  check_and_update_hash_and_deps "/build" Toy.files 8 "main.c"
    {[ "main.c" := (MD5.hexdigest Toy.main_c, []) ]}
  = (Ret true, {[ "main.c" := (MD5.hexdigest Toy.main_c, []) ]}).
Proof.
  apply (second_check_reports_unchanged "/build" Toy.files 8 "main.c" ∅ _ false).
  - vm_compute. reflexivity.
  - assert (known_names {[ "main.c" := (MD5.hexdigest Toy.main_c, []) ]} = ["main.c"])
      as -> by (vm_compute; reflexivity).
    repeat constructor; vm_compute; reflexivity.
Defined.

Lemma fold_left_andb_false (rs : list bool) : fold_left andb rs false = false.
Proof. induction rs as [|b rs IH]; [reflexivity|exact IH]. Qed.

Lemma check_without_entry bp fs fuel bn c :
  c !! bn = None ->
  fst (check_and_update_hash_and_deps bp fs fuel bn c) ≠ Ret true.
Proof.
  intros Hc. destruct fuel as [|fuel]; [discriminate|].
  destruct (check_cases bp fs fuel bn c)
    as [[_ E]|[[_ E]|[(data & deps & _ & Hc' & _)|(data & _ & _ & E)]]];
    try (rewrite E; discriminate); [congruence|].
  rewrite E. unfold check_deps, bind, ret.
  destruct (mapM _ _ _) as [[rs|e] c0]; cbn [fst]; [|discriminate].
  rewrite fold_left_andb_false. discriminate.
Qed.

(** X9. When a turn of the compilation loop ends the build for a failed
    compilation, the entry of that unit is gone from the cache, and from the
    state it leaves no call of [check_and_update_hash_and_deps] on the unit
    reports it unchanged, however the files stand: the next build compiles
    it again, or fails on it again. *)
Theorem evicted_unit_is_found_changed
    (spin : list string -> gmap string node -> Z * gmap string node)
    (fuel : nat) (cfl : list string) (v : locals) (CFile CFLAGS : string)
    (st st' : state) :
  build_cfile spin fuel cfl v (CFile, CFLAGS) st = (Ret None, st') ->
  srcmd5 st' !! Posixpath.basename CFile = None
  /\ forall fs' fuel',
       fst (check_and_update_hash_and_deps (buildpath st') fs' fuel'
              (Posixpath.basename CFile) (srcmd5 st')) ≠ Ret true.
Proof.
  intros H.
  assert (srcmd5 st' !! Posixpath.basename CFile = None) as Hgone.
  { destruct (Str.endswith ".c" CFile) eqn:Hc.
    - rewrite build_cfile_c in H by assumption. cbv zeta in H.
      destruct (check_and_update_hash_and_deps _ _ _ _ _) as [[[|]|e] c];
        try discriminate.
      destruct (Shlex.split CFLAGS) as [uf|]; [|discriminate].
      destruct (spin _ (fs st)) as [status fs'].
      destruct (status =? 0)%Z; [discriminate|].
      destruct (c !! Posixpath.basename CFile); [|discriminate].
      injection H as <-. apply lookup_delete_eq.
    - rewrite build_cfile_other in H by assumption. discriminate. }
  split; [assumption|]. intros fs' fuel'. apply check_without_entry. assumption.
Qed.

Lemma evicted_unit_is_found_changed_witness :
  let st' :=
    snd (build_cfile Toy.gcc 8 ["-fPIC"] {| obns := []; objs := []; relink := false |}
           Toy.misplaced_unit Toy.st) in
  srcmd5 st' !! Posixpath.basename "/other/util.c" = None
  /\ forall fs' fuel',
       fst (check_and_update_hash_and_deps (buildpath st') fs' fuel'
              (Posixpath.basename "/other/util.c") (srcmd5 st')) ≠ Ret true.
Proof.
  apply (evicted_unit_is_found_changed Toy.gcc 8 ["-fPIC"]
           {| obns := []; objs := []; relink := false |}
           "/other/util.c" EmptyString Toy.st).
  vm_compute. reflexivity.
Defined.

(** ** What a build leaves alone *)

Section Build.

Variable ctr : CTR.
Variable spin : list string -> gmap string node -> Z * gmap string node.
Variable check_output : list string -> check_output_result.

Lemma keeps_file_refl p s : keeps_file p s s.
Proof. reflexivity. Qed.

Lemma keeps_file_trans p s1 s2 s3 :
  keeps_file p s1 s2 -> keeps_file p s2 s3 -> keeps_file p s1 s3.
Proof. unfold keeps_file. congruence. Qed.

Lemma build_cfile_keeps_file p fuel cfl v f s r s' :
  leaves_alone spin p ->
  build_cfile spin fuel cfl v f s = (r, s') -> keeps_file p s s'.
Proof.
  intros Hp. destruct f as [CFile CFLAGS]. intros H. unfold keeps_file.
  destruct (Str.endswith ".c" CFile) eqn:Hc.
  - rewrite build_cfile_c in H by assumption. cbv zeta in H.
    destruct (check_and_update_hash_and_deps _ _ _ _ _) as [[[|]|e] c];
      try (injection H as <- <-; reflexivity).
    destruct (Shlex.split CFLAGS) as [uf|]; [|injection H as <- <-; reflexivity].
    pose proof (Hp (cc_argv (compiler s) CFile cfl uf) (fs s)) as Hkeep.
    destruct (spin _ (fs s)) as [status fs']. cbn [snd] in Hkeep.
    destruct (status =? 0)%Z; [injection H as <- <-; exact Hkeep|].
    destruct (c !! _); injection H as <- <-; exact Hkeep.
  - rewrite build_cfile_other in H by assumption.
    injection H as <- <-. reflexivity.
Qed.

Lemma build_location_keeps_file p fuel cfl v loc s r s' :
  leaves_alone spin p ->
  build_location spin fuel cfl v loc s = (r, s') -> keeps_file p s s'.
Proof.
  intros Hp. rewrite build_location_eq. intros H.
  apply (for_each_preserves (keeps_file p)) in H;
    eauto using keeps_file_refl, keeps_file_trans, build_cfile_keeps_file.
Qed.

Lemma generate_object_files_keeps_file p fuel cfl s r s' :
  leaves_alone spin p ->
  generate_object_files ctr spin fuel cfl s = (r, s') -> keeps_file p s s'.
Proof.
  intros Hp. rewrite generate_object_files_eq. intros H.
  apply (for_each_preserves (keeps_file p)) in H;
    eauto using keeps_file_refl, keeps_file_trans, build_location_keeps_file.
Qed.

(** The phases of [build], for any outcome. *)
Lemma build_inv fuel st r st' :
  build ctr spin check_output fuel st = (r, st') ->
  let s0 := set_tools (getCompiler ctr) (getLinker ctr) st in
  exists es,
    Forall quiet es
    /\ assemble_flags ctr check_output s0 = (fst (assemble_flags ctr check_output s0),
                                            add_trace es s0)
    /\ match fst (assemble_flags ctr check_output s0) with
       | Ret (Some (cfl, lfl)) =>
           exists rv s2,
             generate_object_files ctr spin fuel cfl (add_trace es s0) = (rv, s2)
             /\ match rv with
                | Ret (Some v) => generate_output_file spin lfl v s2 = (r, st')
                | Ret None => r = Ret false /\ st' = s2
                | Raise e => r = Raise e /\ st' = s2
                end
       | Ret None => r = Ret false /\ st' = add_trace es s0
       | Raise e => r = Raise e /\ st' = add_trace es s0
       end.
Proof.
  unfold build, bind, modify. intros H. cbv zeta.
  set (s0 := set_tools (getCompiler ctr) (getLinker ctr) st) in *.
  destruct (assemble_flags_run ctr check_output s0) as (es & Hes & Hq).
  exists es. split; [assumption|].
  destruct (assemble_flags ctr check_output s0) as [rf s1] eqn:Hf.
  cbn [fst snd] in *. subst s1. split; [reflexivity|].
  destruct rf as [[[cfl lfl]|]|e]; try (injection H as <- <-; auto).
  unfold build_with_flags, bind in H.
  destruct (generate_object_files ctr spin fuel cfl (add_trace es s0))
    as [rv s2] eqn:Hg.
  exists rv, s2. split; [reflexivity|].
  destruct rv as [[v|]|e]; [assumption| |]; injection H as <- <-; auto.
Qed.

(** X10. Whatever a build returns, it only adds to the trace, and the
    processes it runs through [ProcessLogger] are command lines of the
    project, each no more often than the project lists it and in the order
    of the project: the
    compilations of its [.c] files with the configured compiler, then the
    link of all its objects into the artifact with the configured linker.
    When the flags cannot be assembled it runs none. *)
Theorem build_runs_only_project_commands
    (fuel : nat) (st st' : state) (r : result bool) :
  build ctr spin check_output fuel st = (r, st') ->
  exists new,
    trace st' = trace st ++ new
    /\ match fst (assemble_flags ctr check_output
                    (set_tools (getCompiler ctr) (getLinker ctr) st)) with
       | Ret (Some (cfl, lfl)) => sublist (spins new) (project_commands ctr st cfl lfl)
       | _ => spins new = []
       end.
Proof.
  intros H. apply build_inv in H. cbv zeta in H.
  destruct H as (es & Hq & _ & H).
  set (s0 := set_tools (getCompiler ctr) (getLinker ctr) st) in *.
  destruct (fst (assemble_flags ctr check_output s0)) as [[[cfl lfl]|]|e].
  - destruct H as (rv & s2 & Hg & H).
    apply generate_object_files_runs_only in Hg; [|reflexivity].
    destruct Hg as [(Hcfg & _ & new & Ht & Hsub) Hobjs].
    cbn [trace add_trace set_tools] in Ht. unfold project_commands.
    destruct rv as [[v|]|e].
    + apply generate_output_file_trace in H.
      exists (es ++ new ++ link_events s2 v lfl).
      split; [rewrite H, Ht, <- !app_assoc; reflexivity|].
      rewrite !spins_app, (spins_quiet es) by assumption. cbn [app].
      apply sublist_app; [assumption|].
      destruct Hcfg as (_ & _ & Hbp & _ & _ & Hld).
      unfold link_events. rewrite (Hobjs v eq_refl), Hbp, Hld.
      destruct (relink v); cbn; [reflexivity|apply sublist_nil_l].
    + destruct H as [_ ->]. exists (es ++ new).
      split; [rewrite Ht, <- app_assoc; reflexivity|].
      rewrite spins_app, (spins_quiet es) by assumption. cbn [app].
      apply sublist_inserts_r. assumption.
    + destruct H as [_ ->]. exists (es ++ new).
      split; [rewrite Ht, <- app_assoc; reflexivity|].
      rewrite spins_app, (spins_quiet es) by assumption. cbn [app].
      apply sublist_inserts_r. assumption.
  - destruct H as [_ ->]. exists es. split; [reflexivity|].
    apply spins_quiet. assumption.
  - destruct H as [_ ->]. exists es. split; [reflexivity|].
    apply spins_quiet. assumption.
Qed.

(** What a build that returns [False] keeps. *)
Lemma failed_build_framed (p : string) (fuel : nat) (st st' : state) :
  build ctr spin check_output fuel st = (Ret false, st') ->
  md5key st' = md5key st /\ buildpath st' = buildpath st
  /\ (leaves_alone spin p -> fs st' !! p = fs st !! p).
Proof.
  intros H. apply build_inv in H. cbv zeta in H.
  destruct H as (es & _ & _ & H).
  set (s0 := set_tools (getCompiler ctr) (getLinker ctr) st) in *.
  destruct (fst (assemble_flags ctr check_output s0)) as [[[cfl lfl]|]|e].
  - destruct H as (rv & s2 & Hg & H).
    assert (leaves_alone spin p -> fs s2 !! p = fs st !! p) as Hkeep.
    { intros Hp. exact (generate_object_files_keeps_file _ _ _ _ _ _ Hp Hg). }
    apply generate_object_files_runs_only in Hg; [|reflexivity].
    destruct Hg as [((Hbp & _) & Hk & _) _].
    cbn [md5key buildpath add_trace set_tools s0] in Hk, Hbp.
    destruct rv as [[v|]|e].
    + rewrite generate_output_file_eq in H. cbv zeta in H.
      destruct (relink v).
      * destruct (fst (spin _ (fs s2)) =? 0)%Z.
        -- destruct (compute_file_md5 _ _); [|discriminate].
           destruct (_ !! _) as [[|]|]; discriminate.
        -- injection H as <-. cbn [fs md5key buildpath set_fs add_trace].
           split; [assumption|]. split; [assumption|].
           intros Hp. rewrite Hp. auto.
      * change (0 =? 0)%Z with true in H. cbv iota in H.
        destruct (compute_file_md5 _ _); [|discriminate].
        destruct (_ !! _) as [[|]|]; discriminate.
    + destruct H as [_ ->]. auto.
    + destruct H as [[=] _].
  - destruct H as [_ ->]. auto.
  - destruct H as [[=] _].
Qed.

(** What every build keeps. *)
Lemma build_framed (p : string) (fuel : nat) (st st' : state) (r : result bool) :
  build ctr spin check_output fuel st = (r, st') ->
  same_config (set_tools (getCompiler ctr) (getLinker ctr) st) st'
  /\ (leaves_alone spin p -> p <> _GetMD5FileName st -> fs st' !! p = fs st !! p).
Proof.
  intros H. apply build_inv in H. cbv zeta in H.
  destruct H as (es & _ & _ & H).
  set (s0 := set_tools (getCompiler ctr) (getLinker ctr) st) in *.
  destruct (fst (assemble_flags ctr check_output s0)) as [[[cfl lfl]|]|e].
  - destruct H as (rv & s2 & Hg & H).
    assert (leaves_alone spin p -> fs s2 !! p = fs st !! p) as Hkeep.
    { intros Hp. exact (generate_object_files_keeps_file _ _ _ _ _ _ Hp Hg). }
    apply generate_object_files_same_config in Hg.
    assert (same_config s0 s2) as Hcfg2
      by (eapply same_config_trans; [|exact Hg]; same_config_now).
    assert (_GetMD5FileName s2 = _GetMD5FileName st) as Hname.
    { destruct Hcfg2 as (Hbp & _). unfold _GetMD5FileName. rewrite Hbp.
      reflexivity. }
    destruct rv as [[v|]|e].
    + rewrite generate_output_file_eq in H. cbv zeta in H.
      destruct (if relink v then _ else _) as [status s3] eqn:Hs3.
      assert (same_config s2 s3
              /\ (leaves_alone spin p -> fs s3 !! p = fs s2 !! p)) as [Hcfg3 Hf3].
      { destruct (relink v); injection Hs3 as <- <-;
          (split; [same_config_now|]); [intros Hp; apply Hp|reflexivity]. }
      assert (same_config s0 s3) as Hcfg03
        by (eapply same_config_trans; eassumption).
      destruct (status =? 0)%Z.
      * destruct (compute_file_md5 _ _) as [k|e].
        -- destruct (fs s3 !! _GetMD5FileName s2) as [[|]|];
             injection H as <- <-;
             (split; [eapply same_config_trans; [exact Hcfg03|same_config_now]|]);
             intros Hp Hne; cbn [fs set_fs set_md5key];
             rewrite ?lookup_insert_ne by congruence;
             rewrite (Hf3 Hp); auto.
        -- injection H as <- <-. split; [assumption|].
           intros Hp _. rewrite (Hf3 Hp). auto.
      * injection H as <- <-. split; [assumption|].
        intros Hp _. rewrite (Hf3 Hp). auto.
    + destruct H as [_ ->]. split; [assumption|]. auto.
    + destruct H as [_ ->]. split; [assumption|]. auto.
  - destruct H as [_ ->]. split; [same_config_now|reflexivity].
  - destruct H as [_ ->]. split; [same_config_now|reflexivity].
Qed.

End Build.

Lemma build_runs_only_project_commands_witness :
  exists new,
    trace (snd (build Toy.ctr Toy.gcc Toy.print_sysroot 8 Toy.st))
    = trace Toy.st ++ new
    /\ match fst (assemble_flags Toy.ctr Toy.print_sysroot
                    (set_tools (getCompiler Toy.ctr) (getLinker Toy.ctr) Toy.st)) with
       | Ret (Some (cfl, lfl)) =>
           sublist (spins new) (project_commands Toy.ctr Toy.st cfl lfl)
       | _ => spins new = []
       end.
Proof.
  apply (build_runs_only_project_commands Toy.ctr Toy.gcc Toy.print_sysroot 8 Toy.st
           (snd (build Toy.ctr Toy.gcc Toy.print_sysroot 8 Toy.st))
           (fst (build Toy.ctr Toy.gcc Toy.print_sysroot 8 Toy.st))).
  vm_compute. reflexivity.
Defined.


Section Frame.

Variable ctr : CTR.
Variable spin : list string -> gmap string node -> Z * gmap string node.
Variable check_output : list string -> check_output_result.

Lemma leaves_alone_restrict (L : list (list string)) (p : string) :
  leaves_alone_on L spin p -> leaves_alone (restrict L spin) p.
Proof.
  intros H argv f. unfold restrict. destruct (bool_decide (argv ∈ L)) eqn:Hd.
  - apply H. apply bool_decide_eq_true_1 in Hd. assumption.
  - reflexivity.
Qed.

(** X11. A build that returns [False] leaves the fingerprint in memory as
    it was.  When the processes that this build ran leave the fingerprint
    file alone, that file is as it was too, and [GetBinaryMD5] goes on
    giving what it gave before the build. *)
Theorem failed_build_keeps_fingerprint (fuel : nat) (st st' : state) :
  build ctr spin check_output fuel st = (Ret false, st') ->
  md5key st' = md5key st
  /\ (leaves_alone_on (ran st st') spin (_GetMD5FileName st) ->
      fs st' !! _GetMD5FileName st' = fs st !! _GetMD5FileName st
      /\ GetBinaryMD5 st' = GetBinaryMD5 st).
Proof.
  intros H.
  destruct (failed_build_framed ctr spin check_output (_GetMD5FileName st) _ _ _ H)
    as (Hk & Hbp & _).
  split; [assumption|]. intros Hon.
  assert (_GetMD5FileName st' = _GetMD5FileName st) as Hname
    by (unfold _GetMD5FileName; rewrite Hbp; reflexivity).
  apply (build_sim ctr check_output spin (restrict (ran st st') spin)) in H;
    [|apply same_on_restrict].
  destruct (failed_build_framed ctr _ check_output (_GetMD5FileName st) _ _ _ H)
    as (_ & _ & Hf).
  specialize (Hf (leaves_alone_restrict _ _ Hon)).
  split; [rewrite Hname; assumption|].
  unfold GetBinaryMD5, read_text. rewrite Hk, Hname, Hf. reflexivity.
Qed.

(** X12. Whatever a build returns, it leaves the build path, the names of
    the artifact and the environment as they were and retrieves the
    compiler and the linker of the target.  It writes no file itself but the
    fingerprint file: what is at any other path stays, when the processes
    that this build ran leave that path alone. *)
Theorem build_writes_only_the_fingerprint_file
    (fuel : nat) (st st' : state) (r : result bool) :
  build ctr spin check_output fuel st = (r, st') ->
  buildpath st' = buildpath st /\ bin st' = bin st /\ bin_path st' = bin_path st
  /\ environ st' = environ st
  /\ compiler st' = target_Compiler ctr /\ linker st' = target_Linker ctr
  /\ forall p,
       p <> _GetMD5FileName st ->
       leaves_alone_on (ran st st') spin p ->
       fs st' !! p = fs st !! p.
Proof.
  intros H.
  destruct (build_framed ctr spin check_output EmptyString _ _ _ _ H)
    as ((Hbp & Hb & Hbpath & He & Hcc & Hld) & _).
  cbn [buildpath bin bin_path environ compiler linker set_tools] in *.
  unfold getCompiler, getLinker in *.
  repeat (split; [assumption|]).
  intros p Hne Hon.
  apply (build_sim ctr check_output spin (restrict (ran st st') spin)) in H;
    [|apply same_on_restrict].
  destruct (build_framed ctr _ check_output p _ _ _ _ H) as (_ & Hf).
  apply Hf; [apply leaves_alone_restrict|]; assumption.
Qed.

End Frame.

Lemma failed_build_keeps_fingerprint_witness :
  let st' := snd (build Toy.ctr_misplaced Toy.cc Toy.print_sysroot 8 Toy.edited) in
  md5key st' = md5key Toy.edited
  /\ fs st' !! _GetMD5FileName st' = fs Toy.edited !! _GetMD5FileName Toy.edited
  /\ GetBinaryMD5 st' = GetBinaryMD5 Toy.edited.
Proof.
  cbv zeta.
  destruct (failed_build_keeps_fingerprint Toy.ctr_misplaced Toy.cc Toy.print_sysroot 8
              Toy.edited
              (snd (build Toy.ctr_misplaced Toy.cc Toy.print_sysroot 8 Toy.edited)))
    as [Hk Hf].
  - vm_compute. reflexivity.
  - split; [exact Hk|]. apply Hf.
    assert (ran Toy.edited
              (snd (build Toy.ctr_misplaced Toy.cc Toy.print_sysroot 8 Toy.edited))
            = [cc_argv "gcc" "/other/util.c" ["-fPIC"] []]) as ->
      by (vm_compute; reflexivity).
    intros argv Hin f.
    apply elem_of_cons in Hin as [->|Hin]; [|apply elem_of_nil in Hin; contradiction].
    apply toy_cc_keeps. vm_compute. discriminate.
Defined.

Lemma build_writes_only_the_fingerprint_file_witness :
  let st' := snd (build Toy.ctr Toy.cc Toy.print_sysroot 8 Toy.st) in
  buildpath st' = buildpath Toy.st /\ bin st' = bin Toy.st
  /\ bin_path st' = bin_path Toy.st
  /\ environ st' = environ Toy.st
  /\ compiler st' = target_Compiler Toy.ctr /\ linker st' = target_Linker Toy.ctr
  /\ fs st' !! "/build/main.c" = fs Toy.st !! "/build/main.c".
Proof.
  cbv zeta.
  destruct (build_writes_only_the_fingerprint_file Toy.ctr Toy.cc Toy.print_sysroot 8
              Toy.st (snd (build Toy.ctr Toy.cc Toy.print_sysroot 8 Toy.st))
              (fst (build Toy.ctr Toy.cc Toy.print_sysroot 8 Toy.st)))
    as (H1 & H2 & H3 & H4 & H5 & H6 & Hf).
  - vm_compute. reflexivity.
  - repeat (split; [assumption|]). apply Hf.
    + vm_compute. discriminate.
    + assert (ran Toy.st (snd (build Toy.ctr Toy.cc Toy.print_sysroot 8 Toy.st))
              = [cc_argv "gcc" "/build/main.c" ["-fPIC"] ["-Wall"];
                 cc_argv "gcc" "/build/util.c" ["-fPIC"] [];
                 link_argv "gcc" ["/build/main.o"; "/build/util.o"] "/build/plc.so"
                   ["-lm"; "-shared"]]) as -> by (vm_compute; reflexivity).
      intros argv Hin f.
      repeat (apply elem_of_cons in Hin as [->|Hin]);
        [| | |apply elem_of_nil in Hin; contradiction];
        apply toy_cc_keeps; vm_compute; discriminate.
Defined.

(** ** [SetBuildPath] *)

Section Paths.

Variable ctr : CTR.
Variable extension : string.

(** X13. Pointing the toolchain at another build path forgets the build:
    the artifact is then looked for under the new path, the fingerprint is
    read from the fingerprint file of the new path, and no unit is found
    unchanged, whatever the files are.  Coming back to the former path does
    not bring the cache back.  No file is touched. *)
Theorem moving_the_build_path_forgets_the_build (p : string) (st : state) :
  buildpath st <> p ->
  let st1 := SetBuildPath ctr extension p st in
  buildpath st1 = p
  /\ GetBinaryPath st1 = Posixpath.join p (ProjectName ctr +:+ extension)
  /\ GetBinaryMD5 st1 = read_text (fs st) (Posixpath.join p "lastbuildPLC.md5")
  /\ (forall fs' fuel bn,
        fst (check_and_update_hash_and_deps (buildpath st1) fs' fuel bn (srcmd5 st1))
        <> Ret true)
  /\ srcmd5 (SetBuildPath ctr extension (buildpath st) st1) = ∅
  /\ fs st1 = fs st.
Proof.
  intros Hne. cbv zeta.
  assert (SetBuildPath ctr extension p st
          = set_srcmd5 ∅
              (set_md5key None
                 (set_paths p (ProjectName ctr +:+ extension)
                    (Posixpath.join p (ProjectName ctr +:+ extension)) st))) as ->.
  { unfold SetBuildPath. rewrite bool_decide_eq_false_2 by assumption. reflexivity. }
  split; [reflexivity|]. split; [reflexivity|]. split; [reflexivity|].
  split; [intros fs' fuel bn; apply check_without_entry, lookup_empty|].
  split; [|reflexivity].
  unfold SetBuildPath. cbn [buildpath set_srcmd5 set_md5key set_paths].
  destruct (bool_decide (p = buildpath st)); reflexivity.
Qed.

(** X14. Setting the build path to what it already is changes nothing, so
    the cache and the fingerprint survive it; and setting a path twice is
    setting it once. *)
Theorem setting_the_same_build_path_keeps_the_build (p : string) (st : state) :
  SetBuildPath ctr extension (buildpath st) st = st
  /\ SetBuildPath ctr extension p (SetBuildPath ctr extension p st)
     = SetBuildPath ctr extension p st.
Proof.
  assert (forall q s, buildpath s = q -> SetBuildPath ctr extension q s = s) as Hsame.
  { intros q s Hs. unfold SetBuildPath. rewrite bool_decide_eq_true_2 by assumption.
    reflexivity. }
  split; [apply Hsame; reflexivity|]. apply Hsame.
  unfold SetBuildPath. destruct (bool_decide (buildpath st = p)) eqn:Hd.
  - apply bool_decide_eq_true_1 in Hd. assumption.
  - reflexivity.
Qed.

End Paths.

Lemma moving_the_build_path_forgets_the_build_witness :
  let st1 := SetBuildPath Toy.ctr ".so" "/elsewhere" Toy.built in
  buildpath st1 = "/elsewhere"
  /\ GetBinaryPath st1 = Posixpath.join "/elsewhere" (ProjectName Toy.ctr +:+ ".so")
  /\ GetBinaryMD5 st1
     = read_text (fs Toy.built) (Posixpath.join "/elsewhere" "lastbuildPLC.md5")
  /\ (forall fs' fuel bn,
        fst (check_and_update_hash_and_deps (buildpath st1) fs' fuel bn (srcmd5 st1))
        <> Ret true)
  /\ srcmd5 (SetBuildPath Toy.ctr ".so" (buildpath Toy.built) st1) = ∅
  /\ fs st1 = fs Toy.built.
Proof.
  apply (moving_the_build_path_forgets_the_build Toy.ctr ".so" "/elsewhere" Toy.built).
  vm_compute. discriminate.
Defined.
